(** * Scaled dot-product attention and multi-head attention (Flax notebooks)

    A shallow embedding of the two modules of the repository,

    - [SelfAttention]       (Self_Attention_Mechanism_in_Flax.ipynb)
    - [MultiHeadAttention]  (Implementing_Multi_Head_Attention_in_Flax.ipynb)

    Both are a handful of calls into [jax.numpy] and [flax.linen].  The
    array operations they call are modelled on dense row-major arrays
    (a shape and a flat buffer), the way NumPy and JAX define them; the
    two [__call__] methods are then transcribed line by line in an
    error monad.

    Array elements are real numbers: the development reasons about the
    exact arithmetic that the float32 computation approximates.  A second
    transcription of the two calls, [F32], keeps the float32 range: its
    values are the reals within the largest finite float32, the two
    infinities and NaN; its operations overflow to an infinity and
    propagate infinities and NaN as IEEE 754 prescribes, and are exact
    otherwise.  Rounding is outside both models.  Within the range the two
    transcriptions return the same arrays; what fails outside it is stated
    on [F32]. *)

From Stdlib Require Import List Arith ZArith Bool Lia Permutation Finite.
From Stdlib Require Import Reals Lra.
Import ListNotations.

(** ** Errors *)

(** The exceptions a forward call can raise. *)
Inductive error : Type :=
| IndexError            (* indexing the shape of a rank-0 array *)
| ValueError            (* tuple unpacking of the wrong arity, bad axes *)
| TypeError             (* incompatible shapes, a negative dimension *)
| ZeroDivisionError     (* a -1 dimension or a fan that cannot be computed *)
| ScopeParamShapeError. (* stored parameter of an unexpected shape *)

Inductive result (A : Type) : Type :=
| Ok (a : A)
| Raise (e : error).

Arguments Ok {A} a.
Arguments Raise {A} e.

Definition bind {A B : Type} (c : result A) (k : A -> result B) : result B :=
  match c with
  | Ok a => k a
  | Raise e => Raise e
  end.

Notation "x <- c ;; k" := (bind c (fun x => k))
  (at level 61, c at next level, right associativity).

(** Equality of two tuples of dimensions. *)
Fixpoint list_eqb {A : Type} (eqb : A -> A -> bool) (a b : list A) : bool :=
  match a, b with
  | [], [] => true
  | x :: a', y :: b' => eqb x y && list_eqb eqb a' b'
  | _, _ => false
  end.

(** ** Dense arrays *)

(** An array is its shape and its elements in row-major order. *)
Record tensor : Type := mkTensor {
  shape : list nat;
  data  : list R
}.

(** Number of elements of an array of a given shape. *)
Definition size_of (sh : list nat) : nat := fold_right Nat.mul 1 sh.

(** Row-major offset of a multi-index. *)
Fixpoint ravel (sh idx : list nat) : nat :=
  match sh, idx with
  | _ :: sh', i :: idx' => i * size_of sh' + ravel sh' idx'
  | _, _ => 0
  end.

(** [t[idx]] *)
Definition get (t : tensor) (idx : list nat) : R :=
  nth (ravel (shape t) idx) (data t) 0%R.

(** All multi-indices of a shape, in row-major order. *)
Fixpoint indices (sh : list nat) : list (list nat) :=
  match sh with
  | [] => [[]]
  | n :: sh' => flat_map (fun i => map (cons i) (indices sh')) (seq 0 n)
  end.

(** The array of shape [sh] whose element at [idx] is [f idx]. *)
Definition build (sh : list nat) (f : list nat -> R) : tensor :=
  mkTensor sh (map f (indices sh)).

(** [idx] is a valid multi-index of an array of shape [sh]. *)
Definition in_bounds (sh idx : list nat) : Prop := Forall2 lt idx sh.

(** Finite sums [sum_{j < n} f j]. *)
Fixpoint Rsum (n : nat) (f : nat -> R) : R :=
  match n with
  | O => 0%R
  | S m => (Rsum m f + f m)%R
  end.

(** Sum of the elements of a list. *)
Definition Rlist_sum (l : list R) : R := fold_right Rplus 0%R l.

(** Largest element of a list; the empty case is never reached by a
    reduction along a non-empty axis. *)
Definition Rlist_max (l : list R) : R :=
  match l with
  | [] => 0%R
  | a :: l' => fold_left Rmax l' a
  end.

(** ** The [jax.numpy] operations the modules call *)

Module jnp.

(** Position of axis [k] in the axis list of a transposition. *)
Fixpoint index_of (k : nat) (axes : list nat) : nat :=
  match axes with
  | [] => 0
  | a :: axes' => if a =? k then 0 else S (index_of k axes')
  end.

(** [axes] lists every axis [0 .. rank-1] exactly once. *)
Definition is_permutation (axes : list nat) (rank : nat) : bool :=
  (length axes =? rank) &&
  forallb (fun k => existsb (Nat.eqb k) axes) (seq 0 rank).

(** Element [idx] of a transposed array: the source index has, on axis
    [k], the component of [idx] that sits where [axes] mentions [k]. *)
Definition transpose_elem (a : tensor) (axes : list nat) (idx : list nat) : R :=
  get a (map (fun k => nth (index_of k axes) idx 0)
             (seq 0 (length (shape a)))).

(** [a.transpose(axes...)]: axis [i] of the result is axis [axes[i]] of [a]. *)
Definition transpose (a : tensor) (axes : list nat) : result tensor :=
  let rank := length (shape a) in
  if is_permutation axes rank then
    Ok (build (map (fun ax => nth ax (shape a) 0) axes) (transpose_elem a axes))
  else Raise ValueError.

(** Product of the requested dimensions. *)
Definition zprod (dims : list Z) : Z := fold_right Z.mul 1%Z dims.

(** [a.reshape(newshape...)].  The buffer is kept; only the shape changes.
    One dimension may be [-1]: it is inferred from the size of the array
    and the remaining dimensions, which is a division by their product.
    When that product is zero nothing can be inferred: NumPy refuses
    ("cannot reshape array of size 0 into shape (1,0,newaxis)") and JAX,
    which computes [size % product] first, raises a division by zero. *)
Definition reshape (a : tensor) (newshape : list Z) : result tensor :=
  let size := Z.of_nat (size_of (shape a)) in
  match length (filter (Z.eqb (-1)) newshape) with
  | 0 =>
      if forallb (Z.leb 0) newshape && (size =? zprod newshape)%Z
      then Ok (mkTensor (map Z.to_nat newshape) (data a))
      else Raise TypeError
  | 1 =>
      let other := zprod (filter (fun d => negb (d =? -1)%Z) newshape) in
      if (other =? 0)%Z then Raise ZeroDivisionError
      else if forallb (Z.leb (-1)) newshape && (size mod other =? 0)%Z
      then Ok (mkTensor
                 (map (fun d => Z.to_nat (if (d =? -1)%Z then size / other else d)%Z)
                      newshape)
                 (data a))
      else Raise TypeError
  | _ => Raise ValueError
  end.

(** Element [idx] of a stacked matrix product with [r] leading axes and
    inner dimension [k]. *)
Definition matmul_elem (a b : tensor) (r k : nat) (idx : list nat) : R :=
  let pre := firstn r idx in
  let i := nth r idx 0 in
  let j := nth (S r) idx 0 in
  Rsum k (fun l => (get a (pre ++ [i; l]) * get b (pre ++ [l; j]))%R).

(** [jnp.matmul(a, b)] on stacks of matrices: the product is taken over
    the last two axes, for each index of the leading axes.  The modules
    only multiply arrays of rank at least two with identical leading
    axes; broadcasting of leading axes is not modelled. *)
Definition matmul (a b : tensor) : result tensor :=
  match rev (shape a), rev (shape b) with
  | k :: n :: ra, m :: k' :: rb =>
      if (k =? k') && list_eqb Nat.eqb ra rb
      then
        let batch := rev ra in
        Ok (build (batch ++ [n; m]) (matmul_elem a b (length batch) k))
      else Raise TypeError
  | _, _ => Raise TypeError
  end.

(** [a / c] for a scalar [c]. *)
Definition divide (a : tensor) (c : R) : tensor :=
  mkTensor (shape a) (map (fun v => v / c)%R (data a)).

(** [jnp.sqrt(n)] of a Python integer. *)
Definition sqrt (n : Z) : R := R_sqrt.sqrt (IZR n).

End jnp.

(** ** The [flax.linen] operations the modules call *)

Module nn.

(** The variables of one [nn.Dense] layer. *)
Record DenseParams : Type := mkDense {
  kernel : tensor;
  bias   : tensor
}.

(** The last-axis slice [x[pre, :]] of length [n]. *)
Definition row (x : tensor) (pre : list nat) (n : nat) : list R :=
  map (fun j => get x (pre ++ [j])) (seq 0 n).

(** Element [idx] of the softmax along a last axis of length [n]. *)
Definition softmax_elem (x : tensor) (n : nat) (idx : list nat) : R :=
  let r := row x (removelast idx) n in
  let x_max := Rlist_max r in
  let unnormalized := fun v => exp (v - x_max) in
  (unnormalized (get x idx) / Rlist_sum (map unnormalized r))%R.

(** [nn.softmax(x, axis=-1)]: along the last axis, subtract the maximum,
    exponentiate, divide by the sum. *)
Definition softmax (x : tensor) : result tensor :=
  match rev (shape x) with
  | [] => Raise ValueError
  | n :: _ => Ok (build (shape x) (softmax_elem x n))
  end.

(** Element [idx] of [inputs @ kernel + bias], the contraction running
    over the [din] entries of the last axis of [inputs]. *)
Definition Dense_elem (p : DenseParams) (inputs : tensor) (din : nat)
  (idx : list nat) : R :=
  let pre := removelast idx in
  let j := last idx 0 in
  (Rsum din (fun l => get inputs (pre ++ [l]) * get (kernel p) [l; j])
   + get (bias p) [j])%R.

(** [nn.Dense(features)(inputs)] applied with stored variables.  Before it
    uses a stored kernel, flax evaluates the kernel initialiser abstractly
    on the shape [(inputs.shape[-1], features)] and compares the shape it
    gets with the stored one.  The default initialiser, [lecun_normal],
    first computes its fans as [prod(shape) / in / out], a division by zero
    when the input dimension or the feature count is 0, and cannot draw an
    array of a negative dimension.  Then the kernel must have that shape
    and the bias shape [(features,)]; the result is
    [inputs @ kernel + bias] over the last axis. *)
Definition Dense (features : Z) (p : DenseParams) (inputs : tensor)
  : result tensor :=
  match rev (shape inputs) with
  | [] => Raise IndexError
  | din :: lead =>
      if (din =? 0) || (features =? 0)%Z then Raise ZeroDivisionError
      else if (features <? 0)%Z then Raise TypeError
      else if list_eqb Z.eqb (map Z.of_nat (shape (kernel p)))
                             [Z.of_nat din; features]
              && list_eqb Z.eqb (map Z.of_nat (shape (bias p))) [features]
      then Ok (build (rev lead ++ [Z.to_nat features]) (Dense_elem p inputs din))
      else Raise ScopeParamShapeError
  end.

(** The variables of a [Dense] layer as initialised for inputs of
    trailing dimension [din] and [features] output features. *)
Definition initialised (p : DenseParams) (din features : nat) : Prop :=
  shape (kernel p) = [din; features] /\ shape (bias p) = [features].

End nn.

(** ** Single-head self-attention *)

Module SelfAttention.

(** The module's dataclass fields. *)
Record t : Type := mk {
  embed_dim : Z;  (* Dimension of the input embeddings *)
  head_dim  : Z   (* Dimension per attention head *)
}.

(** [SelfAttention(embed_dim=..., head_dim=...)]: the dataclass constructor
    stores its fields. *)
Definition new (embed_dim head_dim : Z) : result t :=
  Ok (mk embed_dim head_dim).

(** The sub-layers declared by [setup]: the feature count of each
    projection. *)
Record layers : Type := mkLayers {
  query : Z;
  key   : Z;
  value : Z
}.

Definition setup (self : t) : result layers :=
  Ok (mkLayers (head_dim self) (head_dim self) (head_dim self)).

(** The variables of the module, one entry per sub-layer. *)
Record params : Type := mkParams {
  p_query : nn.DenseParams;
  p_key   : nn.DenseParams;
  p_value : nn.DenseParams
}.

(** [model.apply(params, x)], that is [setup] followed by [__call__]. *)
Definition call (self : t) (variables : params) (x : tensor)
  : result (tensor * tensor) :=
  ly <- setup self ;;
  q <- nn.Dense (query ly) (p_query variables) x ;;
  k <- nn.Dense (key ly) (p_key variables) x ;;
  v <- nn.Dense (value ly) (p_value variables) x ;;
  kT <- jnp.transpose k [0; 2; 1] ;;
  scores <- jnp.matmul q kT ;;
  let scores := jnp.divide scores (jnp.sqrt (head_dim self)) in
  attn_weights <- nn.softmax scores ;;
  output <- jnp.matmul attn_weights v ;;
  Ok (output, attn_weights).

(** The variables as [model.init] creates them from an example input of
    trailing dimension [din]. *)
Definition initialised (self : t) (variables : params) (din hd : nat) : Prop :=
  head_dim self = Z.of_nat hd /\
  nn.initialised (p_query variables) din hd /\
  nn.initialised (p_key variables) din hd /\
  nn.initialised (p_value variables) din hd.

End SelfAttention.

(** ** Multi-head attention *)

Module MultiHeadAttention.

Record t : Type := mk {
  embed_dim : Z;  (* Dimension of input embeddings *)
  num_heads : Z;  (* Number of attention heads *)
  head_dim  : Z   (* Dimension per head *)
}.

Definition new (embed_dim num_heads head_dim : Z) : result t :=
  Ok (mk embed_dim num_heads head_dim).

Record layers : Type := mkLayers {
  query : Z;
  key   : Z;
  value : Z;
  out   : Z
}.

Definition setup (self : t) : result layers :=
  Ok (mkLayers (num_heads self * head_dim self)
               (num_heads self * head_dim self)
               (num_heads self * head_dim self)
               (embed_dim self)).

Record params : Type := mkParams {
  p_query : nn.DenseParams;
  p_key   : nn.DenseParams;
  p_value : nn.DenseParams;
  p_out   : nn.DenseParams
}.

(** [.reshape(batch_size, seq_len, num_heads, head_dim).transpose(0, 2, 1, 3)] *)
Definition split_heads (self : t) (batch_size seq_len : nat) (a : tensor)
  : result tensor :=
  a' <- jnp.reshape a [Z.of_nat batch_size; Z.of_nat seq_len;
                       num_heads self; head_dim self] ;;
  jnp.transpose a' [0; 2; 1; 3].

Definition call (self : t) (variables : params) (x : tensor)
  : result (tensor * tensor) :=
  ly <- setup self ;;
  match shape x with
  | [batch_size; seq_len; _] =>
      q0 <- nn.Dense (query ly) (p_query variables) x ;;
      q <- split_heads self batch_size seq_len q0 ;;
      k0 <- nn.Dense (key ly) (p_key variables) x ;;
      k <- split_heads self batch_size seq_len k0 ;;
      v0 <- nn.Dense (value ly) (p_value variables) x ;;
      v <- split_heads self batch_size seq_len v0 ;;
      kT <- jnp.transpose k [0; 1; 3; 2] ;;
      scores <- jnp.matmul q kT ;;
      let scores := jnp.divide scores (jnp.sqrt (head_dim self)) in
      attn_weights <- nn.softmax scores ;;
      attn_output <- jnp.matmul attn_weights v ;;
      attn_output <- jnp.transpose attn_output [0; 2; 1; 3] ;;
      attn_output <- jnp.reshape attn_output
                       [Z.of_nat batch_size; Z.of_nat seq_len; (-1)%Z] ;;
      output <- nn.Dense (out ly) (p_out variables) attn_output ;;
      Ok (output, attn_weights)
  | _ => Raise ValueError
  end.

Definition initialised (self : t) (variables : params)
  (din nh hd ed : nat) : Prop :=
  num_heads self = Z.of_nat nh /\
  head_dim self = Z.of_nat hd /\
  embed_dim self = Z.of_nat ed /\
  nn.initialised (p_query variables) din (nh * hd) /\
  nn.initialised (p_key variables) din (nh * hd) /\
  nn.initialised (p_value variables) din (nh * hd) /\
  nn.initialised (p_out variables) (nh * hd) ed.

End MultiHeadAttention.

(** ** What the specification says the modules compute *)

Module AttentionSpec.

(** Linear Projection of one embedding vector [v] of dimension [din]:
    component [c] of [v @ W + b]. *)
Definition affine (p : nn.DenseParams) (din : nat) (v : nat -> R)
  (c : nat) : R :=
  (Rsum din (fun l => v l * get (nn.kernel p) [l; c]) + get (nn.bias p) [c])%R.

(** Linear Projection over the last axis of an input of shape
    [(batch, seq, din)]. *)
Definition linear (p : nn.DenseParams) (x : tensor) (din : nat)
  (b i c : nat) : R :=
  affine p din (fun l => get x [b; i; l]) c.

(** Scaled dot-product attention on one batch element: [Q], [K], [V] are
    indexed by position and feature. *)
Section ScaledDotProduct.

Variables Q K V : nat -> nat -> R.
Variable seq_len_k : nat.
Variable head_dim : nat.
Variable scale : R.

(** 1. [scores[i,j] = sum_d Q[i,d] * K[j,d]] *)
Definition scores (i j : nat) : R :=
  Rsum head_dim (fun d => Q i d * K j d)%R.

(** 2. [scaled[i,j] = scores[i,j] / sqrt(head_dim)] *)
Definition scaled (i j : nat) : R := (scores i j / scale)%R.

(** 3. [weights[i,:] = softmax(scaled[i,:])] *)
Definition weights (i j : nat) : R :=
  (exp (scaled i j) / Rsum seq_len_k (fun j' => exp (scaled i j')))%R.

(** 4. [output[i,d] = sum_j weights[i,j] * V[j,d]] *)
Definition output (i d : nat) : R :=
  Rsum seq_len_k (fun j => weights i j * V j d)%R.

End ScaledDotProduct.

(** The slice of head [h] out of a projection of width
    [num_heads * head_dim]: features [h * head_dim .. (h+1) * head_dim - 1]. *)
Definition head_slice (P : nat -> nat -> nat -> R) (head_dim : nat)
  (b h : nat) : nat -> nat -> R :=
  fun i d => P b i (h * head_dim + d).

(** Heads concatenated along the feature axis in head-index order. *)
Definition concat_heads (heads : nat -> nat -> nat -> nat -> R)
  (head_dim : nat) (b i f : nat) : R :=
  heads b (f / head_dim) i (f mod head_dim).

(** Multi-head attention on projections [Q], [K], [V] of shape
    [(batch, seq, num_heads * head_dim)]: attention is computed for each
    pair of a batch element and a head, on the head's slice. *)
Section MultiHead.

Variables Q K V : nat -> nat -> nat -> R.
Variable seq_len : nat.
Variable head_dim : nat.
Variable scale : R.

Definition head_weights (b h i j : nat) : R :=
  weights (head_slice Q head_dim b h) (head_slice K head_dim b h)
          seq_len head_dim scale i j.

Definition head_output (b h i d : nat) : R :=
  output (head_slice Q head_dim b h) (head_slice K head_dim b h)
         (head_slice V head_dim b h) seq_len head_dim scale i d.

Definition concat (b i f : nat) : R :=
  concat_heads head_output head_dim b i f.

End MultiHead.

End AttentionSpec.

(** ** Properties of a forward result *)

(** [output] and [attn_weights], for an input of shape [(B, S, d)], are
    what scaled dot-product attention prescribes on the three projections
    of [x]. *)
Definition single_head_result (self : SelfAttention.t)
  (variables : SelfAttention.params) (x : tensor) (B S d hd : nat)
  (output attn_weights : tensor) : Prop :=
  let Q := AttentionSpec.linear (SelfAttention.p_query variables) x d in
  let K := AttentionSpec.linear (SelfAttention.p_key variables) x d in
  let V := AttentionSpec.linear (SelfAttention.p_value variables) x d in
  let scale := R_sqrt.sqrt (IZR (SelfAttention.head_dim self)) in
  (forall b i j, b < B -> i < S -> j < S ->
     get attn_weights [b; i; j]
     = AttentionSpec.weights (Q b) (K b) S hd scale i j) /\
  (forall b i c, b < B -> i < S -> c < hd ->
     get output [b; i; c]
     = AttentionSpec.output (Q b) (K b) (V b) S hd scale i c).

(** [output] and [attn_weights], for an input of shape [(B, S, d)], [H]
    heads of dimension [D] and [E] output features: the weights are those of
    attention on each head's slice of the three projections of width
    [H * D]; the output is the fourth projection of the head outputs
    concatenated in head-index order. *)
Definition multi_head_result (self : MultiHeadAttention.t)
  (variables : MultiHeadAttention.params) (x : tensor) (B S d H D E : nat)
  (output attn_weights : tensor) : Prop :=
  let Q := AttentionSpec.linear (MultiHeadAttention.p_query variables) x d in
  let K := AttentionSpec.linear (MultiHeadAttention.p_key variables) x d in
  let V := AttentionSpec.linear (MultiHeadAttention.p_value variables) x d in
  let scale := R_sqrt.sqrt (IZR (MultiHeadAttention.head_dim self)) in
  (forall b h i j, b < B -> h < H -> i < S -> j < S ->
     get attn_weights [b; h; i; j]
     = AttentionSpec.head_weights Q K S D scale b h i j) /\
  (forall b i e, b < B -> i < S -> e < E ->
     get output [b; i; e]
     = AttentionSpec.affine (MultiHeadAttention.p_out variables) (H * D)
         (AttentionSpec.concat Q K V S D scale b i) e).

(** The state of a multi-head call before the heads are merged:
    [attn_weights] as above, and [attn_output], of shape [(B, S, H, D)],
    holding the output of head [h] at [[b, i, h, :]]. *)
Definition heads_result (self : MultiHeadAttention.t)
  (variables : MultiHeadAttention.params) (x : tensor) (B S d H D : nat)
  (attn_output attn_weights : tensor) : Prop :=
  let Q := AttentionSpec.linear (MultiHeadAttention.p_query variables) x d in
  let K := AttentionSpec.linear (MultiHeadAttention.p_key variables) x d in
  let V := AttentionSpec.linear (MultiHeadAttention.p_value variables) x d in
  let scale := R_sqrt.sqrt (IZR (MultiHeadAttention.head_dim self)) in
  (forall b h i j, b < B -> h < H -> i < S -> j < S ->
     get attn_weights [b; h; i; j]
     = AttentionSpec.head_weights Q K S D scale b h i j) /\
  (forall b i h c, b < B -> i < S -> h < H -> c < D ->
     get attn_output [b; i; h; c]
     = AttentionSpec.head_output Q K V S D scale b h i c).

(** A row of [n] attention weights is a probability distribution. *)
Definition normalised_row (n : nat) (row : nat -> R) : Prop :=
  Rsum n row = 1%R /\ forall j, j < n -> (0 <= row j <= 1)%R.

(** Every row of a weight tensor of shape [(B, S, S)] is normalised. *)
Definition normalised3 (B S : nat) (attn_weights : tensor) : Prop :=
  forall b i, b < B -> i < S ->
    normalised_row S (fun j => get attn_weights [b; i; j]).

(** Every row of a weight tensor of shape [(B, H, S, S)] is normalised. *)
Definition normalised4 (B H S : nat) (attn_weights : tensor) : Prop :=
  forall b h i, b < B -> h < H -> i < S ->
    normalised_row S (fun j => get attn_weights [b; h; i; j]).

(** The entries of the score matrix [Q K^T] of batch element [b]. *)
Definition QKt (variables : SelfAttention.params) (x : tensor) (d hd : nat)
  (b i j : nat) : R :=
  AttentionSpec.scores
    (AttentionSpec.linear (SelfAttention.p_query variables) x d b)
    (AttentionSpec.linear (SelfAttention.p_key variables) x d b) hd i j.

(** ** The notebooks' example modules and inputs *)

(** [jnp.zeros(shape)] and [jnp.ones(shape)] *)
Definition zeros (sh : list nat) : tensor := build sh (fun _ => 0%R).
Definition ones (sh : list nat) : tensor := build sh (fun _ => 1%R).

(** ** Initialisation: [model.init(rng, x)] *)

(** [model.init] runs [__call__] once on an example input; a [Dense] layer
    met on the way creates its variables from the shape of its input: a
    kernel of shape [(inputs.shape[-1], features)] drawn by the kernel
    initialiser, and a bias of zeros of shape [(features,)].  The random
    draw is a parameter: [kernel_init] stands for the initialiser applied to
    the layer's random key. *)

(** The sub-layers, each with a random key of its own. *)
Inductive sublayer : Type := Query | Key | Value | Out.

(** [nn.Dense(features)(inputs)] in initialisation: the created variables
    and the layer's output.  A negative feature count is no shape. *)
Definition Dense_init (kernel_init : list nat -> result tensor)
  (features : Z) (inputs : tensor) : result (nn.DenseParams * tensor) :=
  match rev (shape inputs) with
  | [] => Raise IndexError
  | din :: _ =>
      if (features <? 0)%Z then Raise TypeError
      else
        kernel <- kernel_init [din; Z.to_nat features] ;;
        let p := nn.mkDense kernel (zeros [Z.to_nat features]) in
        y <- nn.Dense features p inputs ;;
        Ok (p, y)
  end.

(** [SelfAttention.init]: [__call__] with the three layers created on the
    way; the variables are returned, the outputs dropped. *)
Definition SelfAttention_init
  (kernel_init : sublayer -> list nat -> result tensor)
  (self : SelfAttention.t) (x : tensor) : result SelfAttention.params :=
  ly <- SelfAttention.setup self ;;
  q <- Dense_init (kernel_init Query) (SelfAttention.query ly) x ;;
  k <- Dense_init (kernel_init Key) (SelfAttention.key ly) x ;;
  v <- Dense_init (kernel_init Value) (SelfAttention.value ly) x ;;
  kT <- jnp.transpose (snd k) [0; 2; 1] ;;
  scores <- jnp.matmul (snd q) kT ;;
  let scores := jnp.divide scores (jnp.sqrt (SelfAttention.head_dim self)) in
  attn_weights <- nn.softmax scores ;;
  output <- jnp.matmul attn_weights (snd v) ;;
  Ok (SelfAttention.mkParams (fst q) (fst k) (fst v)).

(** [MultiHeadAttention.init], likewise with four layers. *)
Definition MultiHeadAttention_init
  (kernel_init : sublayer -> list nat -> result tensor)
  (self : MultiHeadAttention.t) (x : tensor)
  : result MultiHeadAttention.params :=
  ly <- MultiHeadAttention.setup self ;;
  match shape x with
  | [batch_size; seq_len; _] =>
      q0 <- Dense_init (kernel_init Query) (MultiHeadAttention.query ly) x ;;
      q <- MultiHeadAttention.split_heads self batch_size seq_len (snd q0) ;;
      k0 <- Dense_init (kernel_init Key) (MultiHeadAttention.key ly) x ;;
      k <- MultiHeadAttention.split_heads self batch_size seq_len (snd k0) ;;
      v0 <- Dense_init (kernel_init Value) (MultiHeadAttention.value ly) x ;;
      v <- MultiHeadAttention.split_heads self batch_size seq_len (snd v0) ;;
      kT <- jnp.transpose k [0; 1; 3; 2] ;;
      scores <- jnp.matmul q kT ;;
      let scores :=
        jnp.divide scores (jnp.sqrt (MultiHeadAttention.head_dim self)) in
      attn_weights <- nn.softmax scores ;;
      attn_output <- jnp.matmul attn_weights v ;;
      attn_output <- jnp.transpose attn_output [0; 2; 1; 3] ;;
      attn_output <- jnp.reshape attn_output
                       [Z.of_nat batch_size; Z.of_nat seq_len; (-1)%Z] ;;
      o <- Dense_init (kernel_init Out) (MultiHeadAttention.out ly)
             attn_output ;;
      Ok (MultiHeadAttention.mkParams (fst q0) (fst k0) (fst v0) (fst o))
  | _ => Raise ValueError
  end.

(** For layer [l] the initialiser returns a kernel of the shape [sh] it is
    asked for. *)
Definition initialises (kernel_init : sublayer -> list nat -> result tensor)
  (l : sublayer) (sh : list nat) : Prop :=
  exists kernel, kernel_init l sh = Ok kernel /\ shape kernel = sh.

Module Notebook.

(** Variables of a [Dense] layer with [features] outputs, for inputs of
    trailing dimension [din].  The notebooks draw the kernel at random;
    any fixed values serve as an example. *)
Definition dense (din features : nat) : nn.DenseParams :=
  nn.mkDense (ones [din; features]) (zeros [features]).

(** An input of the notebooks' shape [(1, 5, 64)]: batch=1, seq_len=5. *)
Definition x : tensor := ones [1; 5; 64].

(** An input with an empty sequence. *)
Definition x_empty : tensor := zeros [1; 0; 64].

(** An input with an empty batch, and a single sequence without the batch
    axis. *)
Definition x_empty_batch : tensor := zeros [0; 5; 64].
Definition x_unbatched : tensor := ones [5; 64].

(** An initialiser for the examples: every kernel entry is 1. *)
Definition kernel_init (l : sublayer) (sh : list nat) : result tensor :=
  Ok (ones sh).

(** [model = SelfAttention(embed_dim=64, head_dim=32)] *)
Definition sa_model : SelfAttention.t := SelfAttention.mk 64 32.

Definition sa_params : SelfAttention.params :=
  SelfAttention.mkParams (dense 64 32) (dense 64 32) (dense 64 32).

(** [model = MultiHeadAttention(embed_dim=64, num_heads=4, head_dim=16)] *)
Definition mha_model : MultiHeadAttention.t := MultiHeadAttention.mk 64 4 16.

Definition mha_params : MultiHeadAttention.params :=
  MultiHeadAttention.mkParams (dense 64 64) (dense 64 64) (dense 64 64)
                              (dense 64 64).

End Notebook.

(** ** Small hand-checkable inputs *)

Module Small.

(** A single-head module on embeddings of dimension 1, sequence length 2:
    the query projection is constant ([W = 0], [b = 1]), the key projection
    is the identity, so [Q = [[1], [1]]] and [K = x = [[0], [1]]]. *)
Definition model : SelfAttention.t := SelfAttention.mk 1 1.

Definition params : SelfAttention.params :=
  SelfAttention.mkParams
    (nn.mkDense (mkTensor [1; 1] [0%R]) (mkTensor [1] [1%R]))
    (nn.mkDense (mkTensor [1; 1] [1%R]) (mkTensor [1] [0%R]))
    (nn.mkDense (mkTensor [1; 1] [1%R]) (mkTensor [1] [0%R])).

Definition x : tensor := mkTensor [1; 2; 1] [0%R; 1%R].

(** Modules configured with [embed_dim = 64] whose variables were
    initialised on inputs of trailing dimension 2. *)
Definition sa_model64 : SelfAttention.t := SelfAttention.mk 64 1.

Definition sa_params2 : SelfAttention.params :=
  SelfAttention.mkParams (Notebook.dense 2 1) (Notebook.dense 2 1)
                         (Notebook.dense 2 1).

Definition mha_model64 : MultiHeadAttention.t := MultiHeadAttention.mk 64 1 1.

Definition mha_params2 : MultiHeadAttention.params :=
  MultiHeadAttention.mkParams (Notebook.dense 2 1) (Notebook.dense 2 1)
                              (Notebook.dense 2 1) (Notebook.dense 1 64).

Definition x2 : tensor := ones [1; 1; 2].

End Small.

(** ** Modules and inputs with a dimension of size zero *)

Module Degenerate.

(** [SelfAttention(embed_dim=64, head_dim=0)] with variables of the shapes
    its layers ask for, kernels [(2, 0)] and biases [(0,)], and an input of
    shape [(2, 2, 2)]. *)
Definition sa_model : SelfAttention.t := SelfAttention.mk 64 0.

Definition sa_params : SelfAttention.params :=
  SelfAttention.mkParams (Notebook.dense 2 0) (Notebook.dense 2 0)
                         (Notebook.dense 2 0).

Definition x : tensor := ones [2; 2; 2].

(** An input whose embeddings have no component, of shape [(1, 5, 0)],
    and variables of the shapes the notebook's single-head module asks for
    on such an input. *)
Definition x_no_features : tensor := zeros [1; 5; 0].

Definition sa_params_no_features : SelfAttention.params :=
  SelfAttention.mkParams (Notebook.dense 0 32) (Notebook.dense 0 32)
                         (Notebook.dense 0 32).

(** [MultiHeadAttention(embed_dim=0, num_heads=4, head_dim=16)] with
    variables of the shapes its layers ask for on inputs of dimension 64. *)
Definition mha_model : MultiHeadAttention.t := MultiHeadAttention.mk 0 4 16.

Definition mha_params : MultiHeadAttention.params :=
  MultiHeadAttention.mkParams (Notebook.dense 64 64) (Notebook.dense 64 64)
                              (Notebook.dense 64 64) (Notebook.dense 64 0).

End Degenerate.

(** ** Agreement of two layers on part of their features *)

(** Two [Dense] layers for inputs of dimension [din] agree on output
    feature [f]: same kernel column, same bias entry. *)
Definition same_feature (din : nat) (p p' : nn.DenseParams) (f : nat) : Prop :=
  (forall l, l < din -> get (nn.kernel p') [l; f] = get (nn.kernel p) [l; f]) /\
  get (nn.bias p') [f] = get (nn.bias p) [f].

(** ** Re-ordering the heads *)

(** Layer [p'] is layer [p] with the blocks of [D] output features of the
    [H] heads re-ordered by [sigma]: kernel columns and bias entries. *)
Definition head_features_permuted (sigma : nat -> nat) (din H D : nat)
  (p p' : nn.DenseParams) : Prop :=
  (forall l h c, l < din -> h < H -> c < D ->
     get (nn.kernel p') [l; h * D + c] = get (nn.kernel p) [l; sigma h * D + c]) /\
  (forall h c, h < H -> c < D ->
     get (nn.bias p') [h * D + c] = get (nn.bias p) [sigma h * D + c]).

(** Layer [p'] is layer [p] with the blocks of [D] input features of the
    [H] heads re-ordered by [sigma]: kernel rows; the bias is the same. *)
Definition head_inputs_permuted (sigma : nat -> nat) (H D E : nat)
  (p p' : nn.DenseParams) : Prop :=
  (forall h c e, h < H -> c < D -> e < E ->
     get (nn.kernel p') [h * D + c; e] = get (nn.kernel p) [sigma h * D + c; e]) /\
  (forall e, e < E -> get (nn.bias p') [e] = get (nn.bias p) [e]).

(** ** Re-orderings *)

(** All the sizes in [dims] are non-zero. *)
Definition all_positive (dims : list nat) : bool :=
  forallb (Nat.ltb 0) dims.

(** [sigma] permutes the indices [0 .. n-1]. *)
Definition permutes (n : nat) (sigma : nat -> nat) : Prop :=
  (forall i, i < n -> sigma i < n) /\
  (forall i j, i < n -> j < n -> sigma i = sigma j -> i = j).

(** [x'] is [x] with the positions of every sequence re-ordered by
    [sigma]: [x'[b, i, :] = x[b, sigma i, :]]. *)
Definition reordered (sigma : nat -> nat) (B S d : nat) (x x' : tensor) : Prop :=
  forall b i l, b < B -> i < S -> l < d ->
    get x' [b; i; l] = get x [b; sigma i; l].

(** ** More small inputs *)

Module Pair.

(** Exchanges positions 0 and 1. *)
Definition swap (i : nat) : nat :=
  match i with
  | 0 => 1
  | 1 => 0
  | _ => i
  end.

(** Two sequences of two embeddings of dimension 2, and the same with the
    two positions of each sequence exchanged. *)
Definition x : tensor := mkTensor [2; 2; 2] [0; 1; 2; 3; 4; 5; 6; 7]%R.
Definition x_swapped : tensor := mkTensor [2; 2; 2] [2; 3; 0; 1; 6; 7; 4; 5]%R.

(** The same first batch element as [x], another second one. *)
Definition x_other : tensor := mkTensor [2; 2; 2] [0; 1; 2; 3; 9; 9; 9; 9]%R.

(** A single-head module with [head_dim = 2] and a two-head module with
    [head_dim = 1] and [embed_dim = 3], on embeddings of dimension 2. *)
Definition sa_model : SelfAttention.t := SelfAttention.mk 2 2.

Definition sa_params : SelfAttention.params :=
  SelfAttention.mkParams (Notebook.dense 2 2) (Notebook.dense 2 2)
                         (Notebook.dense 2 2).

Definition mha_model : MultiHeadAttention.t := MultiHeadAttention.mk 3 2 1.

Definition mha_params : MultiHeadAttention.params :=
  MultiHeadAttention.mkParams (Notebook.dense 2 2) (Notebook.dense 2 2)
                              (Notebook.dense 2 2) (Notebook.dense 2 3).

(** The same variables with another bias in the value projection. *)
Definition sa_params_value_bias : SelfAttention.params :=
  SelfAttention.mkParams (Notebook.dense 2 2) (Notebook.dense 2 2)
                         (nn.mkDense (ones [2; 2]) (ones [2])).

(** Variables of the two-head module whose heads differ, the same with
    the two heads exchanged, and variables that share head 0 only. *)
Definition head_layer : nn.DenseParams :=
  nn.mkDense (mkTensor [2; 2] [1; 2; 3; 4]%R) (mkTensor [2] [5; 6]%R).

Definition head_layer_swapped : nn.DenseParams :=
  nn.mkDense (mkTensor [2; 2] [2; 1; 4; 3]%R) (mkTensor [2] [6; 5]%R).

Definition head_layer_other : nn.DenseParams :=
  nn.mkDense (mkTensor [2; 2] [1; 8; 3; 9]%R) (mkTensor [2] [5; 7]%R).

Definition out_layer : nn.DenseParams :=
  nn.mkDense (mkTensor [2; 3] [1; 2; 3; 4; 5; 6]%R) (mkTensor [3] [7; 8; 9]%R).

Definition out_layer_swapped : nn.DenseParams :=
  nn.mkDense (mkTensor [2; 3] [4; 5; 6; 1; 2; 3]%R) (mkTensor [3] [7; 8; 9]%R).

Definition mha_params_heads : MultiHeadAttention.params :=
  MultiHeadAttention.mkParams head_layer head_layer head_layer out_layer.

Definition mha_params_heads_swapped : MultiHeadAttention.params :=
  MultiHeadAttention.mkParams head_layer_swapped head_layer_swapped
                              head_layer_swapped out_layer_swapped.

Definition mha_params_heads_other : MultiHeadAttention.params :=
  MultiHeadAttention.mkParams head_layer_other head_layer_other
                              (Notebook.dense 2 2) (Notebook.dense 2 3).

End Pair.

(** * The same operations on float32 values *)

(** The two modules compute in float32.  The definitions above give the
    exact arithmetic that this computation approximates; the ones below
    follow the same source lines on values that can also be infinite or
    NaN, so that what the code returns when a result leaves the float32
    range can be stated. *)

Module F32.

(** A float32 value: a finite number, an infinity or NaN.  A finite value
    is the real number it stands for.  An operation on finite values
    returns its exact result when that lies in the float32 range and an
    infinity otherwise; operations on infinities and NaN follow IEEE 754.
    Rounding to 24 significant bits, underflow and the sign of zero are
    not modelled. *)
Inductive value : Type :=
| Fin (r : R)
| PInf
| NInf
| NaN.

(** The largest finite float32, [(2 - 2^-23) * 2^127]. *)
Definition max_finite : R := IZR 340282346638528859811704183484516925440.

(** The float32 value of an operation whose exact result is [r]. *)
Definition of_exact (r : R) : value :=
  if Rlt_dec max_finite r then PInf
  else if Rlt_dec r (- max_finite) then NInf
  else Fin r.

(** [-a] *)
Definition opp (a : value) : value :=
  match a with
  | Fin x => Fin (- x)
  | PInf => NInf
  | NInf => PInf
  | NaN => NaN
  end.

(** [a + b]: opposite infinities have no sum. *)
Definition add (a b : value) : value :=
  match a, b with
  | NaN, _ => NaN
  | _, NaN => NaN
  | Fin x, Fin y => of_exact (x + y)
  | PInf, NInf => NaN
  | NInf, PInf => NaN
  | PInf, _ => PInf
  | _, PInf => PInf
  | NInf, _ => NInf
  | _, NInf => NInf
  end.

(** [a - b] *)
Definition sub (a b : value) : value := add a (opp b).

(** The infinity of a given sign. *)
Definition inf (positive : bool) : value := if positive then PInf else NInf.

(** An infinity of sign [positive] times [a]: zero times infinity is NaN. *)
Definition mul_inf (positive : bool) (a : value) : value :=
  match a with
  | NaN => NaN
  | PInf => inf positive
  | NInf => inf (negb positive)
  | Fin x =>
      if Rlt_dec 0 x then inf positive
      else if Rlt_dec x 0 then inf (negb positive)
      else NaN
  end.

(** [a * b] *)
Definition mul (a b : value) : value :=
  match a, b with
  | Fin x, Fin y => of_exact (x * y)
  | PInf, _ => mul_inf true b
  | NInf, _ => mul_inf false b
  | _, PInf => mul_inf true a
  | _, NInf => mul_inf false a
  | NaN, _ => NaN
  | _, NaN => NaN
  end.

(** [a / b]: a finite number over an infinity is zero, a non-zero number
    over zero is an infinity, zero over zero and an infinity over an
    infinity are NaN. *)
Definition div (a b : value) : value :=
  match a, b with
  | NaN, _ => NaN
  | _, NaN => NaN
  | Fin x, Fin y =>
      if Req_dec_T y 0 then
        if Rlt_dec 0 x then PInf else if Rlt_dec x 0 then NInf else NaN
      else of_exact (x / y)
  | Fin _, _ => Fin 0
  | PInf, Fin y => if Rlt_dec y 0 then NInf else PInf
  | NInf, Fin y => if Rlt_dec y 0 then PInf else NInf
  | _, _ => NaN
  end.

(** [exp(a)] *)
Definition exp (a : value) : value :=
  match a with
  | Fin x => of_exact (Rtrigo_def.exp x)
  | PInf => PInf
  | NInf => Fin 0
  | NaN => NaN
  end.

(** The larger of two values, as a reduction computes it: NaN if either
    is NaN. *)
Definition maximum (a b : value) : value :=
  match a, b with
  | NaN, _ => NaN
  | _, NaN => NaN
  | PInf, _ => PInf
  | _, PInf => PInf
  | NInf, _ => b
  | _, NInf => a
  | Fin x, Fin y => Fin (Rmax x y)
  end.

(** [sum_{j < n} f j], accumulated in index order. *)
Fixpoint sum (n : nat) (f : nat -> value) : value :=
  match n with
  | O => Fin 0
  | S m => add (sum m f) (f m)
  end.

Definition list_sum (l : list value) : value := fold_right add (Fin 0) l.

(** Largest element of a list; the reduction starts from [-inf]. *)
Definition list_max (l : list value) : value :=
  match l with
  | [] => NInf
  | a :: l' => fold_left maximum l' a
  end.

(** ** Arrays of float32 values *)

Record tensor : Type := mkTensor {
  shape : list nat;
  data  : list value
}.

Definition get (t : tensor) (idx : list nat) : value :=
  nth (ravel (shape t) idx) (data t) (Fin 0).

Definition build (sh : list nat) (f : list nat -> value) : tensor :=
  mkTensor sh (map f (indices sh)).

(** ** [jax.numpy] *)

Definition transpose_elem (a : tensor) (axes : list nat) (idx : list nat)
  : value :=
  get a (map (fun k => nth (jnp.index_of k axes) idx 0)
             (seq 0 (length (shape a)))).

(** [a.transpose(axes...)] *)
Definition transpose (a : tensor) (axes : list nat) : result tensor :=
  let rank := length (shape a) in
  if jnp.is_permutation axes rank then
    Ok (build (map (fun ax => nth ax (shape a) 0) axes) (transpose_elem a axes))
  else Raise ValueError.

(** [a.reshape(newshape...)] *)
Definition reshape (a : tensor) (newshape : list Z) : result tensor :=
  let size := Z.of_nat (size_of (shape a)) in
  match length (filter (Z.eqb (-1)) newshape) with
  | 0 =>
      if forallb (Z.leb 0) newshape && (size =? jnp.zprod newshape)%Z
      then Ok (mkTensor (map Z.to_nat newshape) (data a))
      else Raise TypeError
  | 1 =>
      let other := jnp.zprod (filter (fun d => negb (d =? -1)%Z) newshape) in
      if (other =? 0)%Z then Raise ZeroDivisionError
      else if forallb (Z.leb (-1)) newshape && (size mod other =? 0)%Z
      then Ok (mkTensor
                 (map (fun d => Z.to_nat (if (d =? -1)%Z then size / other else d)%Z)
                      newshape)
                 (data a))
      else Raise TypeError
  | _ => Raise ValueError
  end.

Definition matmul_elem (a b : tensor) (r k : nat) (idx : list nat) : value :=
  let pre := firstn r idx in
  let i := nth r idx 0 in
  let j := nth (S r) idx 0 in
  sum k (fun l => mul (get a (pre ++ [i; l])) (get b (pre ++ [l; j]))).

(** [jnp.matmul(a, b)] *)
Definition matmul (a b : tensor) : result tensor :=
  match rev (shape a), rev (shape b) with
  | k :: n :: ra, m :: k' :: rb =>
      if (k =? k') && list_eqb Nat.eqb ra rb
      then
        let batch := rev ra in
        Ok (build (batch ++ [n; m]) (matmul_elem a b (length batch) k))
      else Raise TypeError
  | _, _ => Raise TypeError
  end.

(** [a / c] for a scalar [c]. *)
Definition divide (a : tensor) (c : value) : tensor :=
  mkTensor (shape a) (map (fun v => div v c) (data a)).

(** [jnp.sqrt(n)] of a Python integer: NaN below zero. *)
Definition sqrt (n : Z) : value :=
  if (n <? 0)%Z then NaN else of_exact (R_sqrt.sqrt (IZR n)).

(** ** [flax.linen] *)

Record DenseParams : Type := mkDense {
  kernel : tensor;
  bias   : tensor
}.

Definition row (x : tensor) (pre : list nat) (n : nat) : list value :=
  map (fun j => get x (pre ++ [j])) (seq 0 n).

Definition softmax_elem (x : tensor) (n : nat) (idx : list nat) : value :=
  let r := row x (removelast idx) n in
  let x_max := list_max r in
  let unnormalized := fun v => exp (sub v x_max) in
  div (unnormalized (get x idx)) (list_sum (map unnormalized r)).

(** [nn.softmax(x, axis=-1)] *)
Definition softmax (x : tensor) : result tensor :=
  match rev (shape x) with
  | [] => Raise ValueError
  | n :: _ => Ok (build (shape x) (softmax_elem x n))
  end.

Definition Dense_elem (p : DenseParams) (inputs : tensor) (din : nat)
  (idx : list nat) : value :=
  let pre := removelast idx in
  let j := last idx 0 in
  add (sum din (fun l => mul (get inputs (pre ++ [l])) (get (kernel p) [l; j])))
      (get (bias p) [j]).

(** [nn.Dense(features)(inputs)] applied with stored variables. *)
Definition Dense (features : Z) (p : DenseParams) (inputs : tensor)
  : result tensor :=
  match rev (shape inputs) with
  | [] => Raise IndexError
  | din :: lead =>
      if (din =? 0) || (features =? 0)%Z then Raise ZeroDivisionError
      else if (features <? 0)%Z then Raise TypeError
      else if list_eqb Z.eqb (map Z.of_nat (shape (kernel p)))
                             [Z.of_nat din; features]
              && list_eqb Z.eqb (map Z.of_nat (shape (bias p))) [features]
      then Ok (build (rev lead ++ [Z.to_nat features]) (Dense_elem p inputs din))
      else Raise ScopeParamShapeError
  end.

(** ** [SelfAttention.__call__] *)

Record SelfAttention_params : Type := mkSelfAttention {
  sa_query : DenseParams;
  sa_key   : DenseParams;
  sa_value : DenseParams
}.

Definition SelfAttention_call (self : SelfAttention.t)
  (variables : SelfAttention_params) (x : tensor) : result (tensor * tensor) :=
  ly <- SelfAttention.setup self ;;
  q <- Dense (SelfAttention.query ly) (sa_query variables) x ;;
  k <- Dense (SelfAttention.key ly) (sa_key variables) x ;;
  v <- Dense (SelfAttention.value ly) (sa_value variables) x ;;
  kT <- transpose k [0; 2; 1] ;;
  scores <- matmul q kT ;;
  let scores := divide scores (sqrt (SelfAttention.head_dim self)) in
  attn_weights <- softmax scores ;;
  output <- matmul attn_weights v ;;
  Ok (output, attn_weights).

(** ** [MultiHeadAttention.__call__] *)

Record MultiHeadAttention_params : Type := mkMultiHeadAttention {
  mha_query : DenseParams;
  mha_key   : DenseParams;
  mha_value : DenseParams;
  mha_out   : DenseParams
}.

Definition split_heads (self : MultiHeadAttention.t)
  (batch_size seq_len : nat) (a : tensor) : result tensor :=
  a' <- reshape a [Z.of_nat batch_size; Z.of_nat seq_len;
                   MultiHeadAttention.num_heads self;
                   MultiHeadAttention.head_dim self] ;;
  transpose a' [0; 2; 1; 3].

Definition MultiHeadAttention_call (self : MultiHeadAttention.t)
  (variables : MultiHeadAttention_params) (x : tensor)
  : result (tensor * tensor) :=
  ly <- MultiHeadAttention.setup self ;;
  match shape x with
  | [batch_size; seq_len; _] =>
      q0 <- Dense (MultiHeadAttention.query ly) (mha_query variables) x ;;
      q <- split_heads self batch_size seq_len q0 ;;
      k0 <- Dense (MultiHeadAttention.key ly) (mha_key variables) x ;;
      k <- split_heads self batch_size seq_len k0 ;;
      v0 <- Dense (MultiHeadAttention.value ly) (mha_value variables) x ;;
      v <- split_heads self batch_size seq_len v0 ;;
      kT <- transpose k [0; 1; 3; 2] ;;
      scores <- matmul q kT ;;
      let scores := divide scores (sqrt (MultiHeadAttention.head_dim self)) in
      attn_weights <- softmax scores ;;
      attn_output <- matmul attn_weights v ;;
      attn_output <- transpose attn_output [0; 2; 1; 3] ;;
      attn_output <- reshape attn_output
                       [Z.of_nat batch_size; Z.of_nat seq_len; (-1)%Z] ;;
      output <- Dense (MultiHeadAttention.out ly) (mha_out variables)
                  attn_output ;;
      Ok (output, attn_weights)
  | _ => Raise ValueError
  end.

End F32.

(** ** Finite arrays as float32 arrays *)

(** The float32 array whose elements are the finite values of [t]. *)
Definition of_real (t : tensor) : F32.tensor :=
  F32.mkTensor (shape t) (map F32.Fin (data t)).

Definition Dense_of_real (p : nn.DenseParams) : F32.DenseParams :=
  F32.mkDense (of_real (nn.kernel p)) (of_real (nn.bias p)).

Definition SelfAttention_of_real (variables : SelfAttention.params)
  : F32.SelfAttention_params :=
  F32.mkSelfAttention (Dense_of_real (SelfAttention.p_query variables))
                      (Dense_of_real (SelfAttention.p_key variables))
                      (Dense_of_real (SelfAttention.p_value variables)).

Definition MultiHeadAttention_of_real (variables : MultiHeadAttention.params)
  : F32.MultiHeadAttention_params :=
  F32.mkMultiHeadAttention
    (Dense_of_real (MultiHeadAttention.p_query variables))
    (Dense_of_real (MultiHeadAttention.p_key variables))
    (Dense_of_real (MultiHeadAttention.p_value variables))
    (Dense_of_real (MultiHeadAttention.p_out variables)).

(** The result of an operation on finite arrays, as a float32 result. *)
Definition lift (r : result tensor) : result F32.tensor :=
  t <- r ;; Ok (of_real t).

(** ** Inputs and variables within the float32 range *)

(** The sum of the magnitudes of the terms of entry [[b, i, c]] of a linear
    projection.  No partial sum of the entry exceeds it, in whatever order
    the terms are accumulated. *)
Definition linear_magnitude (p : nn.DenseParams) (x : tensor) (din : nat)
  (b i c : nat) : R :=
  (Rsum din (fun l => Rabs (get x [b; i; l] * get (nn.kernel p) [l; c]))
   + Rabs (get (nn.bias p) [c]))%R.

(** Every entry of the projection of [x] by [p] has magnitude at most [M]. *)
Definition projection_bounded (M : R) (p : nn.DenseParams) (x : tensor)
  (B S din F : nat) : Prop :=
  forall b i c, b < B -> i < S -> c < F ->
    (linear_magnitude p x din b i c <= M)%R.

(** The single-head computation stays within the float32 range: the three
    projections are bounded by some [M] whose square, summed over the
    [head_dim] terms of a score, leaves room for the difference of two
    scores; [head_dim] and the sequence length are float32 numbers. *)
Definition SelfAttention_in_range (variables : SelfAttention.params)
  (x : tensor) (B S d hd : nat) : Prop :=
  exists M : R,
    (0 <= M)%R /\
    projection_bounded M (SelfAttention.p_query variables) x B S d hd /\
    projection_bounded M (SelfAttention.p_key variables) x B S d hd /\
    projection_bounded M (SelfAttention.p_value variables) x B S d hd /\
    (INR hd * (M * M) <= F32.max_finite / 2)%R /\
    (INR hd <= F32.max_finite)%R /\
    (INR S <= F32.max_finite)%R.

(** The multi-head computation stays within the float32 range: as above
    for the heads, and the output projection of head outputs bounded by
    [M] is in range. *)
Definition MultiHeadAttention_in_range (variables : MultiHeadAttention.params)
  (x : tensor) (B S d H D E : nat) : Prop :=
  exists M : R,
    (0 <= M)%R /\
    projection_bounded M (MultiHeadAttention.p_query variables) x B S d (H * D) /\
    projection_bounded M (MultiHeadAttention.p_key variables) x B S d (H * D) /\
    projection_bounded M (MultiHeadAttention.p_value variables) x B S d (H * D) /\
    (INR D * (M * M) <= F32.max_finite / 2)%R /\
    (INR D <= F32.max_finite)%R /\
    (INR S <= F32.max_finite)%R /\
    (forall e, e < E ->
       (M * Rsum (H * D)
              (fun f => Rabs (get (nn.kernel (MultiHeadAttention.p_out variables))
                                  [f; e]))
        + Rabs (get (nn.bias (MultiHeadAttention.p_out variables)) [e])
        <= F32.max_finite)%R).

(** ** An input that leaves the float32 range *)

Module Overflow.

(** One sequence of one embedding of dimension 1, holding [1e20]: within
    the float32 range, while its square [1e40] is not. *)
Definition x : tensor := mkTensor [1; 1; 1] [IZR 100000000000000000000].

(** [SelfAttention(embed_dim=1, head_dim=1)] with kernels of ones and
    biases of zeros. *)
Definition model : SelfAttention.t := SelfAttention.mk 1 1.

Definition params : SelfAttention.params :=
  SelfAttention.mkParams (Notebook.dense 1 1) (Notebook.dense 1 1)
                         (Notebook.dense 1 1).

End Overflow.

(** ** Facts about indexing *)

Lemma length_indices (sh : list nat) : length (indices sh) = size_of sh.
Proof.
  induction sh as [|n sh IH]; simpl; [reflexivity|].
  generalize 0 at 1. induction n as [|n IHn]; intros s; simpl; [reflexivity|].
  rewrite length_app, length_map, IH, IHn. reflexivity.
Qed.

Lemma ravel_lt (sh idx : list nat) :
  in_bounds sh idx -> ravel sh idx < size_of sh.
Proof.
  intros H. induction H as [|i n idx sh Hi _ IH]; simpl; [lia|].
  nia.
Qed.

Lemma nth_blocks (A : Type) (g : nat -> list A) (m : nat) (d : A) :
  (forall i, length (g i) = m) ->
  forall n s i r, i < n -> r < m ->
    nth (i * m + r) (flat_map g (seq s n)) d = nth r (g (s + i)) d.
Proof.
  intros Hg. induction n as [|n IH]; intros s i r Hi Hr; [lia|].
  simpl. destruct i as [|i].
  - simpl. rewrite app_nth1 by (rewrite Hg; exact Hr).
    rewrite Nat.add_0_r. reflexivity.
  - rewrite app_nth2 by (rewrite Hg; simpl; lia).
    rewrite Hg. replace (S i * m + r - m) with (i * m + r) by (simpl; lia).
    rewrite IH by lia. f_equal. f_equal. lia.
Qed.

Lemma nth_indices (sh idx : list nat) (d : list nat) :
  in_bounds sh idx -> nth (ravel sh idx) (indices sh) d = idx.
Proof.
  intros H. induction H as [|i n idx sh Hi Hb IH]; simpl; [reflexivity|].
  rewrite (nth_blocks _ (fun i => map (cons i) (indices sh)) (size_of sh)).
  - simpl. rewrite (nth_indep _ d (i :: d)).
    + rewrite (map_nth (cons i)). rewrite IH. reflexivity.
    + rewrite length_map, length_indices. apply ravel_lt. exact Hb.
  - intros k. rewrite length_map. apply length_indices.
  - exact Hi.
  - apply ravel_lt. exact Hb.
Qed.

Lemma get_build (sh : list nat) (f : list nat -> R) (idx : list nat) :
  in_bounds sh idx -> get (build sh f) idx = f idx.
Proof.
  intros H. unfold get, build; simpl.
  rewrite (nth_indep _ 0%R (f idx)).
  - rewrite (map_nth f). rewrite nth_indices by exact H. reflexivity.
  - rewrite length_map, length_indices. apply ravel_lt. exact H.
Qed.


Lemma in_bounds3 (A B C a b c : nat) :
  a < A -> b < B -> c < C -> in_bounds [A; B; C] [a; b; c].
Proof. intros; repeat constructor; assumption. Qed.

Lemma in_bounds4 (A B C D a b c d : nat) :
  a < A -> b < B -> c < C -> d < D -> in_bounds [A; B; C; D] [a; b; c; d].
Proof. intros; repeat constructor; assumption. Qed.

(** Discharges the side condition of [get_build]. *)
Ltac bounds :=
  first [apply in_bounds3 | apply in_bounds4]; first [assumption | lia | nia].

Lemma list_eqb_nat_refl (l : list nat) : list_eqb Nat.eqb l l = true.
Proof. induction l as [|a l IH]; simpl; [|rewrite Nat.eqb_refl]; auto. Qed.

(** ** The array model on small inputs *)

Example indices_2_3 :
  indices [2; 3] = [[0; 0]; [0; 1]; [0; 2]; [1; 0]; [1; 1]; [1; 2]].
Proof. reflexivity. Qed.

Example ravel_2_3 : ravel [2; 3] [1; 2] = 5.
Proof. reflexivity. Qed.

(** [np.arange(1, 7).reshape(2, 3).transpose(1, 0)] *)
Example transpose_2_3 :
  jnp.transpose (mkTensor [2; 3] [1; 2; 3; 4; 5; 6]%R) [1; 0]
  = Ok (mkTensor [3; 2] [1; 4; 2; 5; 3; 6]%R).
Proof. reflexivity. Qed.

Example transpose_bad_axes :
  jnp.transpose (mkTensor [2; 3] [1; 2; 3; 4; 5; 6]%R) [0; 2; 1]
  = Raise ValueError.
Proof. reflexivity. Qed.

(** [np.arange(1, 7).reshape(2, 3).reshape(3, -1)] *)
Example reshape_infers_dimension :
  jnp.reshape (mkTensor [2; 3] [1; 2; 3; 4; 5; 6]%R) [3; -1]%Z
  = Ok (mkTensor [3; 2] [1; 2; 3; 4; 5; 6]%R).
Proof. reflexivity. Qed.

Example reshape_wrong_size :
  jnp.reshape (mkTensor [2; 3] [1; 2; 3; 4; 5; 6]%R) [4; 2]%Z = Raise TypeError.
Proof. reflexivity. Qed.

(** An empty array reshapes to explicit dimensions, but a [-1] cannot be
    inferred next to a zero dimension. *)
Example reshape_empty_explicit :
  jnp.reshape (mkTensor [1; 0; 4] []) [1; 0; 2; 2]%Z
  = Ok (mkTensor [1; 0; 2; 2] []).
Proof. reflexivity. Qed.

Example reshape_empty_inferred :
  jnp.reshape (mkTensor [1; 0; 4] []) [1; 0; -1]%Z = Raise ZeroDivisionError.
Proof. reflexivity. Qed.

(** [[[1, 2], [3, 4]] @ [[5, 6], [7, 8]] = [[19, 22], [43, 50]]] *)
Example matmul_2_2 :
  exists c,
    jnp.matmul (mkTensor [1; 2; 2] [1; 2; 3; 4]%R)
               (mkTensor [1; 2; 2] [5; 6; 7; 8]%R) = Ok c /\
    shape c = [1; 2; 2] /\
    get c [0; 0; 0] = 19%R /\ get c [0; 0; 1] = 22%R /\
    get c [0; 1; 0] = 43%R /\ get c [0; 1; 1] = 50%R.
Proof.
  eexists. split; [reflexivity|]. split; [reflexivity|].
  unfold get; simpl. unfold jnp.matmul_elem, get; simpl. repeat split; lra.
Qed.

(** ** Facts about sums *)

Lemma Rsum_ext (n : nat) (f g : nat -> R) :
  (forall j, j < n -> f j = g j) -> Rsum n f = Rsum n g.
Proof.
  induction n as [|n IH]; intros H; simpl; [reflexivity|].
  rewrite IH by (intros; apply H; lia). rewrite H by lia. reflexivity.
Qed.

Lemma Rsum_scal (n : nat) (f : nat -> R) (c : R) :
  (Rsum n (fun j => f j * c) = Rsum n f * c)%R.
Proof. induction n as [|n IH]; simpl; [lra|]. rewrite IH. lra. Qed.

Lemma Rsum_const (n : nat) (c : R) : (Rsum n (fun _ => c) = INR n * c)%R.
Proof.
  induction n as [|n IH]; [simpl; lra|].
  rewrite S_INR. simpl. rewrite IH. lra.
Qed.

Lemma Rsum_nonneg (n : nat) (f : nat -> R) :
  (forall j, j < n -> (0 <= f j)%R) -> (0 <= Rsum n f)%R.
Proof.
  induction n as [|n IH]; intros H; simpl; [lra|].
  assert (0 <= Rsum n f)%R by (apply IH; intros; apply H; lia).
  assert (0 <= f n)%R by (apply H; lia). lra.
Qed.

Lemma Rsum_term_le (n : nat) (f : nat -> R) (j : nat) :
  (forall k, k < n -> (0 <= f k)%R) -> j < n -> (f j <= Rsum n f)%R.
Proof.
  induction n as [|n IH]; intros H Hj; [lia|]. simpl.
  assert (0 <= f n)%R by (apply H; lia).
  assert (0 <= Rsum n f)%R by (apply Rsum_nonneg; intros; apply H; lia).
  destruct (Nat.eq_dec j n) as [->|Hne]; [lra|].
  assert (f j <= Rsum n f)%R by (apply IH; [intros; apply H|]; lia). lra.
Qed.

Lemma Rsum_exp_pos (n : nat) (f : nat -> R) :
  0 < n -> (0 < Rsum n (fun j => exp (f j)))%R.
Proof.
  intros Hn. destruct n as [|n]; [lia|]. simpl.
  assert (0 <= Rsum n (fun j => exp (f j)))%R
    by (apply Rsum_nonneg; intros; left; apply exp_pos).
  pose proof (exp_pos (f n)). lra.
Qed.

Lemma Rlist_sum_app (l : list R) (a : R) :
  (Rlist_sum (l ++ [a]) = Rlist_sum l + a)%R.
Proof. induction l as [|b l IH]; simpl; [lra|]. rewrite IH. lra. Qed.

Lemma Rlist_sum_map_seq (n : nat) (f : nat -> R) :
  Rlist_sum (map f (seq 0 n)) = Rsum n f.
Proof.
  induction n as [|n IH]; [reflexivity|].
  rewrite seq_S, map_app. simpl map. rewrite Rlist_sum_app, IH. reflexivity.
Qed.

(** ** The array operations at the ranks the modules use *)

Lemma Dense_ok (F din : nat) (lead : list nat) (p : nn.DenseParams)
  (inputs : tensor) :
  shape inputs = lead ++ [din] ->
  shape (nn.kernel p) = [din; F] ->
  shape (nn.bias p) = [F] ->
  0 < din -> 0 < F ->
  nn.Dense (Z.of_nat F) p inputs
  = Ok (build (lead ++ [F]) (nn.Dense_elem p inputs din)).
Proof.
  intros Hx Hk Hb Hdin HF. unfold nn.Dense.
  rewrite Hx, rev_app_distr. cbn [rev app].
  replace (din =? 0) with false by (symmetry; apply Nat.eqb_neq; lia).
  replace (Z.of_nat F =? 0)%Z with false by (symmetry; apply Z.eqb_neq; lia).
  replace (Z.of_nat F <? 0)%Z with false by (symmetry; apply Z.ltb_ge; lia).
  cbn [orb]. rewrite Hk, Hb. simpl.
  rewrite !Z.eqb_refl. simpl. rewrite rev_involutive, Nat2Z.id. reflexivity.
Qed.

(** A layer with no input features or no output features cannot be
    applied. *)
Lemma Dense_zero (features : Z) (p : nn.DenseParams) (inputs : tensor)
  (lead : list nat) (din : nat) :
  shape inputs = lead ++ [din] ->
  din = 0 \/ features = 0%Z ->
  nn.Dense features p inputs = Raise ZeroDivisionError.
Proof.
  intros Hx H0. unfold nn.Dense.
  rewrite Hx, rev_app_distr. cbn [rev app].
  replace ((din =? 0) || (features =? 0)%Z) with true; [reflexivity|].
  symmetry. apply orb_true_iff.
  destruct H0 as [->| ->]; [left|right]; reflexivity.
Qed.

Lemma transpose_ok (a : tensor) (sh axes : list nat) :
  shape a = sh ->
  jnp.is_permutation axes (length sh) = true ->
  jnp.transpose a axes
  = Ok (build (map (fun ax => nth ax sh 0) axes) (jnp.transpose_elem a axes)).
Proof.
  intros Hs Hp. unfold jnp.transpose. rewrite Hs, Hp. reflexivity.
Qed.

Lemma matmul_ok (a b : tensor) (batch : list nat) (n k m : nat) :
  shape a = batch ++ [n; k] ->
  shape b = batch ++ [k; m] ->
  jnp.matmul a b
  = Ok (build (batch ++ [n; m]) (jnp.matmul_elem a b (length batch) k)).
Proof.
  intros Ha Hb. unfold jnp.matmul.
  rewrite Ha, Hb, !rev_app_distr. simpl.
  rewrite Nat.eqb_refl, list_eqb_nat_refl.
  simpl. rewrite rev_involutive. reflexivity.
Qed.

Lemma softmax_ok (x : tensor) (lead : list nat) (n : nat) :
  shape x = lead ++ [n] ->
  nn.softmax x = Ok (build (lead ++ [n]) (nn.softmax_elem x n)).
Proof.
  intros Hx. unfold nn.softmax. rewrite Hx, rev_app_distr. reflexivity.
Qed.

Lemma get_divide (a : tensor) (c : R) (idx : list nat) :
  get (jnp.divide a c) idx = (get a idx / c)%R.
Proof.
  unfold get, jnp.divide; simpl.
  pose proof (map_nth (fun v => v / c)%R (data a) 0%R (ravel (shape a) idx)) as H.
  simpl in H. rewrite <- H. f_equal. unfold Rdiv. rewrite Rmult_0_l. reflexivity.
Qed.

(** ** Softmax *)

(** Subtracting the row maximum (or any other constant) before
    exponentiating does not change the quotient. *)
Lemma softmax_shift (n : nat) (f : nat -> R) (m : R) (j : nat) :
  0 < n ->
  (exp (f j - m) / Rsum n (fun k => exp (f k - m))
   = exp (f j) / Rsum n (fun k => exp (f k)))%R.
Proof.
  intros Hn.
  rewrite (Rsum_ext n (fun k => exp (f k - m)) (fun k => exp (f k) * exp (- m))%R)
    by (intros; unfold Rminus; apply exp_plus).
  rewrite Rsum_scal. unfold Rminus. rewrite exp_plus.
  pose proof (Rsum_exp_pos n f Hn). pose proof (exp_pos (- m)).
  field. split; lra.
Qed.

Lemma softmax_elem_row (x : tensor) (n : nat) (idx : list nat)
  (f : nat -> R) (j : nat) :
  (forall k, k < n -> get x (removelast idx ++ [k]) = f k) ->
  get x idx = f j ->
  0 < n ->
  nn.softmax_elem x n idx = (exp (f j) / Rsum n (fun k => exp (f k)))%R.
Proof.
  intros Hrow Hj Hn. unfold nn.softmax_elem, nn.row.
  rewrite map_map, Rlist_sum_map_seq, Hj.
  set (m := Rlist_max _).
  rewrite (Rsum_ext n _ (fun k => exp (f k - m)))
    by (intros k Hk; rewrite Hrow by exact Hk; reflexivity).
  apply softmax_shift. exact Hn.
Qed.

(** ** Transpositions used by the modules *)

Lemma transpose_elem_021 (a : tensor) (A B C i j k : nat) :
  shape a = [A; B; C] ->
  jnp.transpose_elem a [0; 2; 1] [i; j; k] = get a [i; k; j].
Proof. intros Ha. unfold jnp.transpose_elem. rewrite Ha. reflexivity. Qed.

Lemma transpose_elem_0213 (a : tensor) (A B C D i j k l : nat) :
  shape a = [A; B; C; D] ->
  jnp.transpose_elem a [0; 2; 1; 3] [i; j; k; l] = get a [i; k; j; l].
Proof. intros Ha. unfold jnp.transpose_elem. rewrite Ha. reflexivity. Qed.

Lemma transpose_elem_0132 (a : tensor) (A B C D i j k l : nat) :
  shape a = [A; B; C; D] ->
  jnp.transpose_elem a [0; 1; 3; 2] [i; j; k; l] = get a [i; j; l; k].
Proof. intros Ha. unfold jnp.transpose_elem. rewrite Ha. reflexivity. Qed.

(** ** Single-head self-attention: what [call] returns *)

Section SelfAttentionFacts.

Variable self : SelfAttention.t.
Variable variables : SelfAttention.params.
Variable x : tensor.
Variables B S d hd : nat.

Hypothesis Hx : shape x = [B; S; d].
Hypothesis Hinit : SelfAttention.initialised self variables d hd.
Hypothesis Hd : 0 < d.
Hypothesis Hhd0 : 0 < hd.

Lemma SelfAttention_call_spec :
  exists output attn_weights,
    SelfAttention.call self variables x = Ok (output, attn_weights) /\
    shape output = [B; S; hd] /\
    shape attn_weights = [B; S; S] /\
    single_head_result self variables x B S d hd output attn_weights.
Proof.
  pose (Q := AttentionSpec.linear (SelfAttention.p_query variables) x d).
  pose (K := AttentionSpec.linear (SelfAttention.p_key variables) x d).
  pose (V := AttentionSpec.linear (SelfAttention.p_value variables) x d).
  pose (scale := R_sqrt.sqrt (IZR (SelfAttention.head_dim self))).
  destruct Hinit as (Hhd & [Hqk Hqb] & [Hkk Hkb] & [Hvk Hvb]).
  unfold SelfAttention.call, SelfAttention.setup.
  cbn [bind SelfAttention.query SelfAttention.key SelfAttention.value].
  rewrite Hhd.
  rewrite (Dense_ok hd d [B; S] _ _ Hx Hqk Hqb Hd Hhd0).
  rewrite (Dense_ok hd d [B; S] _ _ Hx Hkk Hkb Hd Hhd0).
  rewrite (Dense_ok hd d [B; S] _ _ Hx Hvk Hvb Hd Hhd0).
  cbn [bind app].
  set (q := build [B; S; hd] (nn.Dense_elem (SelfAttention.p_query variables) x d)).
  set (k := build [B; S; hd] (nn.Dense_elem (SelfAttention.p_key variables) x d)).
  set (v := build [B; S; hd] (nn.Dense_elem (SelfAttention.p_value variables) x d)).
  rewrite (transpose_ok k [B; S; hd] [0; 2; 1] eq_refl eq_refl).
  cbn [bind map nth].
  set (kT := build [B; hd; S] _).
  rewrite (matmul_ok q kT [B] S hd S eq_refl eq_refl).
  cbn [bind app length].
  set (scores := build [B; S; S] _).
  rewrite (softmax_ok (jnp.divide scores _) [B; S] S eq_refl).
  cbn [bind app].
  set (w := build [B; S; S] _).
  rewrite (matmul_ok w v [B] S S hd eq_refl eq_refl).
  cbn [bind app length].
  assert (Hq : forall b i c, b < B -> i < S -> c < hd -> get q [b; i; c] = Q b i c).
  { intros. unfold q. rewrite get_build by bounds.
    reflexivity. }
  assert (Hk : forall b j c, b < B -> j < S -> c < hd -> get k [b; j; c] = K b j c).
  { intros. unfold k. rewrite get_build by bounds.
    reflexivity. }
  assert (Hv : forall b j c, b < B -> j < S -> c < hd -> get v [b; j; c] = V b j c).
  { intros. unfold v. rewrite get_build by bounds.
    reflexivity. }
  assert (HkT : forall b c j, b < B -> c < hd -> j < S ->
                  get kT [b; c; j] = K b j c).
  { intros. unfold kT. rewrite get_build by bounds.
    rewrite (transpose_elem_021 k B S hd) by reflexivity.
    apply Hk; assumption. }
  assert (Hs : forall b i j, b < B -> i < S -> j < S ->
                 get scores [b; i; j] = AttentionSpec.scores (Q b) (K b) hd i j).
  { intros. unfold scores. rewrite get_build by bounds.
    unfold jnp.matmul_elem, AttentionSpec.scores. simpl.
    apply Rsum_ext. intros l Hl. rewrite Hq, HkT by assumption. reflexivity. }
  assert (Hw : forall b i j, b < B -> i < S -> j < S ->
                 get w [b; i; j]
                 = AttentionSpec.weights (Q b) (K b) S hd scale i j).
  { intros b i j Hb Hi Hj. unfold w.
    rewrite get_build by bounds.
    unfold AttentionSpec.weights.
    apply (softmax_elem_row _ S [b; i; j]
             (fun j' => AttentionSpec.scaled (Q b) (K b) hd scale i j') j).
    - intros j' Hj'. simpl. rewrite get_divide, Hs by assumption.
      unfold AttentionSpec.scaled, scale, jnp.sqrt. rewrite Hhd. reflexivity.
    - rewrite get_divide, Hs by assumption.
      unfold AttentionSpec.scaled, scale, jnp.sqrt. rewrite Hhd. reflexivity.
    - lia. }
  eexists. eexists. split; [reflexivity|].
  split; [reflexivity|]. split; [reflexivity|]. split; [exact Hw|].
  intros b i c Hb Hi Hc.
  rewrite get_build by bounds.
  unfold jnp.matmul_elem, AttentionSpec.output. simpl.
  apply Rsum_ext. intros j Hj. rewrite Hw, Hv by assumption. reflexivity.
Qed.

End SelfAttentionFacts.

(** ** Reshaping between [(B, S, H*D)] and [(B, S, H, D)] *)

Lemma neg1_neqb_nat (n : nat) : (-1 =? Z.of_nat n)%Z = false.
Proof. apply Z.eqb_neq. lia. Qed.

Lemma nat_neqb_neg1 (n : nat) : (Z.of_nat n =? -1)%Z = false.
Proof. apply Z.eqb_neq. lia. Qed.

Lemma reshape_split (a : tensor) (B S H D : nat) :
  shape a = [B; S; H * D] ->
  jnp.reshape a [Z.of_nat B; Z.of_nat S; Z.of_nat H; Z.of_nat D]
  = Ok (mkTensor [B; S; H; D] (data a)).
Proof.
  intros Ha. unfold jnp.reshape.
  cbn [filter]. rewrite !neg1_neqb_nat. cbn [length].
  replace (forallb _ _) with true
    by (symmetry; cbn [forallb]; rewrite !andb_true_iff, !Z.leb_le;
        repeat split; lia).
  rewrite Ha. unfold jnp.zprod, size_of. cbn [fold_right andb].
  replace (_ =? _)%Z with true by (symmetry; apply Z.eqb_eq; lia).
  cbn [map]. rewrite !Nat2Z.id. reflexivity.
Qed.

Lemma get_reshape_split (a : tensor) (B S H D b s h c : nat) :
  shape a = [B; S; H * D] ->
  get (mkTensor [B; S; H; D] (data a)) [b; s; h; c] = get a [b; s; h * D + c].
Proof.
  intros Ha. unfold get. rewrite Ha. cbn [shape data]. f_equal.
  simpl. ring.
Qed.

Lemma reshape_merge (a : tensor) (B S H D : nat) :
  shape a = [B; S; H; D] -> 0 < B -> 0 < S ->
  jnp.reshape a [Z.of_nat B; Z.of_nat S; (-1)%Z]
  = Ok (mkTensor [B; S; H * D] (data a)).
Proof.
  intros Ha HB HS. unfold jnp.reshape.
  cbn [filter]. rewrite !neg1_neqb_nat, !nat_neqb_neg1.
  cbn [length negb Z.eqb Pos.eqb filter].
  rewrite Ha. unfold jnp.zprod, size_of. cbn [fold_right].
  replace (_ =? 0)%Z with false by (symmetry; apply Z.eqb_neq; nia).
  replace (forallb _ _) with true
    by (symmetry; cbn [forallb]; rewrite !andb_true_iff, !Z.leb_le;
        repeat split; lia).
  assert (Hsz : Z.of_nat (B * (S * (H * (D * 1))))
                = (Z.of_nat (H * D) * (Z.of_nat B * (Z.of_nat S * 1)))%Z) by lia.
  rewrite Hsz, Z_mod_mult. cbn [andb Z.eqb map].
  rewrite Z_div_mult by nia.
  rewrite !nat_neqb_neg1. cbn [Z.eqb Pos.eqb]. rewrite !Nat2Z.id. reflexivity.
Qed.

Lemma get_reshape_merge (a : tensor) (B S H D b s f : nat) :
  shape a = [B; S; H; D] ->
  get (mkTensor [B; S; H * D] (data a)) [b; s; f]
  = get a [b; s; f / D; f mod D].
Proof.
  intros Ha. unfold get. rewrite Ha. cbn [shape data]. f_equal.
  simpl. destruct D as [|D].
  - simpl. lia.
  - pose proof (Nat.div_mod_eq f (Datatypes.S D)). nia.
Qed.

(** Feature [h * D + c] of the concatenation is component [c] of head [h]. *)
Lemma concat_heads_in_order (heads : nat -> nat -> nat -> nat -> R)
  (D b i h c : nat) :
  c < D ->
  AttentionSpec.concat_heads heads D b i (h * D + c) = heads b h i c.
Proof.
  intros Hc. unfold AttentionSpec.concat_heads.
  rewrite Nat.div_add_l, Nat.div_small, Nat.add_0_r by lia.
  rewrite Nat.add_comm, Nat.Div0.mod_add, Nat.mod_small by lia.
  reflexivity.
Qed.

Lemma split_heads_ok (self : MultiHeadAttention.t) (a : tensor)
  (B S H D : nat) :
  MultiHeadAttention.num_heads self = Z.of_nat H ->
  MultiHeadAttention.head_dim self = Z.of_nat D ->
  shape a = [B; S; H * D] ->
  MultiHeadAttention.split_heads self B S a
  = Ok (build [B; H; S; D]
          (jnp.transpose_elem (mkTensor [B; S; H; D] (data a)) [0; 2; 1; 3])).
Proof.
  intros HH HD Ha. unfold MultiHeadAttention.split_heads.
  rewrite HH, HD, (reshape_split a B S H D Ha). cbn [bind].
  rewrite (transpose_ok (mkTensor [B; S; H; D] (data a)) [B; S; H; D]
             [0; 2; 1; 3] eq_refl eq_refl).
  reflexivity.
Qed.

Lemma get_split_heads (a : tensor) (B S H D b h i c : nat) :
  shape a = [B; S; H * D] ->
  b < B -> h < H -> i < S -> c < D ->
  get (build [B; H; S; D]
         (jnp.transpose_elem (mkTensor [B; S; H; D] (data a)) [0; 2; 1; 3]))
      [b; h; i; c]
  = get a [b; i; h * D + c].
Proof.
  intros Ha Hb Hh Hi Hc.
  rewrite get_build by bounds.
  rewrite (transpose_elem_0213 _ B S H D) by reflexivity.
  apply get_reshape_split. exact Ha.
Qed.

(** ** Multi-head attention: what [call] returns *)

Section MultiHeadAttentionFacts.

Variable self : MultiHeadAttention.t.
Variable variables : MultiHeadAttention.params.
Variable x : tensor.
Variables B S d H D E : nat.

Hypothesis Hx : shape x = [B; S; d].
Hypothesis Hinit : MultiHeadAttention.initialised self variables d H D E.
Hypothesis Hd : 0 < d.
Hypothesis HH0 : 0 < H.
Hypothesis HD0 : 0 < D.

(** Up to the point where the heads are merged: the call has computed
    the attention weights and the per-head outputs, transposed back to
    [(B, S, H, D)]. *)
Lemma MultiHeadAttention_call_heads :
  exists attn_output attn_weights,
    MultiHeadAttention.call self variables x
    = (merged <- jnp.reshape attn_output [Z.of_nat B; Z.of_nat S; (-1)%Z] ;;
       output <- nn.Dense (Z.of_nat E) (MultiHeadAttention.p_out variables)
                   merged ;;
       Ok (output, attn_weights)) /\
    shape attn_output = [B; S; H; D] /\
    shape attn_weights = [B; H; S; S] /\
    heads_result self variables x B S d H D attn_output attn_weights.
Proof.
  pose (Q := AttentionSpec.linear (MultiHeadAttention.p_query variables) x d).
  pose (K := AttentionSpec.linear (MultiHeadAttention.p_key variables) x d).
  pose (V := AttentionSpec.linear (MultiHeadAttention.p_value variables) x d).
  pose (scale := R_sqrt.sqrt (IZR (MultiHeadAttention.head_dim self))).
  destruct Hinit as (HH & HD & HE & [Hqk Hqb] & [Hkk Hkb] & [Hvk Hvb] & [Hok Hob]).
  unfold MultiHeadAttention.call, MultiHeadAttention.setup.
  cbn [bind MultiHeadAttention.query MultiHeadAttention.key
       MultiHeadAttention.value MultiHeadAttention.out].
  rewrite Hx, HE, HH, HD, <- Nat2Z.inj_mul.
  assert (HHD : 0 < H * D) by nia.
  rewrite (Dense_ok (H * D) d [B; S] _ _ Hx Hqk Hqb Hd HHD).
  rewrite (Dense_ok (H * D) d [B; S] _ _ Hx Hkk Hkb Hd HHD).
  rewrite (Dense_ok (H * D) d [B; S] _ _ Hx Hvk Hvb Hd HHD).
  cbn [bind app].
  set (q0 := build [B; S; H * D]
               (nn.Dense_elem (MultiHeadAttention.p_query variables) x d)).
  set (k0 := build [B; S; H * D]
               (nn.Dense_elem (MultiHeadAttention.p_key variables) x d)).
  set (v0 := build [B; S; H * D]
               (nn.Dense_elem (MultiHeadAttention.p_value variables) x d)).
  rewrite (split_heads_ok self q0 B S H D HH HD eq_refl).
  rewrite (split_heads_ok self k0 B S H D HH HD eq_refl).
  rewrite (split_heads_ok self v0 B S H D HH HD eq_refl).
  cbn [bind].
  set (q := build [B; H; S; D]
              (jnp.transpose_elem (mkTensor [B; S; H; D] (data q0)) [0; 2; 1; 3])).
  set (k := build [B; H; S; D]
              (jnp.transpose_elem (mkTensor [B; S; H; D] (data k0)) [0; 2; 1; 3])).
  set (v := build [B; H; S; D]
              (jnp.transpose_elem (mkTensor [B; S; H; D] (data v0)) [0; 2; 1; 3])).
  rewrite (transpose_ok k [B; H; S; D] [0; 1; 3; 2] eq_refl eq_refl).
  cbn [bind map nth].
  set (kT := build [B; H; D; S] (jnp.transpose_elem k [0; 1; 3; 2])).
  rewrite (matmul_ok q kT [B; H] S D S eq_refl eq_refl).
  cbn [bind app length].
  set (scores := build [B; H; S; S] (jnp.matmul_elem q kT 2 D)).
  rewrite (softmax_ok (jnp.divide scores (jnp.sqrt (Z.of_nat D))) [B; H; S] S eq_refl).
  cbn [bind app].
  set (w := build [B; H; S; S] _).
  rewrite (matmul_ok w v [B; H] S S D eq_refl eq_refl).
  cbn [bind app length].
  set (ao := build [B; H; S; D] (jnp.matmul_elem w v 2 S)).
  rewrite (transpose_ok ao [B; H; S; D] [0; 2; 1; 3] eq_refl eq_refl).
  cbn [bind map nth].
  set (aoT := build [B; S; H; D] (jnp.transpose_elem ao [0; 2; 1; 3])).
  assert (Hq : forall b h i c, b < B -> h < H -> i < S -> c < D ->
                 get q [b; h; i; c] = AttentionSpec.head_slice Q D b h i c).
  { intros b h i c Hb Hh Hi Hc. unfold q.
    rewrite (get_split_heads q0 B S H D) by (reflexivity || assumption).
    unfold q0. rewrite get_build by bounds. reflexivity. }
  assert (Hk : forall b h i c, b < B -> h < H -> i < S -> c < D ->
                 get k [b; h; i; c] = AttentionSpec.head_slice K D b h i c).
  { intros b h i c Hb Hh Hi Hc. unfold k.
    rewrite (get_split_heads k0 B S H D) by (reflexivity || assumption).
    unfold k0. rewrite get_build by bounds. reflexivity. }
  assert (Hv : forall b h i c, b < B -> h < H -> i < S -> c < D ->
                 get v [b; h; i; c] = AttentionSpec.head_slice V D b h i c).
  { intros b h i c Hb Hh Hi Hc. unfold v.
    rewrite (get_split_heads v0 B S H D) by (reflexivity || assumption).
    unfold v0. rewrite get_build by bounds. reflexivity. }
  assert (HkT : forall b h c j, b < B -> h < H -> c < D -> j < S ->
                  get kT [b; h; c; j] = AttentionSpec.head_slice K D b h j c).
  { intros. unfold kT. rewrite get_build by bounds.
    rewrite (transpose_elem_0132 k B H S D) by reflexivity.
    apply Hk; assumption. }
  assert (Hs : forall b h i j, b < B -> h < H -> i < S -> j < S ->
                 get scores [b; h; i; j]
                 = AttentionSpec.scores (AttentionSpec.head_slice Q D b h)
                     (AttentionSpec.head_slice K D b h) D i j).
  { intros. unfold scores. rewrite get_build by bounds.
    unfold jnp.matmul_elem, AttentionSpec.scores. cbn [firstn nth app].
    apply Rsum_ext. intros l Hl. rewrite Hq, HkT by assumption. reflexivity. }
  assert (Hw : forall b h i j, b < B -> h < H -> i < S -> j < S ->
                 get w [b; h; i; j]
                 = AttentionSpec.head_weights Q K S D scale b h i j).
  { intros b h i j Hb Hh Hi Hj. unfold w.
    rewrite get_build by bounds.
    unfold AttentionSpec.head_weights, AttentionSpec.weights.
    apply (softmax_elem_row _ S [b; h; i; j]
             (fun j' => AttentionSpec.scaled (AttentionSpec.head_slice Q D b h)
                          (AttentionSpec.head_slice K D b h) D scale i j') j).
    - intros j' Hj'. cbn [removelast app]. rewrite get_divide, Hs by assumption.
      unfold AttentionSpec.scaled, scale, jnp.sqrt. rewrite HD. reflexivity.
    - rewrite get_divide, Hs by assumption.
      unfold AttentionSpec.scaled, scale, jnp.sqrt. rewrite HD. reflexivity.
    - lia. }
  assert (Hao : forall b h i c, b < B -> h < H -> i < S -> c < D ->
                  get ao [b; h; i; c]
                  = AttentionSpec.head_output Q K V S D scale b h i c).
  { intros b h i c Hb Hh Hi Hc. unfold ao.
    rewrite get_build by bounds.
    unfold jnp.matmul_elem, AttentionSpec.head_output, AttentionSpec.output.
    cbn [firstn nth app].
    apply Rsum_ext. intros j Hj. rewrite Hw, Hv by assumption. reflexivity. }
  exists aoT, w. split; [reflexivity|].
  split; [reflexivity|]. split; [reflexivity|]. split; [exact Hw|].
  intros b i h c Hb Hi Hh Hc.
  unfold aoT. rewrite get_build by bounds.
  rewrite (transpose_elem_0213 ao B H S D) by reflexivity.
  apply Hao; assumption.
Qed.

Hypothesis HB : 0 < B.
Hypothesis HS : 0 < S.
Hypothesis HE0 : 0 < E.

Lemma MultiHeadAttention_call_spec :
  exists output attn_weights,
    MultiHeadAttention.call self variables x = Ok (output, attn_weights) /\
    shape output = [B; S; E] /\
    shape attn_weights = [B; H; S; S] /\
    multi_head_result self variables x B S d H D E output attn_weights.
Proof.
  pose (Q := AttentionSpec.linear (MultiHeadAttention.p_query variables) x d).
  pose (K := AttentionSpec.linear (MultiHeadAttention.p_key variables) x d).
  pose (V := AttentionSpec.linear (MultiHeadAttention.p_value variables) x d).
  pose (scale := R_sqrt.sqrt (IZR (MultiHeadAttention.head_dim self))).
  destruct MultiHeadAttention_call_heads
    as (aoT & w & Hcall & HsT & Hsw & Hw & Hao).
  destruct Hinit as (_ & _ & _ & _ & _ & _ & [Hok Hob]).
  rewrite Hcall, (reshape_merge aoT B S H D HsT HB HS).
  cbn [bind].
  set (flat := mkTensor [B; S; H * D] (data aoT)).
  assert (HHD : 0 < H * D) by nia.
  rewrite (Dense_ok E (H * D) [B; S] _ flat eq_refl Hok Hob HHD HE0).
  cbn [bind app].
  assert (Hflat : forall b i f, b < B -> i < S -> f < H * D ->
                    get flat [b; i; f]
                    = AttentionSpec.concat Q K V S D scale b i f).
  { intros b i f Hb Hi Hf. unfold flat.
    rewrite (get_reshape_merge aoT B S H D) by exact HsT.
    assert (f / D < H) by (apply Nat.Div0.div_lt_upper_bound; lia).
    assert (f mod D < D) by (apply Nat.mod_upper_bound; lia).
    apply Hao; assumption. }
  eexists. eexists. split; [reflexivity|].
  split; [reflexivity|]. split; [exact Hsw|]. split; [exact Hw|].
  intros b i e Hb Hi He.
  rewrite get_build by bounds.
  unfold nn.Dense_elem, AttentionSpec.affine. cbn [removelast last app].
  f_equal. apply Rsum_ext. intros f Hf. rewrite Hflat by assumption.
  reflexivity.
Qed.

End MultiHeadAttentionFacts.

(** ** Properties of the softmax weights *)

Lemma weights_row_sum (Q K : nat -> nat -> R) (n hd : nat) (scale : R) (i : nat) :
  0 < n -> Rsum n (fun j => AttentionSpec.weights Q K n hd scale i j) = 1%R.
Proof.
  intros Hn. unfold AttentionSpec.weights, Rdiv. rewrite Rsum_scal.
  pose proof (Rsum_exp_pos n (fun j => AttentionSpec.scaled Q K hd scale i j) Hn).
  apply Rinv_r. lra.
Qed.

Lemma weights_range (Q K : nat -> nat -> R) (n hd : nat) (scale : R) (i j : nat) :
  j < n -> (0 <= AttentionSpec.weights Q K n hd scale i j <= 1)%R.
Proof.
  intros Hj. unfold AttentionSpec.weights.
  set (e := fun j' => exp (AttentionSpec.scaled Q K hd scale i j')).
  assert (HT : (0 < Rsum n e)%R) by (apply Rsum_exp_pos; lia).
  assert (He : (0 < e j)%R) by apply exp_pos.
  assert (Hle : (e j <= Rsum n e)%R)
    by (apply Rsum_term_le; [intros; left; apply exp_pos|exact Hj]).
  change (exp (AttentionSpec.scaled Q K hd scale i j)) with (e j).
  split.
  - apply Rlt_le, Rdiv_lt_0_compat; assumption.
  - apply (Rmult_le_reg_r (Rsum n e)); [exact HT|].
    unfold Rdiv. rewrite Rmult_assoc, Rinv_l by lra. lra.
Qed.

Lemma weights_uniform (Q K : nat -> nat -> R) (n hd : nat) (scale : R) (i j : nat) :
  (forall j1 j2, j1 < n -> j2 < n ->
     AttentionSpec.scores Q K hd i j1 = AttentionSpec.scores Q K hd i j2) ->
  j < n ->
  AttentionSpec.weights Q K n hd scale i j = (1 / INR n)%R.
Proof.
  intros Hconst Hj. unfold AttentionSpec.weights.
  rewrite (Rsum_ext n _ (fun _ => exp (AttentionSpec.scaled Q K hd scale i j)))
    by (intros j' Hj'; unfold AttentionSpec.scaled;
        rewrite (Hconst j' j Hj' Hj); reflexivity).
  rewrite Rsum_const.
  pose proof (exp_pos (AttentionSpec.scaled Q K hd scale i j)).
  assert (0 < INR n)%R by (apply lt_0_INR; lia).
  field. split; lra.
Qed.

(** ** Rejected calls *)

(** A stored kernel made for inputs of another dimension: every call
    raises, with a parameter-shape error when the dimensions at hand are
    non-zero. *)
Lemma Dense_mismatch_raises (features : Z) (p : nn.DenseParams)
  (inputs : tensor) (lead : list nat) (d din F : nat) :
  shape inputs = lead ++ [d] ->
  shape (nn.kernel p) = [din; F] ->
  d <> din ->
  exists e, nn.Dense features p inputs = Raise e.
Proof.
  intros Hx Hk Hne. unfold nn.Dense.
  rewrite Hx, rev_app_distr. cbn [rev app].
  destruct ((d =? 0) || (features =? 0)%Z); [eexists; reflexivity|].
  destruct (features <? 0)%Z; [eexists; reflexivity|].
  rewrite Hk. cbn [map list_eqb].
  replace (Z.of_nat din =? Z.of_nat d)%Z with false
    by (symmetry; apply Z.eqb_neq; lia).
  eexists. reflexivity.
Qed.

Lemma Dense_mismatch (features : Z) (p : nn.DenseParams) (inputs : tensor)
  (lead : list nat) (d din F : nat) :
  shape inputs = lead ++ [d] ->
  shape (nn.kernel p) = [din; F] ->
  d <> din ->
  0 < d -> (0 < features)%Z ->
  nn.Dense features p inputs = Raise ScopeParamShapeError.
Proof.
  intros Hx Hk Hne Hd HF. unfold nn.Dense.
  rewrite Hx, rev_app_distr. cbn [rev app].
  replace (d =? 0) with false by (symmetry; apply Nat.eqb_neq; lia).
  replace (features =? 0)%Z with false by (symmetry; apply Z.eqb_neq; lia).
  replace (features <? 0)%Z with false by (symmetry; apply Z.ltb_ge; lia).
  cbn [orb]. rewrite Hk. cbn [map list_eqb].
  replace (Z.of_nat din =? Z.of_nat d)%Z with false
    by (symmetry; apply Z.eqb_neq; lia).
  reflexivity.
Qed.

(** A layer declared with a non-positive feature count cannot be
    applied. *)
Lemma Dense_nonpositive (features : Z) (p : nn.DenseParams) (inputs : tensor) :
  (features <= 0)%Z -> exists e, nn.Dense features p inputs = Raise e.
Proof.
  intros Hneg. unfold nn.Dense.
  destruct (rev (shape inputs)) as [|din lead]; [eexists; reflexivity|].
  destruct ((din =? 0) || (features =? 0)%Z) eqn:E0; [eexists; reflexivity|].
  apply orb_false_iff in E0. destruct E0 as [_ E0]. apply Z.eqb_neq in E0.
  replace (features <? 0)%Z with true by (symmetry; apply Z.ltb_lt; lia).
  eexists. reflexivity.
Qed.

Lemma reshape_merge_empty (a : tensor) (B S H D : nat) :
  shape a = [B; S; H; D] -> B = 0 \/ S = 0 ->
  jnp.reshape a [Z.of_nat B; Z.of_nat S; (-1)%Z] = Raise ZeroDivisionError.
Proof.
  intros Ha H0. unfold jnp.reshape.
  cbn [filter]. rewrite !neg1_neqb_nat, !nat_neqb_neg1.
  cbn [length negb Z.eqb Pos.eqb filter].
  unfold jnp.zprod. cbn [fold_right].
  replace (_ =? 0)%Z with true by (symmetry; apply Z.eqb_eq; nia).
  reflexivity.
Qed.

Lemma MultiHeadAttention_call_empty (self : MultiHeadAttention.t)
  (variables : MultiHeadAttention.params) (x : tensor) (B S d H D E : nat) :
  shape x = [B; S; d] ->
  MultiHeadAttention.initialised self variables d H D E ->
  B = 0 \/ S = 0 ->
  MultiHeadAttention.call self variables x = Raise ZeroDivisionError.
Proof.
  intros Hx Hinit H0.
  destruct (Nat.eq_dec d 0) as [Hd|Hd];
    [|destruct (Nat.eq_dec (H * D) 0) as [HHD|HHD]].
  - unfold MultiHeadAttention.call, MultiHeadAttention.setup.
    cbn [bind MultiHeadAttention.query]. rewrite Hx.
    rewrite (Dense_zero _ _ x [B; S] d Hx (or_introl Hd)). reflexivity.
  - destruct Hinit as (HH & HD & _).
    unfold MultiHeadAttention.call, MultiHeadAttention.setup.
    cbn [bind MultiHeadAttention.query]. rewrite Hx.
    rewrite (Dense_zero _ _ x [B; S] d Hx); [reflexivity|].
    right. rewrite HH, HD. lia.
  - destruct (MultiHeadAttention_call_heads self variables x B S d H D E
                Hx Hinit)
      as (aoT & w & Hcall & HsT & _); [lia|nia|nia|].
    rewrite Hcall, (reshape_merge_empty aoT B S H D HsT H0). reflexivity.
Qed.


Lemma initialised_sa_notebook :
  SelfAttention.initialised Notebook.sa_model Notebook.sa_params 64 32.
Proof. repeat split. Qed.

Lemma initialised_mha_notebook :
  MultiHeadAttention.initialised Notebook.mha_model Notebook.mha_params
                                 64 4 16 64.
Proof. repeat split. Qed.

Lemma initialised_small : SelfAttention.initialised Small.model Small.params 1 1.
Proof. repeat split. Qed.

Lemma initialised_sa_small2 :
  SelfAttention.initialised Small.sa_model64 Small.sa_params2 2 1.
Proof. repeat split. Qed.

Lemma initialised_mha_small2 :
  MultiHeadAttention.initialised Small.mha_model64 Small.mha_params2 2 1 1 64.
Proof. repeat split. Qed.

(** ** Non-zero sizes *)

Lemma all_positive_cons (n : nat) (dims : list nat) :
  all_positive (n :: dims) = true <-> 0 < n /\ all_positive dims = true.
Proof.
  unfold all_positive. cbn [forallb].
  rewrite andb_true_iff, Nat.ltb_lt. tauto.
Qed.

(** Replaces [H : all_positive [n1; ...; nk] = true] by [0 < n1], ...,
    [0 < nk]. *)
Ltac positive_dims H :=
  repeat (let Hn := fresh "Hpos" in
          apply all_positive_cons in H; destruct H as [Hn H]);
  clear H.

(** * Float32 results within the range *)

(** ** Values *)

Lemma max_finite_pos : (1 <= F32.max_finite)%R.
Proof. unfold F32.max_finite. lra. Qed.

Lemma of_exact_finite (r : R) :
  (Rabs r <= F32.max_finite)%R -> F32.of_exact r = F32.Fin r.
Proof.
  intros Hr. unfold F32.of_exact.
  destruct (Rlt_dec F32.max_finite r) as [H1|H1].
  - pose proof (Rle_abs r). lra.
  - destruct (Rlt_dec r (- F32.max_finite)) as [H2|H2]; [|reflexivity].
    pose proof (Rle_abs (- r)). rewrite Rabs_Ropp in H. lra.
Qed.

Lemma of_exact_overflow (r : R) :
  (F32.max_finite < r)%R -> F32.of_exact r = F32.PInf.
Proof.
  intros Hr. unfold F32.of_exact.
  destruct (Rlt_dec F32.max_finite r); [reflexivity|contradiction].
Qed.

Lemma add_finite (x y : R) :
  (Rabs (x + y) <= F32.max_finite)%R ->
  F32.add (F32.Fin x) (F32.Fin y) = F32.Fin (x + y).
Proof. intros H. cbn [F32.add]. apply of_exact_finite. exact H. Qed.

Lemma mul_finite (x y : R) :
  (Rabs (x * y) <= F32.max_finite)%R ->
  F32.mul (F32.Fin x) (F32.Fin y) = F32.Fin (x * y).
Proof. intros H. cbn [F32.mul]. apply of_exact_finite. exact H. Qed.

(** ** Sums *)

Lemma Rsum_abs_nonneg (n : nat) (f : nat -> R) :
  (0 <= Rsum n (fun l => Rabs (f l)))%R.
Proof. apply Rsum_nonneg. intros. apply Rabs_pos. Qed.

Lemma Rsum_triang (n : nat) (f : nat -> R) :
  (Rabs (Rsum n f) <= Rsum n (fun l => Rabs (f l)))%R.
Proof.
  induction n as [|n IH]; simpl.
  - rewrite Rabs_R0. lra.
  - pose proof (Rabs_triang (Rsum n f) (f n)). lra.
Qed.

(** A sum whose terms have magnitudes adding up to at most the largest
    float32 is computed without overflow. *)
Lemma sum_finite (n : nat) (f : nat -> R) :
  (Rsum n (fun l => Rabs (f l)) <= F32.max_finite)%R ->
  F32.sum n (fun l => F32.Fin (f l)) = F32.Fin (Rsum n f).
Proof.
  induction n as [|n IH]; intros H; [reflexivity|].
  cbn [F32.sum Rsum] in *.
  pose proof (Rabs_pos (f n)).
  pose proof (Rsum_abs_nonneg n f).
  rewrite IH by lra.
  apply add_finite.
  pose proof (Rsum_triang (S n) f) as Ht. cbn [Rsum] in Ht. lra.
Qed.

Lemma sum_ext (n : nat) (f g : nat -> F32.value) :
  (forall j, j < n -> f j = g j) -> F32.sum n f = F32.sum n g.
Proof.
  induction n as [|n IH]; intros H; simpl; [reflexivity|].
  rewrite IH by (intros; apply H; lia). rewrite H by lia. reflexivity.
Qed.

Lemma sum_products_finite (n : nat) (a b : nat -> R) :
  (Rsum n (fun l => Rabs (a l * b l)) <= F32.max_finite)%R ->
  F32.sum n (fun l => F32.mul (F32.Fin (a l)) (F32.Fin (b l)))
  = F32.Fin (Rsum n (fun l => a l * b l)%R).
Proof.
  intros H.
  rewrite (sum_ext n _ (fun l => F32.Fin (a l * b l))).
  - apply (sum_finite n (fun l => a l * b l)%R). exact H.
  - intros j Hj. apply mul_finite.
    pose proof (Rsum_term_le n (fun l => Rabs (a l * b l)) j
                  (fun k _ => Rabs_pos _) Hj) as Ht.
    cbv beta in Ht. lra.
Qed.

(** ** Arrays *)

Lemma In_indices (sh idx : list nat) :
  In idx (indices sh) -> in_bounds sh idx.
Proof.
  revert idx. induction sh as [|n sh IH]; intros idx Hin; simpl in Hin.
  - destruct Hin as [<-|[]]. constructor.
  - apply in_flat_map in Hin. destruct Hin as (i & Hi & Hin).
    apply in_map_iff in Hin. destruct Hin as (idx' & <- & Hin').
    apply in_seq in Hi. constructor; [lia|]. apply IH. exact Hin'.
Qed.

Lemma get_of_real (t : tensor) (idx : list nat) :
  F32.get (of_real t) idx = F32.Fin (get t idx).
Proof.
  unfold F32.get, get, of_real. cbn [F32.shape F32.data].
  apply (map_nth F32.Fin).
Qed.

(** An array built from finite elements. *)
Lemma build_of_real (sh : list nat) (f : list nat -> F32.value)
  (g : list nat -> R) :
  (forall idx, in_bounds sh idx -> f idx = F32.Fin (g idx)) ->
  F32.build sh f = of_real (build sh g).
Proof.
  intros H. unfold F32.build, of_real, build. cbn [shape data].
  f_equal. rewrite map_map. apply map_ext_in.
  intros idx Hin. apply H. apply In_indices. exact Hin.
Qed.

Lemma transpose_of_real (a : tensor) (axes : list nat) :
  F32.transpose (of_real a) axes = lift (jnp.transpose a axes).
Proof.
  unfold F32.transpose, jnp.transpose, lift. cbn [of_real F32.shape].
  destruct (jnp.is_permutation axes (length (shape a))); [|reflexivity].
  cbn [bind]. f_equal. apply build_of_real. intros idx _.
  unfold F32.transpose_elem, jnp.transpose_elem. cbn [of_real F32.shape].
  apply (get_of_real a).
Qed.

Lemma reshape_of_real (a : tensor) (newshape : list Z) :
  F32.reshape (of_real a) newshape = lift (jnp.reshape a newshape).
Proof.
  unfold F32.reshape, jnp.reshape, lift. cbn [of_real F32.shape F32.data].
  destruct (length (filter (Z.eqb (-1)) newshape)) as [|[|n]];
    [| |reflexivity].
  - destruct (_ && _); reflexivity.
  - destruct (_ =? 0)%Z; [reflexivity|].
    destruct (_ && _); reflexivity.
Qed.

Lemma in_bounds_snoc (lead : list nat) (n : nat) (idx : list nat) :
  in_bounds (lead ++ [n]) idx ->
  exists pre j, idx = pre ++ [j] /\ in_bounds lead pre /\ j < n.
Proof.
  intros H. apply Forall2_app_inv_r in H.
  destruct H as (pre & l2 & Hpre & Hl2 & ->).
  inversion Hl2 as [|j ? l2' ? Hj Hnil]; subst.
  inversion Hnil; subst. exists pre, j. auto.
Qed.

Lemma in_bounds_app (lead : list nat) (n : nat) (pre : list nat) (j : nat) :
  in_bounds lead pre -> j < n -> in_bounds (lead ++ [n]) (pre ++ [j]).
Proof.
  intros Hpre Hj. apply Forall2_app; [exact Hpre|].
  constructor; [exact Hj|constructor].
Qed.

Lemma matmul_of_real (a b : tensor) (batch : list nat) (n k m : nat) :
  shape a = batch ++ [n; k] ->
  shape b = batch ++ [k; m] ->
  (forall idx, in_bounds (batch ++ [n; m]) idx ->
     (Rsum k (fun l =>
                Rabs (get a (firstn (length batch) idx
                             ++ [nth (length batch) idx 0%nat; l])
                      * get b (firstn (length batch) idx
                               ++ [l; nth (S (length batch)) idx 0%nat])))
      <= F32.max_finite)%R) ->
  F32.matmul (of_real a) (of_real b)
  = Ok (of_real (build (batch ++ [n; m])
                       (jnp.matmul_elem a b (length batch) k))).
Proof.
  intros Ha Hb Hrange. unfold F32.matmul. cbn [of_real F32.shape].
  rewrite Ha, Hb, !rev_app_distr. simpl.
  rewrite Nat.eqb_refl, list_eqb_nat_refl. simpl. rewrite rev_involutive.
  f_equal. apply build_of_real. intros idx Hidx.
  unfold F32.matmul_elem, jnp.matmul_elem. cbv zeta.
  rewrite (sum_ext k _
             (fun l => F32.mul
                         (F32.Fin (get a (firstn (length batch) idx
                                          ++ [nth (length batch) idx 0%nat; l])))
                         (F32.Fin (get b (firstn (length batch) idx
                                          ++ [l; nth (S (length batch)) idx 0%nat])))))
    by (intros; rewrite !get_of_real; reflexivity).
  apply (sum_products_finite k
           (fun l => get a (firstn (length batch) idx
                            ++ [nth (length batch) idx 0%nat; l]))
           (fun l => get b (firstn (length batch) idx
                            ++ [l; nth (S (length batch)) idx 0%nat]))).
  apply Hrange. exact Hidx.
Qed.

Lemma Dense_of_real_ok (F din : nat) (lead : list nat) (p : nn.DenseParams)
  (inputs : tensor) :
  shape inputs = lead ++ [din] ->
  shape (nn.kernel p) = [din; F] ->
  shape (nn.bias p) = [F] ->
  0 < din -> 0 < F ->
  (forall idx, in_bounds (lead ++ [F]) idx ->
     (Rsum din (fun l => Rabs (get inputs (removelast idx ++ [l])
                               * get (nn.kernel p) [l; last idx 0%nat]))
      + Rabs (get (nn.bias p) [last idx 0%nat]) <= F32.max_finite)%R) ->
  F32.Dense (Z.of_nat F) (Dense_of_real p) (of_real inputs)
  = Ok (of_real (build (lead ++ [F]) (nn.Dense_elem p inputs din))).
Proof.
  intros Hx Hk Hb Hdin HF Hrange. unfold F32.Dense.
  cbn [of_real Dense_of_real F32.shape F32.kernel F32.bias].
  rewrite Hx, rev_app_distr. cbn [rev app].
  replace (din =? 0) with false by (symmetry; apply Nat.eqb_neq; lia).
  replace (Z.of_nat F =? 0)%Z with false by (symmetry; apply Z.eqb_neq; lia).
  replace (Z.of_nat F <? 0)%Z with false by (symmetry; apply Z.ltb_ge; lia).
  cbn [orb]. rewrite Hk, Hb. simpl.
  rewrite !Z.eqb_refl. simpl. rewrite rev_involutive, Nat2Z.id.
  f_equal. apply build_of_real. intros idx Hidx.
  unfold F32.Dense_elem, nn.Dense_elem. cbv zeta.
  cbn [Dense_of_real F32.kernel F32.bias].
  specialize (Hrange idx Hidx).
  pose proof (Rsum_abs_nonneg din
                (fun l => get inputs (removelast idx ++ [l])
                          * get (nn.kernel p) [l; last idx 0%nat])%R) as Hs.
  pose proof (Rabs_pos (get (nn.bias p) [last idx 0%nat])) as Hbp.
  cbv beta in Hs.
  rewrite (sum_ext din _
             (fun l => F32.mul (F32.Fin (get inputs (removelast idx ++ [l])))
                               (F32.Fin (get (nn.kernel p) [l; last idx 0%nat]))))
    by (intros; rewrite !get_of_real; reflexivity).
  rewrite (sum_products_finite din
             (fun l => get inputs (removelast idx ++ [l]))
             (fun l => get (nn.kernel p) [l; last idx 0%nat])) by lra.
  rewrite get_of_real. apply add_finite.
  pose proof (Rsum_triang din
                (fun l => get inputs (removelast idx ++ [l])
                          * get (nn.kernel p) [l; last idx 0%nat])%R) as Ht.
  cbv beta in Ht.
  pose proof (Rabs_triang
                (Rsum din (fun l => get inputs (removelast idx ++ [l])
                                    * get (nn.kernel p) [l; last idx 0%nat])%R)
                (get (nn.bias p) [last idx 0%nat])).
  lra.
Qed.

Lemma div_finite (v c : R) :
  (1 <= c)%R -> (Rabs v <= F32.max_finite)%R ->
  F32.div (F32.Fin v) (F32.Fin c) = F32.Fin (v / c).
Proof.
  intros Hc Hv. cbn [F32.div].
  destruct (Req_dec_T c 0) as [E|_]; [lra|].
  apply of_exact_finite.
  unfold Rdiv. rewrite Rabs_mult.
  assert (Hinv : (0 < / c <= 1)%R).
  { split; [apply Rinv_0_lt_compat; lra|].
    rewrite <- Rinv_1. apply Rinv_le_contravar; lra. }
  rewrite (Rabs_pos_eq (/ c)) by lra.
  pose proof (Rabs_pos v). nra.
Qed.

Lemma divide_of_real (a : tensor) (c : R) :
  (1 <= c)%R ->
  (forall v, In v (data a) -> (Rabs v <= F32.max_finite)%R) ->
  F32.divide (of_real a) (F32.Fin c) = of_real (jnp.divide a c).
Proof.
  intros Hc Hrange. unfold F32.divide, jnp.divide, of_real.
  cbn [F32.shape F32.data shape data]. f_equal.
  rewrite !map_map. apply map_ext_in. intros v Hv.
  apply div_finite; [exact Hc|]. apply Hrange. exact Hv.
Qed.

Lemma sqrt_of_nat (n : nat) :
  0 < n -> (INR n <= F32.max_finite)%R ->
  F32.sqrt (Z.of_nat n) = F32.Fin (jnp.sqrt (Z.of_nat n)) /\
  (1 <= jnp.sqrt (Z.of_nat n))%R.
Proof.
  intros Hn Hmax. unfold F32.sqrt, jnp.sqrt.
  replace (Z.of_nat n <? 0)%Z with false by (symmetry; apply Z.ltb_ge; lia).
  rewrite <- INR_IZR_INZ.
  assert (H1 : (1 <= INR n)%R) by (apply (le_INR 1); lia).
  assert (Hs1 : (1 <= R_sqrt.sqrt (INR n))%R).
  { rewrite <- sqrt_1. apply sqrt_le_1; lra. }
  split; [|exact Hs1].
  apply of_exact_finite.
  rewrite Rabs_pos_eq by lra.
  assert (Hsq : (R_sqrt.sqrt (INR n) * R_sqrt.sqrt (INR n) = INR n)%R)
    by (apply sqrt_sqrt; lra).
  nra.
Qed.

(** ** Softmax *)

Lemma fold_left_Rmax_ge (l : list R) (a : R) :
  (a <= fold_left Rmax l a)%R /\
  (forall v, In v l -> (v <= fold_left Rmax l a)%R).
Proof.
  revert a. induction l as [|b l IH]; intros a; simpl.
  - split; [lra|intros v []].
  - destruct (IH (Rmax a b)) as [H1 H2].
    pose proof (Rmax_l a b). pose proof (Rmax_r a b).
    split; [lra|]. intros v [<-|Hv]; [lra|]. apply H2. exact Hv.
Qed.

Lemma fold_left_Rmax_In (l : list R) (a : R) :
  In (fold_left Rmax l a) (a :: l).
Proof.
  revert a. induction l as [|b l IH]; intros a; simpl; [left; reflexivity|].
  pose proof (IH (Rmax a b)) as H. simpl in H.
  destruct (Rle_dec a b) as [Hab|Hab];
    [rewrite Rmax_right in * by lra|rewrite Rmax_left in * by lra];
    tauto.
Qed.

Lemma Rlist_max_ge (l : list R) (v : R) :
  In v l -> (v <= Rlist_max l)%R.
Proof.
  destruct l as [|a l]; [intros []|]. intros [<-|Hv]; unfold Rlist_max.
  - apply (proj1 (fold_left_Rmax_ge l a)).
  - apply (proj2 (fold_left_Rmax_ge l a)). exact Hv.
Qed.

Lemma Rlist_max_In (l : list R) : l <> [] -> In (Rlist_max l) l.
Proof.
  destruct l as [|a l]; [congruence|]. intros _. apply fold_left_Rmax_In.
Qed.

Lemma list_max_of_real (l : list R) :
  l <> [] -> F32.list_max (map F32.Fin l) = F32.Fin (Rlist_max l).
Proof.
  destruct l as [|a l]; [congruence|]. intros _.
  unfold F32.list_max, Rlist_max. cbn [map].
  revert a. induction l as [|b l IH]; intros a; [reflexivity|].
  cbn [map fold_left F32.maximum]. apply IH.
Qed.

Lemma Rlist_sum_unit (l : list R) :
  (forall v, In v l -> (0 <= v <= 1)%R) ->
  (0 <= Rlist_sum l <= INR (length l))%R.
Proof.
  induction l as [|a l IH]; intros H.
  - simpl. lra.
  - cbn [Rlist_sum fold_right length]. rewrite S_INR.
    assert (0 <= a <= 1)%R by (apply H; left; reflexivity).
    assert (0 <= Rlist_sum l <= INR (length l))%R
      by (apply IH; intros; apply H; right; assumption).
    unfold Rlist_sum in *. lra.
Qed.

Lemma Rlist_sum_ge (l : list R) (v : R) :
  (forall u, In u l -> (0 <= u)%R) -> In v l -> (v <= Rlist_sum l)%R.
Proof.
  induction l as [|a l IH]; intros H Hv; [destruct Hv|].
  cbn [Rlist_sum fold_right].
  assert (0 <= a)%R by (apply H; left; reflexivity).
  assert (Hl : (0 <= Rlist_sum l)%R).
  { clear IH Hv. induction l as [|b l IHl]; [simpl; lra|].
    cbn [Rlist_sum fold_right].
    assert (0 <= b)%R by (apply H; right; left; reflexivity).
    assert (0 <= Rlist_sum l)%R.
    { apply IHl. intros u [<-|Hu]; apply H; [left|right; right]; auto. }
    unfold Rlist_sum in *. lra. }
  destruct Hv as [<-|Hv]; unfold Rlist_sum in *; [lra|].
  assert (v <= fold_right Rplus 0 l)%R
    by (apply IH; [intros; apply H; right|]; assumption).
  lra.
Qed.

(** A sum of numbers of the unit interval does not overflow. *)
Lemma list_sum_unit (l : list R) :
  (forall v, In v l -> (0 <= v <= 1)%R) ->
  (INR (length l) <= F32.max_finite)%R ->
  F32.list_sum (map F32.Fin l) = F32.Fin (Rlist_sum l).
Proof.
  induction l as [|a l IH]; intros H Hlen; [reflexivity|].
  cbn [length] in Hlen. rewrite S_INR in Hlen.
  assert (Ha : (0 <= a <= 1)%R) by (apply H; left; reflexivity).
  assert (Hl : forall v, In v l -> (0 <= v <= 1)%R)
    by (intros; apply H; right; assumption).
  pose proof (Rlist_sum_unit l Hl) as Hs.
  cbn [map F32.list_sum fold_right].
  change (fold_right F32.add (F32.Fin 0) (map F32.Fin l))
    with (F32.list_sum (map F32.Fin l)).
  rewrite IH by (assumption || lra).
  cbn [Rlist_sum fold_right].
  change (fold_right Rplus 0%R l) with (Rlist_sum l).
  apply add_finite. rewrite Rabs_pos_eq by lra. lra.
Qed.

Lemma softmax_of_real (x : tensor) (lead : list nat) (n : nat) :
  shape x = lead ++ [n] ->
  (INR n <= F32.max_finite)%R ->
  (forall idx, in_bounds (lead ++ [n]) idx ->
     (Rabs (get x idx) <= F32.max_finite / 2)%R) ->
  F32.softmax (of_real x)
  = Ok (of_real (build (lead ++ [n]) (nn.softmax_elem x n))).
Proof.
  intros Hx Hn Hrange. unfold F32.softmax. cbn [of_real F32.shape].
  rewrite Hx, rev_app_distr. cbn [rev app]. rewrite <- Hx.
  change (F32.mkTensor (shape x) (map F32.Fin (data x))) with (of_real x).
  rewrite Hx.
  f_equal. apply build_of_real. intros idx Hidx.
  destruct (in_bounds_snoc lead n idx Hidx) as (pre & j & -> & Hpre & Hj).
  unfold F32.softmax_elem, nn.softmax_elem. cbv zeta.
  rewrite removelast_last.
  set (r := nn.row x pre n).
  assert (Hrow : F32.row (of_real x) pre n = map F32.Fin r).
  { unfold F32.row, r, nn.row. rewrite map_map. apply map_ext.
    intros k. apply get_of_real. }
  rewrite Hrow.
  assert (Hin : forall v, In v r -> (Rabs v <= F32.max_finite / 2)%R).
  { intros v Hv. unfold r, nn.row in Hv. apply in_map_iff in Hv.
    destruct Hv as (k & <- & Hk). apply in_seq in Hk.
    apply Hrange. apply in_bounds_app; [exact Hpre|lia]. }
  assert (Hj_in : In (get x (pre ++ [j])) r).
  { unfold r, nn.row. apply in_map_iff. exists j. split; [reflexivity|].
    apply in_seq. lia. }
  assert (Hne : r <> []) by (intros E; rewrite E in Hj_in; destruct Hj_in).
  rewrite (list_max_of_real r Hne).
  set (m := Rlist_max r).
  assert (Hm : (Rabs m <= F32.max_finite / 2)%R)
    by (apply Hin; apply Rlist_max_In; exact Hne).
  assert (Hun : forall v, In v r ->
            F32.exp (F32.sub (F32.Fin v) (F32.Fin m))
            = F32.Fin (exp (v - m)) /\ (0 < exp (v - m) <= 1)%R).
  { intros v Hv.
    assert (Hle : (v <= m)%R) by (apply Rlist_max_ge; exact Hv).
    assert (He : (0 < exp (v - m) <= 1)%R).
    { split; [apply exp_pos|].
      rewrite <- exp_0. destruct (Req_dec (v - m) 0) as [->|Hd]; [lra|].
      left. apply exp_increasing. lra. }
    split; [|exact He].
    unfold F32.sub. cbn [F32.opp].
    rewrite add_finite.
    - cbn [F32.exp]. apply of_exact_finite.
      rewrite Rabs_pos_eq by lra. pose proof max_finite_pos. lra.
    - pose proof (Rabs_triang v (- m)) as Ht. rewrite Rabs_Ropp in Ht.
      specialize (Hin v Hv). lra. }
  rewrite get_of_real.
  destruct (Hun _ Hj_in) as [-> Hej].
  rewrite map_map.
  rewrite (map_ext_in _ (fun v => F32.Fin (exp (v - m))))
    by (intros v Hv; apply Hun; exact Hv).
  rewrite <- (map_map (fun v => exp (v - m)) F32.Fin).
  assert (Hunit : forall u, In u (map (fun v => exp (v - m)) r) ->
                    (0 <= u <= 1)%R).
  { intros u Hu. apply in_map_iff in Hu. destruct Hu as (v & <- & Hv).
    destruct (Hun v Hv) as [_ He]. lra. }
  rewrite list_sum_unit.
  - assert (Hs : (exp (get x (pre ++ [j]) - m)
                  <= Rlist_sum (map (fun v => exp (v - m)) r))%R).
    { apply Rlist_sum_ge; [intros u Hu; apply Hunit; exact Hu|].
      apply in_map_iff. exists (get x (pre ++ [j])). auto. }
    set (e := exp (get x (pre ++ [j]) - m)) in *.
    set (s := Rlist_sum (map (fun v => exp (v - m)) r)) in *.
    cbn [F32.div].
    destruct (Req_dec_T s 0) as [E|_]; [lra|].
    apply of_exact_finite.
    assert (0 < e / s <= 1)%R.
    { split; [apply Rdiv_lt_0_compat; lra|].
      apply (Rmult_le_reg_r s); [lra|].
      unfold Rdiv. rewrite Rmult_assoc, Rinv_l by lra. lra. }
    rewrite Rabs_pos_eq by lra. pose proof max_finite_pos. lra.
  - exact Hunit.
  - rewrite length_map. unfold r, nn.row. rewrite length_map, length_seq.
    exact Hn.
Qed.

(** ** Magnitudes *)

Lemma Rsum_le_terms (n : nat) (f g : nat -> R) :
  (forall j, j < n -> (f j <= g j)%R) -> (Rsum n f <= Rsum n g)%R.
Proof.
  induction n as [|n IH]; intros H; simpl; [lra|].
  assert (Rsum n f <= Rsum n g)%R by (apply IH; intros; apply H; lia).
  assert (f n <= g n)%R by (apply H; lia). lra.
Qed.

Lemma linear_le_magnitude (p : nn.DenseParams) (x : tensor) (d b i c : nat) :
  (Rabs (AttentionSpec.linear p x d b i c) <= linear_magnitude p x d b i c)%R.
Proof.
  unfold AttentionSpec.linear, AttentionSpec.affine, linear_magnitude.
  pose proof (Rsum_triang d
                (fun l => get x [b; i; l] * get (nn.kernel p) [l; c])%R) as Ht.
  cbv beta in Ht.
  pose proof (Rabs_triang
                (Rsum d (fun l => get x [b; i; l] * get (nn.kernel p) [l; c])%R)
                (get (nn.bias p) [c])).
  lra.
Qed.

(** A score is a sum of [hd] products of numbers bounded by [M]. *)
Lemma products_magnitude (n : nat) (a b : nat -> R) (M : R) :
  (0 <= M)%R ->
  (forall l, l < n -> (Rabs (a l) <= M)%R) ->
  (forall l, l < n -> (Rabs (b l) <= M)%R) ->
  (Rsum n (fun l => Rabs (a l * b l)) <= INR n * (M * M))%R.
Proof.
  intros HM Ha Hb. rewrite <- Rsum_const.
  apply Rsum_le_terms. intros l Hl. rewrite Rabs_mult.
  pose proof (Rabs_pos (a l)). pose proof (Rabs_pos (b l)).
  specialize (Ha l Hl). specialize (Hb l Hl). nra.
Qed.

(** A weighted average of numbers bounded by [M] has terms whose
    magnitudes add up to at most [M]. *)
Lemma average_magnitude (n : nat) (w v : nat -> R) (M : R) :
  (0 <= M)%R ->
  (forall j, j < n -> (0 <= w j)%R) ->
  Rsum n w = 1%R ->
  (forall j, j < n -> (Rabs (v j) <= M)%R) ->
  (Rsum n (fun j => Rabs (w j * v j)) <= M)%R.
Proof.
  intros HM Hw Hsum Hv.
  replace M with (Rsum n w * M)%R by (rewrite Hsum; lra).
  rewrite <- Rsum_scal. apply Rsum_le_terms. intros j Hj.
  rewrite Rabs_mult, (Rabs_pos_eq (w j)) by (apply Hw; exact Hj).
  specialize (Hw j Hj). specialize (Hv j Hj). nra.
Qed.

Lemma bound_in_range (M : R) (n : nat) :
  (0 <= M)%R -> 0 < n ->
  (INR n * (M * M) <= F32.max_finite / 2)%R ->
  (M <= F32.max_finite)%R /\ (M * M <= F32.max_finite / 2)%R.
Proof.
  intros HM Hn H.
  assert (H1 : (1 <= INR n)%R) by (apply (le_INR 1); lia).
  pose proof max_finite_pos.
  assert (HMM : (0 <= M * M)%R) by nra.
  assert (M * M <= F32.max_finite / 2)%R by nra.
  split; [|assumption].
  destruct (Rle_dec M 1); [lra|]. nra.
Qed.

Lemma in_data_build (sh : list nat) (f : list nat -> R) (v : R) :
  In v (data (build sh f)) ->
  exists idx, in_bounds sh idx /\ v = f idx.
Proof.
  unfold build. cbn [data]. intros Hv. apply in_map_iff in Hv.
  destruct Hv as (idx & <- & Hin). exists idx. split; [|reflexivity].
  apply In_indices. exact Hin.
Qed.

Lemma in_bounds3_inv (A B C : nat) (idx : list nat) :
  in_bounds [A; B; C] idx ->
  exists a b c, idx = [a; b; c] /\ a < A /\ b < B /\ c < C.
Proof.
  intros H. inversion H as [|a ? l1 ? Ha H1]; subst.
  inversion H1 as [|b ? l2 ? Hb H2]; subst.
  inversion H2 as [|c ? l3 ? Hc H3]; subst.
  inversion H3; subst. exists a, b, c. auto.
Qed.

Lemma in_bounds4_inv (A B C D : nat) (idx : list nat) :
  in_bounds [A; B; C; D] idx ->
  exists a b c d, idx = [a; b; c; d] /\ a < A /\ b < B /\ c < C /\ d < D.
Proof.
  intros H. inversion H as [|a ? l1 ? Ha H1]; subst.
  apply in_bounds3_inv in H1. destruct H1 as (b & c & d & -> & ? & ? & ?).
  exists a, b, c, d. auto.
Qed.

(** ** The single-head call within the range *)

Section SelfAttentionInRange.

Variable self : SelfAttention.t.
Variable variables : SelfAttention.params.
Variable x : tensor.
Variables B S d hd : nat.

Hypothesis Hx : shape x = [B; S; d].
Hypothesis Hinit : SelfAttention.initialised self variables d hd.
Hypothesis Hd : 0 < d.
Hypothesis Hhd0 : 0 < hd.
Hypothesis Hrange : SelfAttention_in_range variables x B S d hd.

(** Within the range the float32 call returns the finite arrays of the
    exact computation. *)
Lemma SelfAttention_call_of_real :
  exists output attn_weights,
    SelfAttention.call self variables x = Ok (output, attn_weights) /\
    F32.SelfAttention_call self (SelfAttention_of_real variables) (of_real x)
    = Ok (of_real output, of_real attn_weights).
Proof.
  pose (Q := AttentionSpec.linear (SelfAttention.p_query variables) x d).
  pose (K := AttentionSpec.linear (SelfAttention.p_key variables) x d).
  pose (V := AttentionSpec.linear (SelfAttention.p_value variables) x d).
  pose (scale := R_sqrt.sqrt (IZR (SelfAttention.head_dim self))).
  destruct Hrange as (M & HM & HMq & HMk & HMv & HMM & Hhdmax & HSmax).
  destruct (bound_in_range M hd HM Hhd0 HMM) as [HMmax HMM2].
  destruct Hinit as (Hhd & [Hqk Hqb] & [Hkk Hkb] & [Hvk Hvb]).
  assert (HQ : forall b i c, b < B -> i < S -> c < hd -> (Rabs (Q b i c) <= M)%R).
  { intros b i c Hb Hi Hc. pose proof (linear_le_magnitude
      (SelfAttention.p_query variables) x d b i c).
    specialize (HMq b i c Hb Hi Hc). unfold Q. lra. }
  assert (HK : forall b i c, b < B -> i < S -> c < hd -> (Rabs (K b i c) <= M)%R).
  { intros b i c Hb Hi Hc. pose proof (linear_le_magnitude
      (SelfAttention.p_key variables) x d b i c).
    specialize (HMk b i c Hb Hi Hc). unfold K. lra. }
  assert (HV : forall b i c, b < B -> i < S -> c < hd -> (Rabs (V b i c) <= M)%R).
  { intros b i c Hb Hi Hc. pose proof (linear_le_magnitude
      (SelfAttention.p_value variables) x d b i c).
    specialize (HMv b i c Hb Hi Hc). unfold V. lra. }
  unfold SelfAttention.call, F32.SelfAttention_call, SelfAttention.setup.
  cbn [bind SelfAttention.query SelfAttention.key SelfAttention.value].
  cbn [SelfAttention_of_real F32.sa_query F32.sa_key F32.sa_value].
  rewrite Hhd.
  rewrite (Dense_ok hd d [B; S] _ _ Hx Hqk Hqb Hd Hhd0).
  rewrite (Dense_ok hd d [B; S] _ _ Hx Hkk Hkb Hd Hhd0).
  rewrite (Dense_ok hd d [B; S] _ _ Hx Hvk Hvb Hd Hhd0).
  assert (Hdense : forall p,
            projection_bounded M p x B S d hd ->
            forall idx, in_bounds ([B; S] ++ [hd]) idx ->
              (Rsum d (fun l => Rabs (get x (removelast idx ++ [l])
                                      * get (nn.kernel p) [l; last idx 0%nat]))
               + Rabs (get (nn.bias p) [last idx 0%nat]) <= F32.max_finite)%R).
  { intros p Hp idx Hidx. apply in_bounds3_inv in Hidx.
    destruct Hidx as (b & i & c & -> & Hb & Hi & Hc).
    specialize (Hp b i c Hb Hi Hc). unfold linear_magnitude in Hp.
    cbn [removelast last app]. lra. }
  rewrite (Dense_of_real_ok hd d [B; S] _ x Hx Hqk Hqb Hd Hhd0 (Hdense _ HMq)).
  rewrite (Dense_of_real_ok hd d [B; S] _ x Hx Hkk Hkb Hd Hhd0 (Hdense _ HMk)).
  rewrite (Dense_of_real_ok hd d [B; S] _ x Hx Hvk Hvb Hd Hhd0 (Hdense _ HMv)).
  cbn [bind app].
  set (q := build [B; S; hd] (nn.Dense_elem (SelfAttention.p_query variables) x d)).
  set (k := build [B; S; hd] (nn.Dense_elem (SelfAttention.p_key variables) x d)).
  set (v := build [B; S; hd] (nn.Dense_elem (SelfAttention.p_value variables) x d)).
  rewrite transpose_of_real.
  rewrite (transpose_ok k [B; S; hd] [0; 2; 1] eq_refl eq_refl).
  cbn [bind map nth lift].
  set (kT := build [B; hd; S] _).
  assert (Hq : forall b i c, b < B -> i < S -> c < hd -> get q [b; i; c] = Q b i c).
  { intros. unfold q. rewrite get_build by bounds. reflexivity. }
  assert (Hk : forall b j c, b < B -> j < S -> c < hd -> get k [b; j; c] = K b j c).
  { intros. unfold k. rewrite get_build by bounds. reflexivity. }
  assert (Hv : forall b j c, b < B -> j < S -> c < hd -> get v [b; j; c] = V b j c).
  { intros. unfold v. rewrite get_build by bounds. reflexivity. }
  assert (HkT : forall b c j, b < B -> c < hd -> j < S ->
                  get kT [b; c; j] = K b j c).
  { intros. unfold kT. rewrite get_build by bounds.
    rewrite (transpose_elem_021 k B S hd) by reflexivity.
    apply Hk; assumption. }
  rewrite (matmul_ok q kT [B] S hd S eq_refl eq_refl).
  rewrite (matmul_of_real q kT [B] S hd S eq_refl eq_refl).
  2:{ intros idx Hidx. apply in_bounds3_inv in Hidx.
      destruct Hidx as (b & i & j & -> & Hb & Hi & Hj).
      cbn [length firstn nth app].
      rewrite (Rsum_ext hd _ (fun l => Rabs (Q b i l * K b j l)))
        by (intros l Hl; rewrite Hq, HkT by assumption; reflexivity).
      pose proof (products_magnitude hd (Q b i) (K b j) M HM
                    (fun l Hl => HQ b i l Hb Hi Hl)
                    (fun l Hl => HK b j l Hb Hj Hl)).
      lra. }
  cbn [bind app length].
  set (scores := build [B; S; S] _).
  assert (Hs : forall b i j, b < B -> i < S -> j < S ->
                 get scores [b; i; j] = AttentionSpec.scores (Q b) (K b) hd i j).
  { intros. unfold scores. rewrite get_build by bounds.
    unfold jnp.matmul_elem, AttentionSpec.scores. simpl.
    apply Rsum_ext. intros l Hl. rewrite Hq, HkT by assumption. reflexivity. }
  assert (Hsb : forall b i j, b < B -> i < S -> j < S ->
                  (Rabs (get scores [b; i; j]) <= F32.max_finite / 2)%R).
  { intros b i j Hb Hi Hj. rewrite Hs by assumption.
    unfold AttentionSpec.scores.
    pose proof (Rsum_triang hd (fun c => Q b i c * K b j c)%R) as Ht.
    pose proof (products_magnitude hd (Q b i) (K b j) M HM
                  (fun l Hl => HQ b i l Hb Hi Hl)
                  (fun l Hl => HK b j l Hb Hj Hl)).
    cbv beta in Ht. lra. }
  destruct (sqrt_of_nat hd Hhd0 Hhdmax) as [Hsqrt Hsqrt1].
  rewrite Hsqrt.
  rewrite (divide_of_real scores (jnp.sqrt (Z.of_nat hd)) Hsqrt1).
  2:{ intros u Hu. apply in_data_build in Hu.
      destruct Hu as (idx & Hidx & ->).
      apply in_bounds3_inv in Hidx.
      destruct Hidx as (b & i & j & -> & Hb & Hi & Hj).
      change (jnp.matmul_elem q kT 1 hd [b; i; j])
        with (jnp.matmul_elem q kT (length [B]) hd [b; i; j]).
      pose proof (Hsb b i j Hb Hi Hj) as Hbound.
      unfold scores in Hbound. rewrite get_build in Hbound by bounds.
      pose proof max_finite_pos. cbn [length] in *. lra. }
  set (scaled := jnp.divide scores (jnp.sqrt (Z.of_nat hd))).
  rewrite (softmax_ok scaled [B; S] S eq_refl).
  rewrite (softmax_of_real scaled [B; S] S eq_refl HSmax).
  2:{ intros idx Hidx. apply in_bounds3_inv in Hidx.
      destruct Hidx as (b & i & j & -> & Hb & Hi & Hj).
      unfold scaled. rewrite get_divide.
      pose proof (Hsb b i j Hb Hi Hj) as Hbound.
      unfold Rdiv. rewrite Rabs_mult.
      assert (Hinv : (0 < / jnp.sqrt (Z.of_nat hd) <= 1)%R).
      { split; [apply Rinv_0_lt_compat; lra|].
        rewrite <- Rinv_1. apply Rinv_le_contravar; lra. }
      rewrite (Rabs_pos_eq (/ _)) by lra.
      pose proof (Rabs_pos (get scores [b; i; j])). nra. }
  cbn [bind app].
  set (w := build [B; S; S] _).
  assert (Hw : forall b i j, b < B -> i < S -> j < S ->
                 get w [b; i; j]
                 = AttentionSpec.weights (Q b) (K b) S hd scale i j).
  { intros b i j Hb Hi Hj. unfold w.
    rewrite get_build by bounds.
    unfold AttentionSpec.weights.
    apply (softmax_elem_row _ S [b; i; j]
             (fun j' => AttentionSpec.scaled (Q b) (K b) hd scale i j') j).
    - intros j' Hj'. simpl. unfold scaled. rewrite get_divide, Hs by assumption.
      unfold AttentionSpec.scaled, scale, jnp.sqrt. rewrite Hhd. reflexivity.
    - unfold scaled. rewrite get_divide, Hs by assumption.
      unfold AttentionSpec.scaled, scale, jnp.sqrt. rewrite Hhd. reflexivity.
    - lia. }
  rewrite (matmul_ok w v [B] S S hd eq_refl eq_refl).
  rewrite (matmul_of_real w v [B] S S hd eq_refl eq_refl).
  2:{ intros idx Hidx. apply in_bounds3_inv in Hidx.
      destruct Hidx as (b & i & c & -> & Hb & Hi & Hc).
      cbn [length firstn nth app].
      rewrite (Rsum_ext S _
                 (fun j => Rabs (AttentionSpec.weights (Q b) (K b) S hd scale i j
                                 * V b j c)))
        by (intros j Hj; rewrite Hw, Hv by assumption; reflexivity).
      assert (HS : 0 < S) by lia.
      pose proof (average_magnitude S
                    (fun j => AttentionSpec.weights (Q b) (K b) S hd scale i j)
                    (fun j => V b j c) M HM
                    (fun j Hj => proj1 (weights_range (Q b) (K b) S hd scale i j Hj))
                    (weights_row_sum (Q b) (K b) S hd scale i HS)
                    (fun j Hj => HV b j c Hb Hj Hc)) as Hav.
      cbv beta in Hav. lra. }
  cbn [bind app length].
  eexists. eexists. split; reflexivity.
Qed.

End SelfAttentionInRange.

(** ** The multi-head call within the range *)

Lemma split_heads_of_real (self : MultiHeadAttention.t) (B S : nat)
  (a : tensor) :
  F32.split_heads self B S (of_real a)
  = lift (MultiHeadAttention.split_heads self B S a).
Proof.
  unfold F32.split_heads, MultiHeadAttention.split_heads.
  rewrite reshape_of_real.
  destruct (jnp.reshape a _) as [a'|e]; cbn [lift bind]; [|reflexivity].
  apply transpose_of_real.
Qed.

(** A projection of numbers bounded by [M]. *)
Lemma scaled_magnitude (n : nat) (a b : nat -> R) (M : R) :
  (forall l, l < n -> (Rabs (a l) <= M)%R) ->
  (Rsum n (fun l => Rabs (a l * b l)) <= M * Rsum n (fun l => Rabs (b l)))%R.
Proof.
  intros Ha. rewrite Rmult_comm, <- Rsum_scal.
  apply Rsum_le_terms. intros l Hl. rewrite Rabs_mult.
  pose proof (Rabs_pos (b l)). specialize (Ha l Hl). nra.
Qed.

Section MultiHeadAttentionInRange.

Variable self : MultiHeadAttention.t.
Variable variables : MultiHeadAttention.params.
Variable x : tensor.
Variables B S d H D E : nat.

Hypothesis Hx : shape x = [B; S; d].
Hypothesis Hinit : MultiHeadAttention.initialised self variables d H D E.
Hypothesis Hpos : all_positive [B; S; d; H; D; E] = true.
Hypothesis Hrange : MultiHeadAttention_in_range variables x B S d H D E.

Lemma MultiHeadAttention_call_of_real :
  exists output attn_weights,
    MultiHeadAttention.call self variables x = Ok (output, attn_weights) /\
    F32.MultiHeadAttention_call self (MultiHeadAttention_of_real variables)
                                (of_real x)
    = Ok (of_real output, of_real attn_weights).
Proof.
  pose (Q := AttentionSpec.linear (MultiHeadAttention.p_query variables) x d).
  pose (K := AttentionSpec.linear (MultiHeadAttention.p_key variables) x d).
  pose (V := AttentionSpec.linear (MultiHeadAttention.p_value variables) x d).
  pose (scale := R_sqrt.sqrt (IZR (MultiHeadAttention.head_dim self))).
  pose proof Hpos as Hpos'. positive_dims Hpos'.
  assert (HHD : 0 < H * D) by nia.
  destruct Hrange as (M & HM & HMq & HMk & HMv & HMM & HDmax & HSmax & HMo).
  destruct (bound_in_range M D HM ltac:(assumption) HMM) as [HMmax HMM2].
  destruct Hinit as (HH & HD & HE & [Hqk Hqb] & [Hkk Hkb] & [Hvk Hvb] & [Hok Hob]).
  assert (HQ : forall b i f, b < B -> i < S -> f < H * D ->
                 (Rabs (Q b i f) <= M)%R).
  { intros b i c Hb Hi Hc. pose proof (linear_le_magnitude
      (MultiHeadAttention.p_query variables) x d b i c).
    specialize (HMq b i c Hb Hi Hc). unfold Q. lra. }
  assert (HK : forall b i f, b < B -> i < S -> f < H * D ->
                 (Rabs (K b i f) <= M)%R).
  { intros b i c Hb Hi Hc. pose proof (linear_le_magnitude
      (MultiHeadAttention.p_key variables) x d b i c).
    specialize (HMk b i c Hb Hi Hc). unfold K. lra. }
  assert (HV : forall b i f, b < B -> i < S -> f < H * D ->
                 (Rabs (V b i f) <= M)%R).
  { intros b i c Hb Hi Hc. pose proof (linear_le_magnitude
      (MultiHeadAttention.p_value variables) x d b i c).
    specialize (HMv b i c Hb Hi Hc). unfold V. lra. }
  unfold MultiHeadAttention.call, F32.MultiHeadAttention_call,
    MultiHeadAttention.setup.
  cbn [bind MultiHeadAttention.query MultiHeadAttention.key
       MultiHeadAttention.value MultiHeadAttention.out].
  cbn [MultiHeadAttention_of_real F32.mha_query F32.mha_key F32.mha_value
       F32.mha_out of_real F32.shape].
  change (F32.mkTensor (shape x) (map F32.Fin (data x))) with (of_real x).
  rewrite Hx, HE. rewrite HH, HD, <- Nat2Z.inj_mul.
  rewrite (Dense_ok (H * D) d [B; S] _ _ Hx Hqk Hqb) by assumption.
  rewrite (Dense_ok (H * D) d [B; S] _ _ Hx Hkk Hkb) by assumption.
  rewrite (Dense_ok (H * D) d [B; S] _ _ Hx Hvk Hvb) by assumption.
  assert (Hdense : forall p,
            projection_bounded M p x B S d (H * D) ->
            forall idx, in_bounds ([B; S] ++ [H * D]) idx ->
              (Rsum d (fun l => Rabs (get x (removelast idx ++ [l])
                                      * get (nn.kernel p) [l; last idx 0%nat]))
               + Rabs (get (nn.bias p) [last idx 0%nat]) <= F32.max_finite)%R).
  { intros p Hp idx Hidx. apply in_bounds3_inv in Hidx.
    destruct Hidx as (b & i & c & -> & Hb & Hi & Hc).
    specialize (Hp b i c Hb Hi Hc). unfold linear_magnitude in Hp.
    cbn [removelast last app]. lra. }
  rewrite (Dense_of_real_ok (H * D) d [B; S] _ x Hx Hqk Hqb
             ltac:(assumption) HHD (Hdense _ HMq)).
  rewrite (Dense_of_real_ok (H * D) d [B; S] _ x Hx Hkk Hkb
             ltac:(assumption) HHD (Hdense _ HMk)).
  rewrite (Dense_of_real_ok (H * D) d [B; S] _ x Hx Hvk Hvb
             ltac:(assumption) HHD (Hdense _ HMv)).
  cbn [bind app].
  set (q0 := build [B; S; H * D]
               (nn.Dense_elem (MultiHeadAttention.p_query variables) x d)).
  set (k0 := build [B; S; H * D]
               (nn.Dense_elem (MultiHeadAttention.p_key variables) x d)).
  set (v0 := build [B; S; H * D]
               (nn.Dense_elem (MultiHeadAttention.p_value variables) x d)).
  rewrite !split_heads_of_real.
  rewrite (split_heads_ok self q0 B S H D HH HD eq_refl).
  rewrite (split_heads_ok self k0 B S H D HH HD eq_refl).
  rewrite (split_heads_ok self v0 B S H D HH HD eq_refl).
  cbn [bind lift].
  set (q := build [B; H; S; D]
              (jnp.transpose_elem (mkTensor [B; S; H; D] (data q0)) [0; 2; 1; 3])).
  set (k := build [B; H; S; D]
              (jnp.transpose_elem (mkTensor [B; S; H; D] (data k0)) [0; 2; 1; 3])).
  set (v := build [B; H; S; D]
              (jnp.transpose_elem (mkTensor [B; S; H; D] (data v0)) [0; 2; 1; 3])).
  rewrite transpose_of_real.
  rewrite (transpose_ok k [B; H; S; D] [0; 1; 3; 2] eq_refl eq_refl).
  cbn [bind map nth lift].
  set (kT := build [B; H; D; S] (jnp.transpose_elem k [0; 1; 3; 2])).
  assert (Hq : forall b h i c, b < B -> h < H -> i < S -> c < D ->
                 get q [b; h; i; c] = AttentionSpec.head_slice Q D b h i c).
  { intros b h i c Hb Hh Hi Hc. unfold q.
    rewrite (get_split_heads q0 B S H D) by (reflexivity || assumption).
    unfold q0. rewrite get_build by bounds. reflexivity. }
  assert (Hk : forall b h i c, b < B -> h < H -> i < S -> c < D ->
                 get k [b; h; i; c] = AttentionSpec.head_slice K D b h i c).
  { intros b h i c Hb Hh Hi Hc. unfold k.
    rewrite (get_split_heads k0 B S H D) by (reflexivity || assumption).
    unfold k0. rewrite get_build by bounds. reflexivity. }
  assert (Hv : forall b h i c, b < B -> h < H -> i < S -> c < D ->
                 get v [b; h; i; c] = AttentionSpec.head_slice V D b h i c).
  { intros b h i c Hb Hh Hi Hc. unfold v.
    rewrite (get_split_heads v0 B S H D) by (reflexivity || assumption).
    unfold v0. rewrite get_build by bounds. reflexivity. }
  assert (HkT : forall b h c j, b < B -> h < H -> c < D -> j < S ->
                  get kT [b; h; c; j] = AttentionSpec.head_slice K D b h j c).
  { intros. unfold kT. rewrite get_build by bounds.
    rewrite (transpose_elem_0132 k B H S D) by reflexivity.
    apply Hk; assumption. }
  assert (HQs : forall b h i c, b < B -> h < H -> i < S -> c < D ->
                  (Rabs (AttentionSpec.head_slice Q D b h i c) <= M)%R).
  { intros. unfold AttentionSpec.head_slice. apply HQ; try assumption. nia. }
  assert (HKs : forall b h i c, b < B -> h < H -> i < S -> c < D ->
                  (Rabs (AttentionSpec.head_slice K D b h i c) <= M)%R).
  { intros. unfold AttentionSpec.head_slice. apply HK; try assumption. nia. }
  assert (HVs : forall b h i c, b < B -> h < H -> i < S -> c < D ->
                  (Rabs (AttentionSpec.head_slice V D b h i c) <= M)%R).
  { intros. unfold AttentionSpec.head_slice. apply HV; try assumption. nia. }
  rewrite (matmul_ok q kT [B; H] S D S eq_refl eq_refl).
  rewrite (matmul_of_real q kT [B; H] S D S eq_refl eq_refl).
  2:{ intros idx Hidx. apply in_bounds4_inv in Hidx.
      destruct Hidx as (b & h & i & j & -> & Hb & Hh & Hi & Hj).
      cbn [length firstn nth app].
      rewrite (Rsum_ext D _
                 (fun l => Rabs (AttentionSpec.head_slice Q D b h i l
                                 * AttentionSpec.head_slice K D b h j l)))
        by (intros l Hl; rewrite Hq, HkT by assumption; reflexivity).
      pose proof (products_magnitude D
                    (AttentionSpec.head_slice Q D b h i)
                    (AttentionSpec.head_slice K D b h j) M HM
                    (fun l Hl => HQs b h i l Hb Hh Hi Hl)
                    (fun l Hl => HKs b h j l Hb Hh Hj Hl)).
      lra. }
  cbn [bind app length].
  set (scores := build [B; H; S; S] (jnp.matmul_elem q kT 2 D)).
  assert (Hs : forall b h i j, b < B -> h < H -> i < S -> j < S ->
                 get scores [b; h; i; j]
                 = AttentionSpec.scores (AttentionSpec.head_slice Q D b h)
                     (AttentionSpec.head_slice K D b h) D i j).
  { intros. unfold scores. rewrite get_build by bounds.
    unfold jnp.matmul_elem, AttentionSpec.scores. cbn [firstn nth app].
    apply Rsum_ext. intros l Hl. rewrite Hq, HkT by assumption. reflexivity. }
  assert (Hsb : forall b h i j, b < B -> h < H -> i < S -> j < S ->
                  (Rabs (get scores [b; h; i; j]) <= F32.max_finite / 2)%R).
  { intros b h i j Hb Hh Hi Hj. rewrite Hs by assumption.
    unfold AttentionSpec.scores.
    pose proof (Rsum_triang D
                  (fun c => AttentionSpec.head_slice Q D b h i c
                            * AttentionSpec.head_slice K D b h j c)%R) as Ht.
    pose proof (products_magnitude D
                  (AttentionSpec.head_slice Q D b h i)
                  (AttentionSpec.head_slice K D b h j) M HM
                  (fun l Hl => HQs b h i l Hb Hh Hi Hl)
                  (fun l Hl => HKs b h j l Hb Hh Hj Hl)).
    cbv beta in Ht. lra. }
  destruct (sqrt_of_nat D ltac:(assumption) HDmax) as [Hsqrt Hsqrt1].
  rewrite Hsqrt.
  rewrite (divide_of_real scores (jnp.sqrt (Z.of_nat D)) Hsqrt1).
  2:{ intros u Hu. apply in_data_build in Hu.
      destruct Hu as (idx & Hidx & ->).
      apply in_bounds4_inv in Hidx.
      destruct Hidx as (b & h & i & j & -> & Hb & Hh & Hi & Hj).
      pose proof (Hsb b h i j Hb Hh Hi Hj) as Hbound.
      unfold scores in Hbound. rewrite get_build in Hbound by bounds.
      pose proof max_finite_pos. lra. }
  set (scaled := jnp.divide scores (jnp.sqrt (Z.of_nat D))).
  rewrite (softmax_ok scaled [B; H; S] S eq_refl).
  rewrite (softmax_of_real scaled [B; H; S] S eq_refl HSmax).
  2:{ intros idx Hidx. apply in_bounds4_inv in Hidx.
      destruct Hidx as (b & h & i & j & -> & Hb & Hh & Hi & Hj).
      unfold scaled. rewrite get_divide.
      pose proof (Hsb b h i j Hb Hh Hi Hj) as Hbound.
      unfold Rdiv. rewrite Rabs_mult.
      assert (Hinv : (0 < / jnp.sqrt (Z.of_nat D) <= 1)%R).
      { split; [apply Rinv_0_lt_compat; lra|].
        rewrite <- Rinv_1. apply Rinv_le_contravar; lra. }
      rewrite (Rabs_pos_eq (/ _)) by lra.
      pose proof (Rabs_pos (get scores [b; h; i; j])). nra. }
  cbn [bind app].
  set (w := build [B; H; S; S] _).
  assert (Hw : forall b h i j, b < B -> h < H -> i < S -> j < S ->
                 get w [b; h; i; j]
                 = AttentionSpec.head_weights Q K S D scale b h i j).
  { intros b h i j Hb Hh Hi Hj. unfold w.
    rewrite get_build by bounds.
    unfold AttentionSpec.head_weights, AttentionSpec.weights.
    apply (softmax_elem_row _ S [b; h; i; j]
             (fun j' => AttentionSpec.scaled (AttentionSpec.head_slice Q D b h)
                          (AttentionSpec.head_slice K D b h) D scale i j') j).
    - intros j' Hj'. cbn [removelast app]. unfold scaled.
      rewrite get_divide, Hs by assumption.
      unfold AttentionSpec.scaled, scale, jnp.sqrt. rewrite HD. reflexivity.
    - unfold scaled. rewrite get_divide, Hs by assumption.
      unfold AttentionSpec.scaled, scale, jnp.sqrt. rewrite HD. reflexivity.
    - lia. }
  assert (Hav : forall b h i c, b < B -> h < H -> i < S -> c < D ->
            (Rsum S (fun j => Rabs (AttentionSpec.head_weights Q K S D scale b h i j
                                    * AttentionSpec.head_slice V D b h j c))
             <= M)%R).
  { intros b h i c Hb Hh Hi Hc.
    assert (HS : 0 < S) by lia.
    apply (average_magnitude S
             (fun j => AttentionSpec.head_weights Q K S D scale b h i j)
             (fun j => AttentionSpec.head_slice V D b h j c) M HM).
    - intros j Hj. apply weights_range. exact Hj.
    - apply weights_row_sum. exact HS.
    - intros j Hj. apply HVs; assumption. }
  rewrite (matmul_ok w v [B; H] S S D eq_refl eq_refl).
  rewrite (matmul_of_real w v [B; H] S S D eq_refl eq_refl).
  2:{ intros idx Hidx. apply in_bounds4_inv in Hidx.
      destruct Hidx as (b & h & i & c & -> & Hb & Hh & Hi & Hc).
      cbn [length firstn nth app].
      rewrite (Rsum_ext S _
                 (fun j => Rabs (AttentionSpec.head_weights Q K S D scale b h i j
                                 * AttentionSpec.head_slice V D b h j c)))
        by (intros j Hj; rewrite Hw, Hv by assumption; reflexivity).
      specialize (Hav b h i c Hb Hh Hi Hc). lra. }
  cbn [bind app length].
  set (ao := build [B; H; S; D] (jnp.matmul_elem w v 2 S)).
  assert (Hao : forall b h i c, b < B -> h < H -> i < S -> c < D ->
                  get ao [b; h; i; c]
                  = AttentionSpec.head_output Q K V S D scale b h i c).
  { intros b h i c Hb Hh Hi Hc. unfold ao.
    rewrite get_build by bounds.
    unfold jnp.matmul_elem, AttentionSpec.head_output, AttentionSpec.output.
    cbn [firstn nth app].
    apply Rsum_ext. intros j Hj. rewrite Hw, Hv by assumption. reflexivity. }
  rewrite transpose_of_real.
  rewrite (transpose_ok ao [B; H; S; D] [0; 2; 1; 3] eq_refl eq_refl).
  cbn [bind map nth lift].
  set (aoT := build [B; S; H; D] (jnp.transpose_elem ao [0; 2; 1; 3])).
  rewrite reshape_of_real.
  rewrite (reshape_merge aoT B S H D eq_refl) by assumption.
  cbn [bind lift].
  set (flat := mkTensor [B; S; H * D] (data aoT)).
  assert (Hflat : forall b i f, b < B -> i < S -> f < H * D ->
                    get flat [b; i; f]
                    = AttentionSpec.concat Q K V S D scale b i f).
  { intros b i f Hb Hi Hf. unfold flat.
    rewrite (get_reshape_merge aoT B S H D) by reflexivity.
    assert (f / D < H) by (apply Nat.Div0.div_lt_upper_bound; lia).
    assert (f mod D < D) by (apply Nat.mod_upper_bound; lia).
    unfold aoT. rewrite get_build by bounds.
    rewrite (transpose_elem_0213 ao B H S D) by reflexivity.
    apply Hao; assumption. }
  assert (Hcb : forall b i f, b < B -> i < S -> f < H * D ->
                  (Rabs (get flat [b; i; f]) <= M)%R).
  { intros b i f Hb Hi Hf. rewrite Hflat by assumption.
    assert (f / D < H) by (apply Nat.Div0.div_lt_upper_bound; lia).
    assert (f mod D < D) by (apply Nat.mod_upper_bound; lia).
    unfold AttentionSpec.concat, AttentionSpec.concat_heads,
      AttentionSpec.head_output, AttentionSpec.output.
    pose proof (Rsum_triang S
                  (fun j => AttentionSpec.weights
                              (AttentionSpec.head_slice Q D b (f / D))
                              (AttentionSpec.head_slice K D b (f / D))
                              S D scale i j
                            * AttentionSpec.head_slice V D b (f / D) j (f mod D))%R)
      as Ht.
    cbv beta in Ht.
    pose proof (Hav b (f / D) i (f mod D) Hb ltac:(assumption) Hi
                  ltac:(assumption)) as Ha.
    unfold AttentionSpec.head_weights in Ha. lra. }
  assert (HE0 : 0 < E) by assumption.
  rewrite (Dense_ok E (H * D) [B; S] _ flat eq_refl Hok Hob HHD HE0).
  rewrite (Dense_of_real_ok E (H * D) [B; S] _ flat eq_refl Hok Hob HHD HE0).
  - cbn [bind app]. eexists. eexists. split; reflexivity.
  - intros idx Hidx. apply in_bounds3_inv in Hidx.
    destruct Hidx as (b & i & e & -> & Hb & Hi & He).
    cbn [removelast last app].
    pose proof (scaled_magnitude (H * D)
                  (fun f => get flat [b; i; f])
                  (fun f => get (nn.kernel (MultiHeadAttention.p_out variables))
                                [f; e]) M
                  (fun f Hf => Hcb b i f Hb Hi Hf)) as Hsm.
    cbv beta in Hsm. specialize (HMo e He). lra.
Qed.

End MultiHeadAttentionInRange.

(** ** Beyond the range *)

Lemma F32_get_build (sh : list nat) (f : list nat -> F32.value)
  (idx : list nat) :
  in_bounds sh idx -> F32.get (F32.build sh f) idx = f idx.
Proof.
  intros H. unfold F32.get, F32.build. cbn [F32.shape F32.data].
  rewrite (nth_indep _ (F32.Fin 0) (f idx)).
  - rewrite (map_nth f). rewrite nth_indices by exact H. reflexivity.
  - rewrite length_map, length_indices. apply ravel_lt. exact H.
Qed.

Lemma F32_divide_build (sh : list nat) (f : list nat -> F32.value)
  (c : F32.value) :
  F32.divide (F32.build sh f) c = F32.build sh (fun idx => F32.div (f idx) c).
Proof.
  unfold F32.divide, F32.build. cbn [F32.shape F32.data].
  rewrite map_map. reflexivity.
Qed.

(** On the input [1e20] the score [1e40] overflows to infinity, and the
    softmax of a row that holds an infinity is NaN. *)
Lemma Overflow_call :
  exists output attn_weights,
    F32.SelfAttention_call Overflow.model
      (SelfAttention_of_real Overflow.params) (of_real Overflow.x)
    = Ok (output, attn_weights) /\
    F32.get attn_weights [0; 0; 0] = F32.NaN.
Proof.
  assert (Hinit : SelfAttention.initialised Overflow.model Overflow.params 1 1)
    by (repeat split).
  destruct Hinit as (Hhd & [Hqk Hqb] & [Hkk Hkb] & [Hvk Hvb]).
  assert (Hx : shape Overflow.x = [1; 1; 1]) by reflexivity.
  set (c := IZR 100000000000000000000).
  assert (Hget : forall l, l < 1 -> get Overflow.x [0; 0; l] = c).
  { intros [|l] Hl; [reflexivity|lia]. }
  assert (Hdense : forall idx, in_bounds ([1; 1] ++ [1]) idx ->
            (Rsum 1 (fun l => Rabs (get Overflow.x (removelast idx ++ [l])
                                    * get (nn.kernel (Notebook.dense 1 1))
                                          [l; last idx 0%nat]))
             + Rabs (get (nn.bias (Notebook.dense 1 1)) [last idx 0%nat])
             <= F32.max_finite)%R).
  { intros idx Hidx. apply in_bounds3_inv in Hidx.
    destruct Hidx as (b & i & j & -> & Hb & Hi & Hj).
    assert (b = 0) by lia. assert (i = 0) by lia. assert (j = 0) by lia.
    subst. cbn [removelast last app Rsum].
    unfold get; simpl. fold c.
    rewrite Rmult_1_r, Rabs_R0, (Rabs_pos_eq c) by (unfold c; lra).
    unfold c, F32.max_finite. lra. }
  unfold F32.SelfAttention_call, SelfAttention.setup.
  cbn [bind SelfAttention.query SelfAttention.key SelfAttention.value].
  cbn [SelfAttention_of_real F32.sa_query F32.sa_key F32.sa_value
       Overflow.params SelfAttention.p_query SelfAttention.p_key
       SelfAttention.p_value Overflow.model SelfAttention.head_dim].
  change 1%Z with (Z.of_nat 1).
  rewrite !(Dense_of_real_ok 1 1 [1; 1] (Notebook.dense 1 1) Overflow.x
              eq_refl eq_refl eq_refl Nat.lt_0_1 Nat.lt_0_1 Hdense).
  cbn [bind app].
  set (q := build [1; 1; 1] (nn.Dense_elem (Notebook.dense 1 1) Overflow.x 1)).
  assert (Hq : get q [0; 0; 0] = c).
  { unfold q. rewrite get_build by (repeat constructor).
    unfold nn.Dense_elem, get; simpl. fold c. lra. }
  rewrite transpose_of_real.
  rewrite (transpose_ok q [1; 1; 1] [0; 2; 1] eq_refl eq_refl).
  cbn [bind map nth lift].
  set (kT := build [1; 1; 1] (jnp.transpose_elem q [0; 2; 1])).
  assert (HkT : get kT [0; 0; 0] = c).
  { unfold kT. rewrite get_build by (repeat constructor).
    rewrite (transpose_elem_021 q 1 1 1) by reflexivity. exact Hq. }
  unfold F32.matmul at 1. cbn [of_real F32.shape shape q kT build rev app].
  cbn [Nat.eqb list_eqb andb length].
  fold q. fold kT.
  cbn [bind].
  set (scores := F32.matmul_elem (of_real q) (of_real kT) 1 1).
  assert (Hs : scores [0; 0; 0] = F32.PInf).
  { unfold scores, F32.matmul_elem. cbn [firstn nth app F32.sum].
    rewrite !get_of_real, Hq, HkT. cbn [F32.mul].
    rewrite of_exact_overflow by (unfold c, F32.max_finite; lra).
    reflexivity. }
  destruct (sqrt_of_nat 1 Nat.lt_0_1) as [Hsqrt Hsqrt1].
  { simpl. pose proof max_finite_pos. lra. }
  rewrite Hsqrt, F32_divide_build.
  set (scaled := F32.build [1; 1; 1] _).
  assert (Hsc : F32.get scaled [0; 0; 0] = F32.PInf).
  { unfold scaled. rewrite F32_get_build by (repeat constructor).
    rewrite Hs. cbn [F32.div].
    destruct (Rlt_dec (jnp.sqrt (Z.of_nat 1)) 0); [lra|reflexivity]. }
  unfold F32.softmax. cbn [scaled F32.build F32.shape rev app bind].
  fold scaled.
  set (w := F32.build [1; 1; 1] (F32.softmax_elem scaled 1)).
  assert (Hw : F32.get w [0; 0; 0] = F32.NaN).
  { unfold w. rewrite F32_get_build by (repeat constructor).
    unfold F32.softmax_elem, F32.row.
    cbn [removelast app seq map]. rewrite Hsc. reflexivity. }
  unfold F32.matmul.
  cbn [w F32.build F32.shape of_real shape build rev app].
  cbn [Nat.eqb list_eqb andb length bind].
  eexists. eexists. split; [reflexivity|]. exact Hw.
Qed.

(** ** Float32 and exact results together *)

(** Within the range the float32 call returns, as finite arrays, what the
    exact call returns. *)
Lemma SelfAttention_call_in_range (self : SelfAttention.t)
  (variables : SelfAttention.params) (x : tensor) (B S d hd : nat) :
  shape x = [B; S; d] ->
  SelfAttention.initialised self variables d hd ->
  0 < d -> 0 < hd ->
  SelfAttention_in_range variables x B S d hd ->
  exists output attn_weights,
    F32.SelfAttention_call self (SelfAttention_of_real variables) (of_real x)
    = Ok (of_real output, of_real attn_weights) /\
    single_head_result self variables x B S d hd output attn_weights.
Proof.
  intros Hx Hinit Hd Hhd Hrange.
  destruct (SelfAttention_call_of_real self variables x B S d hd
              Hx Hinit Hd Hhd Hrange) as (output & w & Hcall & Hf).
  destruct (SelfAttention_call_spec self variables x B S d hd Hx Hinit Hd Hhd)
    as (output' & w' & Hcall' & _ & _ & Hres).
  rewrite Hcall in Hcall'. injection Hcall' as <- <-.
  exists output, w. split; assumption.
Qed.

Lemma MultiHeadAttention_call_in_range (self : MultiHeadAttention.t)
  (variables : MultiHeadAttention.params) (x : tensor) (B S d H D E : nat) :
  shape x = [B; S; d] ->
  MultiHeadAttention.initialised self variables d H D E ->
  all_positive [B; S; d; H; D; E] = true ->
  MultiHeadAttention_in_range variables x B S d H D E ->
  exists output attn_weights,
    F32.MultiHeadAttention_call self (MultiHeadAttention_of_real variables)
                                (of_real x)
    = Ok (of_real output, of_real attn_weights) /\
    multi_head_result self variables x B S d H D E output attn_weights.
Proof.
  intros Hx Hinit Hpos Hrange.
  destruct (MultiHeadAttention_call_of_real self variables x B S d H D E
              Hx Hinit Hpos Hrange) as (output & w & Hcall & Hf).
  positive_dims Hpos.
  destruct (MultiHeadAttention_call_spec self variables x B S d H D E
              Hx Hinit)
    as (output' & w' & Hcall' & _ & _ & Hres); try assumption.
  rewrite Hcall in Hcall'. injection Hcall' as <- <-.
  exists output, w. split; assumption.
Qed.

(** ** Examples within the range *)

(** A layer of ones applied to an input of ones. *)
Lemma dense_ones_bounded (B S d F : nat) :
  projection_bounded (INR d) (Notebook.dense d F) (ones [B; S; d]) B S d F.
Proof.
  intros b i c Hb Hi Hc. unfold linear_magnitude, Notebook.dense.
  cbn [nn.kernel nn.bias].
  rewrite (Rsum_ext d _ (fun _ => 1%R)).
  - rewrite Rsum_const. unfold zeros.
    rewrite get_build by (repeat constructor; assumption).
    rewrite Rabs_R0. lra.
  - intros l Hl. unfold ones.
    rewrite !get_build by (repeat constructor; assumption).
    rewrite Rmult_1_r. apply Rabs_R1.
Qed.

Lemma notebook_sa_in_range :
  SelfAttention_in_range Notebook.sa_params Notebook.x 1 5 64 32.
Proof.
  exists (INR 64). unfold F32.max_finite. simpl.
  repeat split; try apply (dense_ones_bounded 1 5 64 32); lra.
Qed.

Lemma notebook_mha_in_range :
  MultiHeadAttention_in_range Notebook.mha_params Notebook.x 1 5 64 4 16 64.
Proof.
  exists (INR 64). split; [simpl; lra|].
  split; [apply (dense_ones_bounded 1 5 64 64)|].
  split; [apply (dense_ones_bounded 1 5 64 64)|].
  split; [apply (dense_ones_bounded 1 5 64 64)|].
  split; [unfold F32.max_finite; simpl; lra|].
  split; [unfold F32.max_finite; simpl; lra|].
  split; [unfold F32.max_finite; simpl; lra|].
  intros e He. cbn [Notebook.mha_params MultiHeadAttention.p_out
                    Notebook.dense nn.kernel nn.bias].
  rewrite (Rsum_ext (4 * 16) _ (fun _ => 1%R)).
  - rewrite Rsum_const. unfold zeros.
    rewrite get_build by (unfold in_bounds; repeat (first [assumption | apply Forall2_nil | apply Forall2_cons])).
    rewrite Rabs_R0. unfold F32.max_finite. simpl. lra.
  - intros f Hf. unfold ones.
    rewrite get_build by (unfold in_bounds; repeat (first [assumption | apply Forall2_nil | apply Forall2_cons])).
    apply Rabs_R1.
Qed.

(** The two sequences [[0, 1], [2, 3]] and [[4, 5], [6, 7]] under layers
    of ones. *)
Lemma pair_dense_bounded :
  projection_bounded 16 (Notebook.dense 2 2) Pair.x 2 2 2 2.
Proof.
  intros b i c Hb Hi Hc. unfold linear_magnitude.
  destruct b as [|[|b]]; destruct i as [|[|i]]; destruct c as [|[|c]];
    try lia; unfold get; simpl;
    rewrite ?Rmult_1_r, ?Rabs_R0;
    repeat match goal with
           | |- context [Rabs ?t] => rewrite (Rabs_pos_eq t) by lra
           end; lra.
Qed.

Lemma pair_sa_in_range :
  SelfAttention_in_range Pair.sa_params Pair.x 2 2 2 2.
Proof.
  exists 16%R. unfold F32.max_finite. simpl.
  repeat split; try apply pair_dense_bounded; lra.
Qed.

(** * The claims *)

(** ** C1 *)




(** ** C2 *)

(** The multi-head call up to its last layer, for a module whose
    dimensions other than [embed_dim] are non-zero. *)
Lemma MultiHeadAttention_call_out_layer (self : MultiHeadAttention.t)
  (variables : MultiHeadAttention.params) (x : tensor) (B S d H D E : nat) :
  shape x = [B; S; d] ->
  MultiHeadAttention.initialised self variables d H D E ->
  all_positive [B; S; d; H; D] = true ->
  exists merged attn_weights,
    MultiHeadAttention.call self variables x
    = (output <- nn.Dense (Z.of_nat E) (MultiHeadAttention.p_out variables)
                   merged ;;
       Ok (output, attn_weights)) /\
    shape merged = [B; S; H * D].
Proof.
  intros Hx Hinit Hpos. positive_dims Hpos.
  destruct (MultiHeadAttention_call_heads self variables x B S d H D E
              Hx Hinit)
    as (aoT & w & Hcall & HsT & _); try assumption.
  exists (mkTensor [B; S; H * D] (data aoT)), w.
  rewrite Hcall, (reshape_merge aoT B S H D HsT) by assumption.
  split; reflexivity.
Qed.




(** ** C3 *)




(** ** C4 *)



(** ** C6 *)

(** C6, as stated, fails: modules with a zero or negative [head_dim],
    [embed_dim] or [num_heads] are constructed, and their [setup] declares
    the sub-layers, without any exception. *)
Lemma nonpositive_dimensions_are_constructed :
  SelfAttention.new 64 0 = Ok (SelfAttention.mk 64 0) /\
  SelfAttention.setup (SelfAttention.mk 64 0)
  = Ok (SelfAttention.mkLayers 0 0 0) /\
  SelfAttention.new (-64) (-32) = Ok (SelfAttention.mk (-64) (-32)) /\
  MultiHeadAttention.new 0 0 0 = Ok (MultiHeadAttention.mk 0 0 0) /\
  MultiHeadAttention.new 64 (-4) 16 = Ok (MultiHeadAttention.mk 64 (-4) 16) /\
  MultiHeadAttention.setup (MultiHeadAttention.mk 64 (-4) 16)
  = Ok (MultiHeadAttention.mkLayers (-64) (-64) (-64) 64).
Proof. repeat split. Qed.

(** Splitting into a negative number of heads of negative dimension. *)
Lemma split_heads_negative (self : MultiHeadAttention.t) (B S : nat)
  (a : tensor) :
  (MultiHeadAttention.num_heads self < 0)%Z ->
  (MultiHeadAttention.head_dim self < 0)%Z ->
  exists e, MultiHeadAttention.split_heads self B S a = Raise e.
Proof.
  intros HH HD. unfold MultiHeadAttention.split_heads, jnp.reshape.
  set (H := MultiHeadAttention.num_heads self) in *.
  set (D := MultiHeadAttention.head_dim self) in *.
  cbn [filter]. rewrite !neg1_neqb_nat.
  destruct (Z.eqb_spec (-1) H) as [EH|EH];
    destruct (Z.eqb_spec (-1) D) as [ED|ED]; cbn [length].
  - eexists. reflexivity.
  - cbn [filter]. rewrite !nat_neqb_neg1. cbn [negb].
    replace (H =? -1)%Z with true by (symmetry; apply Z.eqb_eq; lia).
    replace (D =? -1)%Z with false by (symmetry; apply Z.eqb_neq; lia).
    cbn [negb].
    match goal with |- context [if ?c then Raise ZeroDivisionError else _] =>
      destruct c end; [eexists; reflexivity|].
    replace (forallb _ _) with false; [eexists; reflexivity|].
    symmetry. cbn [forallb].
    replace (-1 <=? D)%Z with false by (symmetry; apply Z.leb_gt; lia).
    rewrite !andb_false_r. reflexivity.
  - cbn [filter]. rewrite !nat_neqb_neg1. cbn [negb].
    replace (H =? -1)%Z with false by (symmetry; apply Z.eqb_neq; lia).
    replace (D =? -1)%Z with true by (symmetry; apply Z.eqb_eq; lia).
    cbn [negb].
    match goal with |- context [if ?c then Raise ZeroDivisionError else _] =>
      destruct c end; [eexists; reflexivity|].
    replace (forallb _ _) with false; [eexists; reflexivity|].
    symmetry. cbn [forallb].
    replace (-1 <=? H)%Z with false by (symmetry; apply Z.leb_gt; lia).
    rewrite !andb_false_r. reflexivity.
  - replace (forallb _ _) with false; [eexists; reflexivity|].
    symmetry. cbn [forallb].
    replace (0 <=? H)%Z with false by (symmetry; apply Z.leb_gt; lia).
    rewrite !andb_false_r. reflexivity.
Qed.

(** C6, amended.  Construction validates nothing: every integer
    configuration is accepted by the constructor and by [setup].  A
    non-positive dimension is rejected by the forward call instead: every
    single-head call raises when [head_dim <= 0] (its [embed_dim] is never
    checked), every multi-head call when [num_heads <= 0], [head_dim <= 0]
    or [embed_dim <= 0]. *)
Theorem construction_validates_nothing :
  (forall embed_dim head_dim : Z,
      SelfAttention.new embed_dim head_dim
      = Ok (SelfAttention.mk embed_dim head_dim) /\
      SelfAttention.setup (SelfAttention.mk embed_dim head_dim)
      = Ok (SelfAttention.mkLayers head_dim head_dim head_dim)) /\
  (forall embed_dim num_heads head_dim : Z,
      MultiHeadAttention.new embed_dim num_heads head_dim
      = Ok (MultiHeadAttention.mk embed_dim num_heads head_dim) /\
      MultiHeadAttention.setup
        (MultiHeadAttention.mk embed_dim num_heads head_dim)
      = Ok (MultiHeadAttention.mkLayers
              (num_heads * head_dim) (num_heads * head_dim)
              (num_heads * head_dim) embed_dim)) /\
  (forall (self : SelfAttention.t) (variables : SelfAttention.params)
          (x : tensor),
      (SelfAttention.head_dim self <= 0)%Z ->
      exists e, SelfAttention.call self variables x = Raise e) /\
  (forall (self : MultiHeadAttention.t) (variables : MultiHeadAttention.params)
          (x : tensor),
      (MultiHeadAttention.num_heads self <= 0
       \/ MultiHeadAttention.head_dim self <= 0
       \/ MultiHeadAttention.embed_dim self <= 0)%Z ->
      exists e, MultiHeadAttention.call self variables x = Raise e).
Proof.
  split; [intros; split; reflexivity|].
  split; [intros; split; reflexivity|].
  split.
  - intros self variables x Hneg.
    unfold SelfAttention.call, SelfAttention.setup.
    cbn [bind SelfAttention.query].
    destruct (Dense_nonpositive _ (SelfAttention.p_query variables) x Hneg)
      as [e He].
    rewrite He. exists e. reflexivity.
  - intros self variables x Hneg.
    unfold MultiHeadAttention.call, MultiHeadAttention.setup.
    cbn [bind MultiHeadAttention.query MultiHeadAttention.key
         MultiHeadAttention.value MultiHeadAttention.out].
    destruct (shape x) as [|B [|S [|d [|? ?]]]];
      try (exists ValueError; reflexivity).
    destruct (Z_le_gt_dec (MultiHeadAttention.num_heads self
                           * MultiHeadAttention.head_dim self) 0)
      as [Hf|Hf].
    { destruct (Dense_nonpositive _ (MultiHeadAttention.p_query variables)
                  x Hf) as [e He].
      rewrite He. exists e. reflexivity. }
    destruct (nn.Dense _ (MultiHeadAttention.p_query variables) x) as [q0|e];
      cbn [bind]; [|eexists; reflexivity].
    destruct (Z_le_gt_dec (MultiHeadAttention.embed_dim self) 0) as [HE|HE].
    + cbv zeta.
      repeat match goal with
             | |- exists e, bind (nn.Dense (MultiHeadAttention.embed_dim _) _ _) _
                            = Raise e => fail 1
             | |- exists e, bind ?c _ = Raise e =>
                 let r := fresh "r" in
                 destruct c as [r|?]; cbn [bind];
                 [|eexists; reflexivity]
             end.
      match goal with
      | |- exists e, bind (nn.Dense ?f ?p ?a) _ = Raise e =>
          destruct (Dense_nonpositive f p a HE) as [e He]; rewrite He;
          exists e; reflexivity
      end.
    + assert (Hboth : (MultiHeadAttention.num_heads self < 0
                       /\ MultiHeadAttention.head_dim self < 0)%Z).
      { set (h := MultiHeadAttention.num_heads self) in *.
        set (c := MultiHeadAttention.head_dim self) in *.
        destruct (Z_lt_le_dec h 0) as [Hh|Hh];
          destruct (Z_lt_le_dec c 0) as [Hc|Hc]; [split; assumption|..];
          exfalso.
        - pose proof (Z.mul_nonpos_nonneg h c). lia.
        - pose proof (Z.mul_nonneg_nonpos h c). lia.
        - destruct Hneg as [Hn|[Hn|Hn]]; [| |lia].
          + assert (h = 0)%Z by lia. subst h. lia.
          + assert (c = 0)%Z by lia. subst c. lia. }
      destruct Hboth as [HH HD].
      destruct (split_heads_negative self B S q0 HH HD) as [e He].
      rewrite He. exists e. reflexivity.
Qed.

Lemma construction_validates_nothing_witness :
  (SelfAttention.head_dim (SelfAttention.mk 64 0) <= 0)%Z /\
  (exists e, SelfAttention.call (SelfAttention.mk 64 0)
               Notebook.sa_params Notebook.x = Raise e) /\
  (exists e, MultiHeadAttention.call (MultiHeadAttention.mk 64 (-4) 16)
               Notebook.mha_params Notebook.x = Raise e).
Proof.
  split; [discriminate|]. split.
  - apply (proj1 (proj2 (proj2 construction_validates_nothing))
             (SelfAttention.mk 64 0) Notebook.sa_params Notebook.x).
    discriminate.
  - apply (proj2 (proj2 (proj2 construction_validates_nothing))
             (MultiHeadAttention.mk 64 (-4) 16) Notebook.mha_params Notebook.x).
    left. discriminate.
Defined.

(** ** C7 *)

(** C7, as stated, fails: modules configured with [embed_dim = 64] accept
    an input of trailing dimension 2 when their variables were initialised
    on such inputs. *)
Lemma embed_dim_mismatch_is_accepted :
  Z.of_nat (last (shape Small.x2) 0) <> SelfAttention.embed_dim Small.sa_model64 /\
  (exists r, SelfAttention.call Small.sa_model64 Small.sa_params2 Small.x2
             = Ok r) /\
  Z.of_nat (last (shape Small.x2) 0)
  <> MultiHeadAttention.embed_dim Small.mha_model64 /\
  (exists r, MultiHeadAttention.call Small.mha_model64 Small.mha_params2 Small.x2
             = Ok r).
Proof.
  split; [discriminate|]. split; [|split; [discriminate|]].
  - destruct (SelfAttention_call_spec Small.sa_model64 Small.sa_params2 Small.x2
                1 1 2 1 eq_refl initialised_sa_small2)
      as (output & w & Hcall & _); [lia|lia|].
    exists (output, w). exact Hcall.
  - destruct (MultiHeadAttention_call_spec Small.mha_model64 Small.mha_params2
                Small.x2 1 1 2 1 1 64 eq_refl initialised_mha_small2)
      as (output & w & Hcall & _); try lia.
    exists (output, w). exact Hcall.
Qed.

(** C7, amended.  An input whose trailing dimension differs from the input
    dimension [din] the variables were initialised with is rejected by the
    first projection, by the single-head module and, for inputs of rank
    three, by the multi-head module: the call raises, and when the
    dimensions at hand are non-zero the exception is a parameter-shape
    error.  The configured [embed_dim] is not compared with the input. *)
Theorem forward_rejects_trailing_dimension_mismatch :
  (forall (self : SelfAttention.t) (variables : SelfAttention.params)
          (x : tensor) (lead : list nat) (d din hd : nat),
      shape x = lead ++ [d] ->
      SelfAttention.initialised self variables din hd ->
      d <> din ->
      (exists e, SelfAttention.call self variables x = Raise e) /\
      (0 < d -> 0 < hd ->
       SelfAttention.call self variables x = Raise ScopeParamShapeError)) /\
  (forall (self : MultiHeadAttention.t) (variables : MultiHeadAttention.params)
          (x : tensor) (B S d din H D E : nat),
      shape x = [B; S; d] ->
      MultiHeadAttention.initialised self variables din H D E ->
      d <> din ->
      (exists e, MultiHeadAttention.call self variables x = Raise e) /\
      (0 < d -> 0 < H -> 0 < D ->
       MultiHeadAttention.call self variables x = Raise ScopeParamShapeError)).
Proof.
  split.
  - intros self variables x lead d din hd Hx (Hhd & [Hqk _] & _) Hne.
    unfold SelfAttention.call, SelfAttention.setup.
    cbn [bind SelfAttention.query]. split.
    + destruct (Dense_mismatch_raises (SelfAttention.head_dim self) _ x
                  lead d din hd Hx Hqk Hne) as [e He].
      rewrite He. exists e. reflexivity.
    + intros Hd Hhd0.
      rewrite (Dense_mismatch _ _ x lead d din hd Hx Hqk Hne Hd);
        [reflexivity|lia].
  - intros self variables x B S d din H D E Hx
           (HH & HD & _ & [Hqk _] & _) Hne.
    unfold MultiHeadAttention.call, MultiHeadAttention.setup.
    cbn [bind MultiHeadAttention.query]. rewrite Hx. split.
    + destruct (Dense_mismatch_raises
                  (MultiHeadAttention.num_heads self
                   * MultiHeadAttention.head_dim self) _ x
                  [B; S] d din (H * D) Hx Hqk Hne) as [e He].
      rewrite He. exists e. reflexivity.
    + intros Hd HH0 HD0.
      rewrite (Dense_mismatch _ _ x [B; S] d din (H * D) Hx Hqk Hne Hd);
        [reflexivity|nia].
Qed.

Lemma forward_rejects_trailing_dimension_mismatch_witness :
  SelfAttention.call Notebook.sa_model Notebook.sa_params Small.x2
  = Raise ScopeParamShapeError /\
  MultiHeadAttention.call Notebook.mha_model Notebook.mha_params Small.x2
  = Raise ScopeParamShapeError.
Proof.
  split.
  - apply (proj1 forward_rejects_trailing_dimension_mismatch
             Notebook.sa_model Notebook.sa_params Small.x2 [1; 1] 2 64 32).
    + reflexivity.
    + repeat split.
    + lia.
    + lia.
    + lia.
  - apply (proj2 forward_rejects_trailing_dimension_mismatch
             Notebook.mha_model Notebook.mha_params Small.x2 1 1 2 64 4 16 64).
    + reflexivity.
    + repeat split.
    + lia.
    + lia.
    + lia.
    + lia.
Defined.

(** ** C8 *)




(** ** C9 *)

(** Single-head forward on an empty sequence returns empty results. *)
Lemma SelfAttention_call_empty_sequence :
  exists output attn_weights,
    SelfAttention.call Notebook.sa_model Notebook.sa_params Notebook.x_empty
    = Ok (output, attn_weights) /\
    shape output = [1; 0; 32] /\
    shape attn_weights = [1; 0; 0].
Proof.
  destruct (SelfAttention_call_spec Notebook.sa_model Notebook.sa_params
              Notebook.x_empty 1 0 64 32 eq_refl initialised_sa_notebook)
    as (output & w & Hcall & Hso & Hsw & _); [lia|lia|].
  exists output, w. auto.
Qed.

(** C9.  On an input with an empty sequence, shape [(1, 0, 64)], the
    multi-head forward call of the notebook's module raises: merging the
    heads by [reshape(batch_size, seq_len, -1)] cannot infer the last
    dimension of an empty array. *)
Theorem MultiHeadAttention_call_empty_sequence_raises :
  shape Notebook.x_empty = [1; 0; 64] /\
  MultiHeadAttention.call Notebook.mha_model Notebook.mha_params
                          Notebook.x_empty
  = Raise ZeroDivisionError.
Proof.
  split; [reflexivity|].
  apply (MultiHeadAttention_call_empty Notebook.mha_model Notebook.mha_params
           Notebook.x_empty 1 0 64 4 16 64 eq_refl initialised_mha_notebook).
  right. reflexivity.
Qed.

(** ** C10 *)

(** C10.  The single-head forward result does not depend on the configured
    [embed_dim]: two modules that differ only in [embed_dim] return the
    same result on every parameter set and input; and the call accepts any
    input whose trailing dimension is the one the variables were
    initialised with, whatever [embed_dim] is.  (Variables can only have
    been initialised for non-zero dimensions.) *)
Theorem SelfAttention_call_ignores_embed_dim :
  (forall (embed_dim1 embed_dim2 head_dim : Z)
          (variables : SelfAttention.params) (x : tensor),
      SelfAttention.call (SelfAttention.mk embed_dim1 head_dim) variables x
      = SelfAttention.call (SelfAttention.mk embed_dim2 head_dim) variables x) /\
  (forall (embed_dim : Z) (self : SelfAttention.t)
          (variables : SelfAttention.params) (x : tensor) (B S d hd : nat),
      shape x = [B; S; d] ->
      SelfAttention.initialised self variables d hd ->
      all_positive [d; hd] = true ->
      exists output attn_weights,
        SelfAttention.call
          (SelfAttention.mk embed_dim (SelfAttention.head_dim self)) variables x
        = Ok (output, attn_weights)).
Proof.
  split; [reflexivity|].
  intros embed_dim self variables x B S d hd Hx (Hhd & Hrest) Hpos.
  positive_dims Hpos.
  destruct (SelfAttention_call_spec
              (SelfAttention.mk embed_dim (SelfAttention.head_dim self))
              variables x B S d hd Hx (conj Hhd Hrest))
    as (output & w & Hcall & _); try assumption.
  exists output, w. exact Hcall.
Qed.

Lemma SelfAttention_call_ignores_embed_dim_witness :
  exists output attn_weights,
    SelfAttention.call (SelfAttention.mk 7 (SelfAttention.head_dim Notebook.sa_model))
                       Notebook.sa_params Notebook.x
    = Ok (output, attn_weights).
Proof.
  apply (proj2 SelfAttention_call_ignores_embed_dim 7%Z Notebook.sa_model
           Notebook.sa_params Notebook.x 1 5 64 32).
  - reflexivity.
  - repeat split.
  - reflexivity.
Defined.

(** * Further properties of the two modules *)

(** ** More facts about sums *)

Lemma Rsum_plus (n : nat) (f g : nat -> R) :
  (Rsum n (fun j => f j + g j) = Rsum n f + Rsum n g)%R.
Proof. induction n as [|n IH]; simpl; [lra|]. rewrite IH. lra. Qed.

Lemma Rsum_le (n : nat) (f g : nat -> R) :
  (forall j, j < n -> (f j <= g j)%R) -> (Rsum n f <= Rsum n g)%R.
Proof.
  induction n as [|n IH]; intros H; simpl; [lra|].
  assert (Rsum n f <= Rsum n g)%R by (apply IH; intros; apply H; lia).
  assert (f n <= g n)%R by (apply H; lia). lra.
Qed.

Lemma Rsum_add (n m : nat) (f : nat -> R) :
  Rsum (n + m) f = (Rsum n f + Rsum m (fun k => f (n + k)%nat))%R.
Proof.
  induction m as [|m IH].
  - rewrite Nat.add_0_r. simpl. lra.
  - rewrite Nat.add_succ_r. simpl. rewrite IH. lra.
Qed.

Lemma Rlist_sum_Permutation (l l' : list R) :
  Permutation l l' -> Rlist_sum l = Rlist_sum l'.
Proof.
  induction 1 as [|a l l' _ IH|a b l|l l' l'' _ IH1 _ IH2]; simpl.
  - reflexivity.
  - rewrite IH. reflexivity.
  - lra.
  - congruence.
Qed.

(** A sum does not depend on the order of its terms. *)
Lemma Rsum_reindex (n : nat) (sigma : nat -> nat) (f : nat -> R) :
  permutes n sigma -> Rsum n (fun j => f (sigma j)) = Rsum n f.
Proof.
  intros [Hb Hi].
  set (tau := fun i => if i <? n then sigma i else i).
  assert (Hbt : forall i, i < n -> tau i < n).
  { intros i Hlt. unfold tau. destruct (Nat.ltb_spec i n); [auto|lia]. }
  assert (Hit : Injective tau).
  { intros i j. unfold tau.
    destruct (Nat.ltb_spec i n) as [Hi'|Hi'];
      destruct (Nat.ltb_spec j n) as [Hj'|Hj']; intros E.
    - apply Hi; assumption.
    - pose proof (Hb i Hi'). lia.
    - pose proof (Hb j Hj'). lia.
    - exact E. }
  rewrite (Rsum_ext n (fun j => f (sigma j)) (fun j => f (tau j))).
  2:{ intros j Hj. unfold tau. destruct (Nat.ltb_spec j n); [reflexivity|lia]. }
  rewrite <- !Rlist_sum_map_seq.
  rewrite <- (map_map tau f).
  apply Rlist_sum_Permutation, Permutation_map.
  apply nat_bijection_Permutation; assumption.
Qed.

Lemma permutes_id (n : nat) : permutes n (fun i => i).
Proof. split; auto. Qed.

(** ** Attention under a re-ordering of the positions *)

Section Reindexing.

Variables Q K V Q' K' V' : nat -> nat -> R.
Variables n hd : nat.
Variable scale : R.
Variable sigma : nat -> nat.

Hypothesis Hsigma : permutes n sigma.
Hypothesis HQ : forall i c, i < n -> c < hd -> Q' i c = Q (sigma i) c.
Hypothesis HK : forall i c, i < n -> c < hd -> K' i c = K (sigma i) c.

Lemma scaled_reindex (i j : nat) :
  i < n -> j < n ->
  AttentionSpec.scaled Q' K' hd scale i j
  = AttentionSpec.scaled Q K hd scale (sigma i) (sigma j).
Proof.
  intros Hi Hj. unfold AttentionSpec.scaled, AttentionSpec.scores.
  f_equal. apply Rsum_ext. intros c Hc. rewrite HQ, HK by assumption.
  reflexivity.
Qed.

Lemma weights_reindex (i j : nat) :
  i < n -> j < n ->
  AttentionSpec.weights Q' K' n hd scale i j
  = AttentionSpec.weights Q K n hd scale (sigma i) (sigma j).
Proof.
  intros Hi Hj. unfold AttentionSpec.weights.
  rewrite scaled_reindex by assumption. f_equal.
  rewrite (Rsum_ext n _
             (fun j' => exp (AttentionSpec.scaled Q K hd scale (sigma i)
                               (sigma j'))))
    by (intros j' Hj'; rewrite scaled_reindex by assumption; reflexivity).
  apply (Rsum_reindex n sigma
           (fun j' => exp (AttentionSpec.scaled Q K hd scale (sigma i) j'))).
  exact Hsigma.
Qed.

Lemma output_reindex (i c : nat) :
  (forall j, j < n -> V' j c = V (sigma j) c) ->
  i < n ->
  AttentionSpec.output Q' K' V' n hd scale i c
  = AttentionSpec.output Q K V n hd scale (sigma i) c.
Proof.
  intros HV Hi. unfold AttentionSpec.output.
  rewrite (Rsum_ext n _
             (fun j => (AttentionSpec.weights Q K n hd scale (sigma i) (sigma j)
                        * V (sigma j) c)%R))
    by (intros j Hj; rewrite weights_reindex, HV by assumption; reflexivity).
  apply (Rsum_reindex n sigma
           (fun j => (AttentionSpec.weights Q K n hd scale (sigma i) j
                      * V j c)%R)).
  exact Hsigma.
Qed.

End Reindexing.

Lemma linear_reordered (p : nn.DenseParams) (sigma : nat -> nat)
  (B S d : nat) (x x' : tensor) (b i c : nat) :
  reordered sigma B S d x x' -> b < B -> i < S ->
  AttentionSpec.linear p x' d b i c
  = AttentionSpec.linear p x d b (sigma i) c.
Proof.
  intros Hr Hb Hi. unfold AttentionSpec.linear, AttentionSpec.affine.
  f_equal. apply Rsum_ext. intros l Hl. rewrite (Hr b i l) by assumption.
  reflexivity.
Qed.

Lemma all_positive_batch_seq (B S : nat) (rest : list nat) :
  all_positive (B :: S :: rest) = true -> 0 < B /\ 0 < S.
Proof.
  unfold all_positive. cbn [forallb].
  rewrite !andb_true_iff, !Nat.ltb_lt. tauto.
Qed.

(** ** X1: single-head attention commutes with re-ordering the sequence *)

(** X1.  The single-head module has no notion of position: if the
    positions of every input sequence are re-ordered by a permutation
    [sigma], the rows of the output are re-ordered in the same way, and so
    are the rows and the columns of the attention weights.  (Here and
    below, all sizes are taken to be non-zero.) *)
Theorem SelfAttention_call_permutation_equivariant :
  forall (self : SelfAttention.t) (variables : SelfAttention.params)
         (x x' : tensor) (B S d hd : nat) (sigma : nat -> nat),
    shape x = [B; S; d] ->
    shape x' = [B; S; d] ->
    SelfAttention.initialised self variables d hd ->
    all_positive [B; S; d; hd] = true ->
    permutes S sigma ->
    reordered sigma B S d x x' ->
    exists output attn_weights output' attn_weights',
      SelfAttention.call self variables x = Ok (output, attn_weights) /\
      SelfAttention.call self variables x' = Ok (output', attn_weights') /\
      (forall b i j, b < B -> i < S -> j < S ->
         get attn_weights' [b; i; j] = get attn_weights [b; sigma i; sigma j]) /\
      (forall b i c, b < B -> i < S -> c < hd ->
         get output' [b; i; c] = get output [b; sigma i; c]).
Proof.
  intros self variables x x' B S d hd sigma Hx Hx' Hinit Hpos Hs Hr.
  positive_dims Hpos.
  destruct (SelfAttention_call_spec self variables x B S d hd Hx Hinit ltac:(lia) ltac:(lia))
    as (out & w & Hcall & _ & _ & Hw & Hout).
  destruct (SelfAttention_call_spec self variables x' B S d hd Hx' Hinit ltac:(lia) ltac:(lia))
    as (out' & w' & Hcall' & _ & _ & Hw' & Hout').
  exists out, w, out', w'. split; [exact Hcall|]. split; [exact Hcall'|].
  pose proof (proj1 Hs) as Hb.
  split.
  - intros b i j Hbb Hi Hj.
    rewrite (Hw' b i j), (Hw b (sigma i) (sigma j)) by auto.
    apply weights_reindex; try assumption;
      intros; apply (linear_reordered _ sigma B S d); assumption.
  - intros b i c Hbb Hi Hc.
    rewrite (Hout' b i c), (Hout b (sigma i) c) by auto.
    apply output_reindex; try assumption;
      intros; apply (linear_reordered _ sigma B S d); assumption.
Qed.

Lemma SelfAttention_call_permutation_equivariant_witness :
  exists output attn_weights output' attn_weights',
    SelfAttention.call Pair.sa_model Pair.sa_params Pair.x
    = Ok (output, attn_weights) /\
    SelfAttention.call Pair.sa_model Pair.sa_params Pair.x_swapped
    = Ok (output', attn_weights') /\
    (forall b i j, b < 2 -> i < 2 -> j < 2 ->
       get attn_weights' [b; i; j]
       = get attn_weights [b; Pair.swap i; Pair.swap j]) /\
    (forall b i c, b < 2 -> i < 2 -> c < 2 ->
       get output' [b; i; c] = get output [b; Pair.swap i; c]).
Proof.
  apply (SelfAttention_call_permutation_equivariant
           Pair.sa_model Pair.sa_params Pair.x Pair.x_swapped 2 2 2 2 Pair.swap).
  - reflexivity.
  - reflexivity.
  - repeat split.
  - reflexivity.
  - split.
    + intros [|[|i]] Hi; simpl; lia.
    + intros [|[|i]] [|[|j]] Hi Hj; simpl; lia.
  - intros [|[|b]] [|[|i]] [|[|l]] Hb Hi Hl; try lia; reflexivity.
Defined.

(** ** X2: multi-head attention commutes with re-ordering the sequence *)

Lemma concat_reordered (variables : MultiHeadAttention.params)
  (sigma : nat -> nat) (B S d D : nat) (scale : R) (x x' : tensor)
  (b i f : nat) :
  permutes S sigma -> reordered sigma B S d x x' ->
  b < B -> i < S -> 0 < D ->
  AttentionSpec.concat
    (AttentionSpec.linear (MultiHeadAttention.p_query variables) x' d)
    (AttentionSpec.linear (MultiHeadAttention.p_key variables) x' d)
    (AttentionSpec.linear (MultiHeadAttention.p_value variables) x' d)
    S D scale b i f
  = AttentionSpec.concat
      (AttentionSpec.linear (MultiHeadAttention.p_query variables) x d)
      (AttentionSpec.linear (MultiHeadAttention.p_key variables) x d)
      (AttentionSpec.linear (MultiHeadAttention.p_value variables) x d)
      S D scale b (sigma i) f.
Proof.
  intros Hs Hr Hb Hi HD.
  unfold AttentionSpec.concat, AttentionSpec.concat_heads,
    AttentionSpec.head_output.
  apply output_reindex; try assumption;
    intros; unfold AttentionSpec.head_slice;
    apply (linear_reordered _ sigma B S d); assumption.
Qed.

(** X2.  The multi-head module has no notion of position either: on a
    non-empty input, re-ordering the positions of every sequence by a
    permutation re-orders the rows of the output, and the rows and columns
    of every head's attention weights, in the same way. *)
Theorem MultiHeadAttention_call_permutation_equivariant :
  forall (self : MultiHeadAttention.t) (variables : MultiHeadAttention.params)
         (x x' : tensor) (B S d H D E : nat) (sigma : nat -> nat),
    shape x = [B; S; d] ->
    shape x' = [B; S; d] ->
    MultiHeadAttention.initialised self variables d H D E ->
    all_positive [B; S; d; H; D; E] = true ->
    permutes S sigma ->
    reordered sigma B S d x x' ->
    exists output attn_weights output' attn_weights',
      MultiHeadAttention.call self variables x = Ok (output, attn_weights) /\
      MultiHeadAttention.call self variables x' = Ok (output', attn_weights') /\
      (forall b h i j, b < B -> h < H -> i < S -> j < S ->
         get attn_weights' [b; h; i; j]
         = get attn_weights [b; h; sigma i; sigma j]) /\
      (forall b i e, b < B -> i < S -> e < E ->
         get output' [b; i; e] = get output [b; sigma i; e]).
Proof.
  intros self variables x x' B S d H D E sigma Hx Hx' Hinit Hpos Hs Hr.
  destruct (all_positive_batch_seq _ _ _ Hpos) as [HB HS].
  positive_dims Hpos.
  destruct (MultiHeadAttention_call_spec self variables x B S d H D E
              Hx Hinit ltac:(lia) ltac:(lia) ltac:(lia) HB HS ltac:(lia))
    as (out & w & Hcall & _ & _ & Hw & Hout).
  destruct (MultiHeadAttention_call_spec self variables x' B S d H D E
              Hx' Hinit ltac:(lia) ltac:(lia) ltac:(lia) HB HS ltac:(lia))
    as (out' & w' & Hcall' & _ & _ & Hw' & Hout').
  exists out, w, out', w'. split; [exact Hcall|]. split; [exact Hcall'|].
  pose proof (proj1 Hs) as Hb.
  split.
  - intros b h i j Hbb Hh Hi Hj.
    rewrite (Hw' b h i j), (Hw b h (sigma i) (sigma j)) by auto.
    unfold AttentionSpec.head_weights.
    apply weights_reindex; try assumption;
      intros; unfold AttentionSpec.head_slice;
      apply (linear_reordered _ sigma B S d); assumption.
  - intros b i e Hbb Hi He.
    rewrite (Hout' b i e), (Hout b (sigma i) e) by auto.
    unfold AttentionSpec.affine. f_equal.
    apply Rsum_ext. intros f Hf. f_equal.
    apply (concat_reordered variables sigma B S d D); assumption.
Qed.

Lemma MultiHeadAttention_call_permutation_equivariant_witness :
  exists output attn_weights output' attn_weights',
    MultiHeadAttention.call Pair.mha_model Pair.mha_params Pair.x
    = Ok (output, attn_weights) /\
    MultiHeadAttention.call Pair.mha_model Pair.mha_params Pair.x_swapped
    = Ok (output', attn_weights') /\
    (forall b h i j, b < 2 -> h < 2 -> i < 2 -> j < 2 ->
       get attn_weights' [b; h; i; j]
       = get attn_weights [b; h; Pair.swap i; Pair.swap j]) /\
    (forall b i e, b < 2 -> i < 2 -> e < 3 ->
       get output' [b; i; e] = get output [b; Pair.swap i; e]).
Proof.
  apply (MultiHeadAttention_call_permutation_equivariant
           Pair.mha_model Pair.mha_params Pair.x Pair.x_swapped
           2 2 2 2 1 3 Pair.swap).
  - reflexivity.
  - reflexivity.
  - repeat split.
  - reflexivity.
  - split.
    + intros [|[|i]] Hi; simpl; lia.
    + intros [|[|i]] [|[|j]] Hi Hj; simpl; lia.
  - intros [|[|b]] [|[|i]] [|[|l]] Hb Hi Hl; try lia; reflexivity.
Defined.

(** ** X3: batch elements do not influence one another *)

(** X3.  Row [b] of the results depends on batch element [b] of the input
    only: two inputs of the same shape that agree on batch element [b]
    give the same attention weights and the same output at [b], whatever
    the other batch elements are; for the single-head and for the
    multi-head module. *)
Theorem forward_batch_elements_are_independent :
  (forall (self : SelfAttention.t) (variables : SelfAttention.params)
          (x x' : tensor) (B S d hd b : nat),
      shape x = [B; S; d] ->
      shape x' = [B; S; d] ->
      SelfAttention.initialised self variables d hd ->
      all_positive [B; S; d; hd] = true ->
      b < B ->
      (forall i l, i < S -> l < d -> get x' [b; i; l] = get x [b; i; l]) ->
      exists output attn_weights output' attn_weights',
        SelfAttention.call self variables x = Ok (output, attn_weights) /\
        SelfAttention.call self variables x' = Ok (output', attn_weights') /\
        (forall i j, i < S -> j < S ->
           get attn_weights' [b; i; j] = get attn_weights [b; i; j]) /\
        (forall i c, i < S -> c < hd ->
           get output' [b; i; c] = get output [b; i; c])) /\
  (forall (self : MultiHeadAttention.t) (variables : MultiHeadAttention.params)
          (x x' : tensor) (B S d H D E b : nat),
      shape x = [B; S; d] ->
      shape x' = [B; S; d] ->
      MultiHeadAttention.initialised self variables d H D E ->
      all_positive [B; S; d; H; D; E] = true ->
      b < B ->
      (forall i l, i < S -> l < d -> get x' [b; i; l] = get x [b; i; l]) ->
      exists output attn_weights output' attn_weights',
        MultiHeadAttention.call self variables x = Ok (output, attn_weights) /\
        MultiHeadAttention.call self variables x' = Ok (output', attn_weights') /\
        (forall h i j, h < H -> i < S -> j < S ->
           get attn_weights' [b; h; i; j] = get attn_weights [b; h; i; j]) /\
        (forall i e, i < S -> e < E ->
           get output' [b; i; e] = get output [b; i; e])).
Proof.
  assert (Hlin : forall (p : nn.DenseParams) (x x' : tensor) (S d b : nat),
             (forall i l, i < S -> l < d -> get x' [b; i; l] = get x [b; i; l]) ->
             forall i c, i < S ->
               AttentionSpec.linear p x' d b i c = AttentionSpec.linear p x d b i c).
  { intros p x x' S d b Hxx i c Hi.
    unfold AttentionSpec.linear, AttentionSpec.affine. f_equal.
    apply Rsum_ext. intros l Hl. rewrite Hxx by assumption. reflexivity. }
  split.
  - intros self variables x x' B S d hd b Hx Hx' Hinit Hpos Hb Hxx.
    positive_dims Hpos.
    destruct (SelfAttention_call_spec self variables x B S d hd Hx Hinit ltac:(lia) ltac:(lia))
      as (out & w & Hcall & _ & _ & Hw & Hout).
    destruct (SelfAttention_call_spec self variables x' B S d hd Hx' Hinit ltac:(lia) ltac:(lia))
      as (out' & w' & Hcall' & _ & _ & Hw' & Hout').
    exists out, w, out', w'. split; [exact Hcall|]. split; [exact Hcall'|].
    split.
    + intros i j Hi Hj. rewrite (Hw' b i j), (Hw b i j) by assumption.
      apply (weights_reindex _ _ _ _ S hd _ (fun i => i) (permutes_id S));
        try assumption; intros; apply (Hlin _ x x' S d b); assumption.
    + intros i c Hi Hc. rewrite (Hout' b i c), (Hout b i c) by assumption.
      apply (output_reindex _ _ _ _ _ _ S hd _ (fun i => i) (permutes_id S));
        try assumption; intros; apply (Hlin _ x x' S d b); assumption.
  - intros self variables x x' B S d H D E b Hx Hx' Hinit Hpos Hb Hxx.
    destruct (all_positive_batch_seq _ _ _ Hpos) as [HB HS].
  positive_dims Hpos.
    destruct (MultiHeadAttention_call_spec self variables x B S d H D E
                Hx Hinit ltac:(lia) ltac:(lia) ltac:(lia) HB HS ltac:(lia))
      as (out & w & Hcall & _ & _ & Hw & Hout).
    destruct (MultiHeadAttention_call_spec self variables x' B S d H D E
                Hx' Hinit ltac:(lia) ltac:(lia) ltac:(lia) HB HS ltac:(lia))
      as (out' & w' & Hcall' & _ & _ & Hw' & Hout').
    exists out, w, out', w'. split; [exact Hcall|]. split; [exact Hcall'|].
    split.
    + intros h i j Hh Hi Hj. rewrite (Hw' b h i j), (Hw b h i j) by assumption.
      unfold AttentionSpec.head_weights.
      apply (weights_reindex _ _ _ _ S D _ (fun i => i) (permutes_id S));
        try assumption; intros; unfold AttentionSpec.head_slice;
        apply (Hlin _ x x' S d b); assumption.
    + intros i e Hi He. rewrite (Hout' b i e), (Hout b i e) by assumption.
      unfold AttentionSpec.affine. f_equal.
      apply Rsum_ext. intros f Hf. f_equal.
      unfold AttentionSpec.concat, AttentionSpec.concat_heads,
        AttentionSpec.head_output.
      apply (output_reindex _ _ _ _ _ _ S D _ (fun i => i) (permutes_id S));
        try assumption; intros; unfold AttentionSpec.head_slice;
        apply (Hlin _ x x' S d b); assumption.
Qed.

Lemma forward_batch_elements_are_independent_witness :
  (exists output attn_weights output' attn_weights',
     SelfAttention.call Pair.sa_model Pair.sa_params Pair.x
     = Ok (output, attn_weights) /\
     SelfAttention.call Pair.sa_model Pair.sa_params Pair.x_other
     = Ok (output', attn_weights') /\
     (forall i j, i < 2 -> j < 2 ->
        get attn_weights' [0; i; j] = get attn_weights [0; i; j]) /\
     (forall i c, i < 2 -> c < 2 ->
        get output' [0; i; c] = get output [0; i; c])) /\
  (exists output attn_weights output' attn_weights',
     MultiHeadAttention.call Pair.mha_model Pair.mha_params Pair.x
     = Ok (output, attn_weights) /\
     MultiHeadAttention.call Pair.mha_model Pair.mha_params Pair.x_other
     = Ok (output', attn_weights') /\
     (forall h i j, h < 2 -> i < 2 -> j < 2 ->
        get attn_weights' [0; h; i; j] = get attn_weights [0; h; i; j]) /\
     (forall i e, i < 2 -> e < 3 ->
        get output' [0; i; e] = get output [0; i; e])).
Proof.
  split.
  - apply (proj1 forward_batch_elements_are_independent
             Pair.sa_model Pair.sa_params Pair.x Pair.x_other 2 2 2 2 0).
    + reflexivity.
    + reflexivity.
    + repeat split.
    + reflexivity.
    + lia.
    + intros [|[|i]] [|[|l]] Hi Hl; try lia; reflexivity.
  - apply (proj2 forward_batch_elements_are_independent
             Pair.mha_model Pair.mha_params Pair.x Pair.x_other 2 2 2 2 1 3 0).
    + reflexivity.
    + reflexivity.
    + repeat split.
    + reflexivity.
    + lia.
    + intros [|[|i]] [|[|l]] Hi Hl; try lia; reflexivity.
Defined.

(** ** X5: the output is a weighted average of the values *)

(** A weighted sum with the attention weights lies between the bounds of
    the values. *)
Lemma output_between (Q K V : nat -> nat -> R) (n hd : nat) (scale : R)
  (i c : nat) (lo hi : R) :
  0 < n ->
  (forall j, j < n -> (lo <= V j c <= hi)%R) ->
  (lo <= AttentionSpec.output Q K V n hd scale i c <= hi)%R.
Proof.
  intros Hn HV. unfold AttentionSpec.output.
  pose proof (weights_row_sum Q K n hd scale i Hn) as Hsum.
  assert (Hlo : (Rsum n (fun j => AttentionSpec.weights Q K n hd scale i j * lo)
                 <= Rsum n (fun j => AttentionSpec.weights Q K n hd scale i j
                                     * V j c))%R).
  { apply Rsum_le. intros j Hj.
    apply Rmult_le_compat_l; [apply weights_range; exact Hj|apply HV; exact Hj]. }
  assert (Hhi : (Rsum n (fun j => AttentionSpec.weights Q K n hd scale i j
                                  * V j c)
                 <= Rsum n (fun j => AttentionSpec.weights Q K n hd scale i j
                                     * hi))%R).
  { apply Rsum_le. intros j Hj.
    apply Rmult_le_compat_l; [apply weights_range; exact Hj|apply HV; exact Hj]. }
  rewrite Rsum_scal in Hlo, Hhi.
  change (Rsum n (fun j => AttentionSpec.weights Q K n hd scale i j))
    with (Rsum n (AttentionSpec.weights Q K n hd scale i)) in Hsum.
  rewrite Hsum in Hlo, Hhi. lra.
Qed.



(** ** X6: the bias of the value projection is added to the output *)

(** The projection with another bias is the projection plus the difference
    of the biases. *)
Lemma linear_bias_shift (p p' : nn.DenseParams) (x : tensor) (d b i c : nat) :
  nn.kernel p' = nn.kernel p ->
  AttentionSpec.linear p' x d b i c
  = (AttentionSpec.linear p x d b i c
     + (get (nn.bias p') [c] - get (nn.bias p) [c]))%R.
Proof.
  intros Hk. unfold AttentionSpec.linear, AttentionSpec.affine.
  rewrite Hk. ring.
Qed.



(** ** X7: one head is single-head attention followed by a projection *)

(** X7.  A multi-head module with [num_heads = 1] computes what the
    single-head module with the same [head_dim] and the same query, key and
    value variables computes, followed by the output projection: the
    weights of its only head are the single-head weights, and its output
    is [self.out] applied to the single-head output. *)
Theorem MultiHeadAttention_with_one_head_is_SelfAttention :
  forall (mha : MultiHeadAttention.t) (sa : SelfAttention.t)
         (variables : MultiHeadAttention.params)
         (variables1 : SelfAttention.params)
         (x : tensor) (B S d D E : nat),
    shape x = [B; S; d] ->
    MultiHeadAttention.initialised mha variables d 1 D E ->
    SelfAttention.head_dim sa = MultiHeadAttention.head_dim mha ->
    SelfAttention.p_query variables1 = MultiHeadAttention.p_query variables ->
    SelfAttention.p_key variables1 = MultiHeadAttention.p_key variables ->
    SelfAttention.p_value variables1 = MultiHeadAttention.p_value variables ->
    all_positive [B; S; d; D; E] = true ->
    exists output attn_weights output1 attn_weights1,
      MultiHeadAttention.call mha variables x = Ok (output, attn_weights) /\
      SelfAttention.call sa variables1 x = Ok (output1, attn_weights1) /\
      (forall b i j, b < B -> i < S -> j < S ->
         get attn_weights [b; 0; i; j] = get attn_weights1 [b; i; j]) /\
      (forall b i e, b < B -> i < S -> e < E ->
         get output [b; i; e]
         = AttentionSpec.affine (MultiHeadAttention.p_out variables) D
             (fun f => get output1 [b; i; f]) e).
Proof.
  intros mha sa variables variables1 x B S d D E Hx Hinit Hhd Hq Hk Hv Hpos.
  destruct (all_positive_batch_seq _ _ _ Hpos) as [HB HS].
  positive_dims Hpos.
  assert (Hinit1 : SelfAttention.initialised sa variables1 d D).
  { destruct Hinit as (_ & HD & _ & Hiq & Hik & Hiv & _).
    unfold SelfAttention.initialised. rewrite Hhd, Hq, Hk, Hv.
    rewrite Nat.mul_1_l in Hiq, Hik, Hiv. auto. }
  destruct (MultiHeadAttention_call_spec mha variables x B S d 1 D E
              Hx Hinit ltac:(lia) ltac:(lia) ltac:(lia) HB HS ltac:(lia))
    as (out & w & Hcall & _ & _ & Hw & Hout).
  destruct (SelfAttention_call_spec sa variables1 x B S d D Hx Hinit1 ltac:(lia) ltac:(lia))
    as (out1 & w1 & Hcall1 & _ & _ & Hw1 & Hout1).
  exists out, w, out1, w1. split; [exact Hcall|]. split; [exact Hcall1|].
  split.
  - intros b i j Hb Hi Hj.
    rewrite (Hw b 0 i j), (Hw1 b i j) by (assumption || lia).
    rewrite Hq, Hk, Hhd. reflexivity.
  - intros b i e Hb Hi He. rewrite (Hout b i e) by assumption.
    unfold AttentionSpec.affine. rewrite Nat.mul_1_l. f_equal.
    apply Rsum_ext. intros f Hf. f_equal.
    rewrite (Hout1 b i f) by assumption.
    unfold AttentionSpec.concat, AttentionSpec.concat_heads.
    rewrite Nat.div_small, Nat.mod_small by exact Hf.
    rewrite Hq, Hk, Hv, Hhd. reflexivity.
Qed.

Lemma MultiHeadAttention_with_one_head_is_SelfAttention_witness :
  exists output attn_weights output1 attn_weights1,
    MultiHeadAttention.call Small.mha_model64 Small.mha_params2 Small.x2
    = Ok (output, attn_weights) /\
    SelfAttention.call Small.sa_model64 Small.sa_params2 Small.x2
    = Ok (output1, attn_weights1) /\
    (forall b i j, b < 1 -> i < 1 -> j < 1 ->
       get attn_weights [b; 0; i; j] = get attn_weights1 [b; i; j]) /\
    (forall b i e, b < 1 -> i < 1 -> e < 64 ->
       get output [b; i; e]
       = AttentionSpec.affine (MultiHeadAttention.p_out Small.mha_params2) 1
           (fun f => get output1 [b; i; f]) e).
Proof.
  apply (MultiHeadAttention_with_one_head_is_SelfAttention
           Small.mha_model64 Small.sa_model64 Small.mha_params2
           Small.sa_params2 Small.x2 1 1 2 1 64);
    try reflexivity; try lia. repeat split.
Defined.

(** ** X8: inputs that are not of rank three are rejected *)

Lemma Dense_rank (features : Z) (p : nn.DenseParams) (inputs y : tensor) :
  nn.Dense features p inputs = Ok y ->
  length (shape y) = length (shape inputs).
Proof.
  unfold nn.Dense. rewrite <- (length_rev (shape inputs)).
  destruct (rev (shape inputs)) as [|din lead]; [discriminate|].
  destruct (_ || _); [discriminate|].
  destruct (_ <? _)%Z; [discriminate|].
  destruct (_ && _); [|discriminate].
  intros [= <-]. simpl. rewrite length_app, length_rev. simpl. lia.
Qed.

(** X8.  Both modules reject every input whose rank is not three, in
    particular a single sequence passed without its batch axis: the
    single-head call raises (at the latest when it transposes the keys),
    the multi-head call raises [ValueError] when it unpacks [x.shape]. *)
Theorem forward_rejects_inputs_not_of_rank_three :
  (forall (self : SelfAttention.t) (variables : SelfAttention.params)
          (x : tensor),
      length (shape x) <> 3 ->
      exists e, SelfAttention.call self variables x = Raise e) /\
  (forall (self : MultiHeadAttention.t) (variables : MultiHeadAttention.params)
          (x : tensor),
      length (shape x) <> 3 ->
      MultiHeadAttention.call self variables x = Raise ValueError).
Proof.
  split.
  - intros self variables x Hrank.
    unfold SelfAttention.call, SelfAttention.setup.
    cbn [bind SelfAttention.query SelfAttention.key SelfAttention.value].
    destruct (nn.Dense _ (SelfAttention.p_query variables) x) as [q|e];
      cbn [bind]; [|exists e; reflexivity].
    destruct (nn.Dense _ (SelfAttention.p_key variables) x) as [k|e] eqn:Ek;
      cbn [bind]; [|exists e; reflexivity].
    destruct (nn.Dense _ (SelfAttention.p_value variables) x) as [v|e];
      cbn [bind]; [|exists e; reflexivity].
    apply Dense_rank in Ek.
    unfold jnp.transpose, jnp.is_permutation. rewrite Ek.
    replace (length [0; 2; 1] =? length (shape x)) with false
      by (symmetry; apply Nat.eqb_neq; simpl; lia).
    exists ValueError. reflexivity.
  - intros self variables x Hrank.
    unfold MultiHeadAttention.call, MultiHeadAttention.setup. cbn [bind].
    destruct (shape x) as [|a [|b [|c [|e l]]]]; simpl in Hrank;
      try reflexivity. lia.
Qed.

Lemma forward_rejects_inputs_not_of_rank_three_witness :
  (exists e, SelfAttention.call Notebook.sa_model Notebook.sa_params
               Notebook.x_unbatched = Raise e) /\
  MultiHeadAttention.call Notebook.mha_model Notebook.mha_params
                          Notebook.x_unbatched = Raise ValueError.
Proof.
  split.
  - apply (proj1 forward_rejects_inputs_not_of_rank_three
             Notebook.sa_model Notebook.sa_params Notebook.x_unbatched).
    simpl. lia.
  - apply (proj2 forward_rejects_inputs_not_of_rank_three
             Notebook.mha_model Notebook.mha_params Notebook.x_unbatched).
    simpl. lia.
Defined.

(** ** X9: an empty batch *)

(** X9.  The multi-head call of every initialised module raises on every
    input with an empty batch or an empty sequence: it never returns a
    result for such an input. *)
Theorem MultiHeadAttention_call_raises_on_empty_input :
  forall (self : MultiHeadAttention.t) (variables : MultiHeadAttention.params)
         (x : tensor) (B S d H D E : nat),
    shape x = [B; S; d] ->
    MultiHeadAttention.initialised self variables d H D E ->
    B = 0 \/ S = 0 ->
    exists e, MultiHeadAttention.call self variables x = Raise e.
Proof.
  intros self variables x B S d H D E Hx Hinit H0.
  exists ZeroDivisionError.
  exact (MultiHeadAttention_call_empty self variables x B S d H D E
           Hx Hinit H0).
Qed.

Lemma MultiHeadAttention_call_raises_on_empty_input_witness :
  exists e,
    MultiHeadAttention.call Notebook.mha_model Notebook.mha_params
                            Notebook.x_empty_batch = Raise e.
Proof.
  apply (MultiHeadAttention_call_raises_on_empty_input
           Notebook.mha_model Notebook.mha_params
           Notebook.x_empty_batch 0 5 64 4 16 64).
  - reflexivity.
  - repeat split.
  - left. reflexivity.
Defined.

(** ** X10: a sequence of identical embeddings *)

Lemma output_uniform (Q K V : nat -> nat -> R) (n hd : nat) (scale : R)
  (i c : nat) (v : R) :
  0 < n ->
  (forall j, j < n -> AttentionSpec.weights Q K n hd scale i j = (1 / INR n)%R) ->
  (forall j, j < n -> V j c = v) ->
  AttentionSpec.output Q K V n hd scale i c = v.
Proof.
  intros Hn Hw HV. unfold AttentionSpec.output.
  rewrite (Rsum_ext n _ (fun _ => (1 / INR n * v)%R))
    by (intros j Hj; rewrite Hw, HV by assumption; reflexivity).
  rewrite Rsum_const.
  assert (0 < INR n)%R by (apply lt_0_INR; exact Hn).
  field. lra.
Qed.

Lemma linear_constant_sequence (p : nn.DenseParams) (x : tensor)
  (S d b i c : nat) :
  (forall i l, i < S -> l < d -> get x [b; i; l] = get x [b; 0; l]) ->
  i < S ->
  AttentionSpec.linear p x d b i c = AttentionSpec.linear p x d b 0 c.
Proof.
  intros Hx Hi. unfold AttentionSpec.linear, AttentionSpec.affine. f_equal.
  apply Rsum_ext. intros l Hl. rewrite (Hx i l) by assumption. reflexivity.
Qed.



(** ** X11: the heads do not influence one another *)

Lemma linear_same_feature (p p' : nn.DenseParams) (x : tensor)
  (d b i f : nat) :
  same_feature d p p' f ->
  AttentionSpec.linear p' x d b i f = AttentionSpec.linear p x d b i f.
Proof.
  intros [Hk Hb]. unfold AttentionSpec.linear, AttentionSpec.affine.
  rewrite Hb. f_equal. apply Rsum_ext. intros l Hl. rewrite Hk by exact Hl.
  reflexivity.
Qed.

(** X11.  The attention weights of head [h] depend on the features
    [h*head_dim .. (h+1)*head_dim - 1] of the query and key projections
    only: two parameter sets that agree on these features give the same
    weights for head [h], whatever the other heads' features, the value
    projection and the output projection are. *)
Theorem MultiHeadAttention_head_weights_depend_on_own_features :
  forall (self : MultiHeadAttention.t)
         (variables variables' : MultiHeadAttention.params)
         (x : tensor) (B S d H D E h : nat),
    shape x = [B; S; d] ->
    MultiHeadAttention.initialised self variables d H D E ->
    MultiHeadAttention.initialised self variables' d H D E ->
    all_positive [B; S; d; H; D; E] = true ->
    h < H ->
    (forall c, c < D ->
       same_feature d (MultiHeadAttention.p_query variables)
                    (MultiHeadAttention.p_query variables') (h * D + c) /\
       same_feature d (MultiHeadAttention.p_key variables)
                    (MultiHeadAttention.p_key variables') (h * D + c)) ->
    exists output attn_weights output' attn_weights',
      MultiHeadAttention.call self variables x = Ok (output, attn_weights) /\
      MultiHeadAttention.call self variables' x = Ok (output', attn_weights') /\
      forall b i j, b < B -> i < S -> j < S ->
        get attn_weights' [b; h; i; j] = get attn_weights [b; h; i; j].
Proof.
  intros self variables variables' x B S d H D E h Hx Hinit Hinit' Hpos Hh Hsame.
  destruct (all_positive_batch_seq _ _ _ Hpos) as [HB HS].
  positive_dims Hpos.
  destruct (MultiHeadAttention_call_spec self variables x B S d H D E
              Hx Hinit ltac:(lia) ltac:(lia) ltac:(lia) HB HS ltac:(lia))
    as (out & w & Hcall & _ & _ & Hw & _).
  destruct (MultiHeadAttention_call_spec self variables' x B S d H D E
              Hx Hinit' ltac:(lia) ltac:(lia) ltac:(lia) HB HS ltac:(lia))
    as (out' & w' & Hcall' & _ & _ & Hw' & _).
  exists out, w, out', w'. split; [exact Hcall|]. split; [exact Hcall'|].
  intros b i j Hb Hi Hj.
  rewrite (Hw' b h i j), (Hw b h i j) by assumption.
  unfold AttentionSpec.head_weights.
  apply (weights_reindex _ _ _ _ S D _ (fun i => i) (permutes_id S));
    try assumption; intros i' c Hi' Hc; unfold AttentionSpec.head_slice;
    apply linear_same_feature; apply (Hsame c Hc).
Qed.

Lemma MultiHeadAttention_head_weights_depend_on_own_features_witness :
  exists output attn_weights output' attn_weights',
    MultiHeadAttention.call Pair.mha_model Pair.mha_params_heads Pair.x
    = Ok (output, attn_weights) /\
    MultiHeadAttention.call Pair.mha_model Pair.mha_params_heads_other Pair.x
    = Ok (output', attn_weights') /\
    forall b i j, b < 2 -> i < 2 -> j < 2 ->
      get attn_weights' [b; 0; i; j] = get attn_weights [b; 0; i; j].
Proof.
  apply (MultiHeadAttention_head_weights_depend_on_own_features
           Pair.mha_model Pair.mha_params_heads Pair.mha_params_heads_other
           Pair.x 2 2 2 2 1 3 0); try reflexivity; try lia.
  - repeat split.
  - repeat split.
  - intros [|c] Hc; [|lia].
    split; (split; [intros [|[|l]] Hl; try lia; reflexivity|reflexivity]).
Defined.

(** ** X12: re-ordering the heads *)

(** A sum over [H * D] features is the sum, over the heads, of the sums
    over each head's features. *)
Lemma Rsum_blocks (H D : nat) (G : nat -> nat -> R) :
  Rsum (H * D) (fun f => G (f / D) (f mod D)) = Rsum H (fun h => Rsum D (G h)).
Proof.
  induction H as [|H IH]; [reflexivity|].
  replace (S H * D) with (H * D + D) by lia.
  rewrite Rsum_add, IH. simpl. f_equal.
  apply Rsum_ext. intros k Hk.
  replace (H * D + k) with (k + H * D) by lia.
  rewrite Nat.div_add, Nat.Div0.mod_add by lia.
  rewrite Nat.div_small, Nat.mod_small by exact Hk.
  reflexivity.
Qed.

Lemma linear_head_permuted (p p' : nn.DenseParams) (sigma : nat -> nat)
  (x : tensor) (d H D b i h c : nat) :
  head_features_permuted sigma d H D p p' ->
  h < H -> c < D ->
  AttentionSpec.linear p' x d b i (h * D + c)
  = AttentionSpec.linear p x d b i (sigma h * D + c).
Proof.
  intros [Hk Hb] Hh Hc. unfold AttentionSpec.linear, AttentionSpec.affine.
  rewrite Hb by assumption. f_equal.
  apply Rsum_ext. intros l Hl. rewrite Hk by assumption. reflexivity.
Qed.



(** ** X13, X14: variables created by [init] fit every input of the same
    embedding dimension *)

Lemma Dense_init_ok (kernel_init : list nat -> result tensor) (kernel : tensor)
  (F din : nat) (lead : list nat) (inputs : tensor) :
  shape inputs = lead ++ [din] ->
  kernel_init [din; F] = Ok kernel ->
  shape kernel = [din; F] ->
  0 < din -> 0 < F ->
  Dense_init kernel_init (Z.of_nat F) inputs
  = Ok (nn.mkDense kernel (zeros [F]),
        build (lead ++ [F])
              (nn.Dense_elem (nn.mkDense kernel (zeros [F])) inputs din)).
Proof.
  intros Hx Hinit Hk Hdin HF. unfold Dense_init.
  rewrite Hx, rev_app_distr. cbn [rev app].
  replace (Z.of_nat F <? 0)%Z with false by (symmetry; apply Z.ltb_ge; lia).
  rewrite Nat2Z.id, Hinit. cbn [bind].
  rewrite (Dense_ok F din lead (nn.mkDense kernel (zeros [F])) inputs
             Hx Hk eq_refl Hdin HF).
  reflexivity.
Qed.

(** No layer is created for inputs without features, or with no output
    features. *)
Lemma Dense_init_zero (kernel_init : list nat -> result tensor)
  (kernel : tensor) (F din : nat) (lead : list nat) (inputs : tensor) :
  shape inputs = lead ++ [din] ->
  kernel_init [din; F] = Ok kernel ->
  din = 0 \/ F = 0 ->
  Dense_init kernel_init (Z.of_nat F) inputs = Raise ZeroDivisionError.
Proof.
  intros Hx Hinit H0. unfold Dense_init.
  rewrite Hx, rev_app_distr. cbn [rev app].
  replace (Z.of_nat F <? 0)%Z with false by (symmetry; apply Z.ltb_ge; lia).
  rewrite Nat2Z.id, Hinit. cbn [bind].
  rewrite (Dense_zero _ _ inputs lead din Hx); [reflexivity|].
  destruct H0 as [H0|H0]; [left; exact H0|right; lia].
Qed.

Lemma Dense_init_negative (kernel_init : list nat -> result tensor)
  (features : Z) (inputs : tensor) :
  (features < 0)%Z -> exists e, Dense_init kernel_init features inputs = Raise e.
Proof.
  intros Hneg. unfold Dense_init.
  destruct (rev (shape inputs)); [eexists; reflexivity|].
  replace (features <? 0)%Z with true by (symmetry; apply Z.ltb_lt; exact Hneg).
  eexists; reflexivity.
Qed.

Section Initialisation.

Variable kernel_init : sublayer -> list nat -> result tensor.

Lemma SelfAttention_init_spec (self : SelfAttention.t) (x : tensor)
  (B S d hd : nat) :
  shape x = [B; S; d] ->
  SelfAttention.head_dim self = Z.of_nat hd ->
  initialises kernel_init Query [d; hd] ->
  initialises kernel_init Key [d; hd] ->
  initialises kernel_init Value [d; hd] ->
  0 < d -> 0 < hd ->
  exists variables,
    SelfAttention_init kernel_init self x = Ok variables /\
    SelfAttention.initialised self variables d hd /\
    nn.bias (SelfAttention.p_query variables) = zeros [hd] /\
    nn.bias (SelfAttention.p_key variables) = zeros [hd] /\
    nn.bias (SelfAttention.p_value variables) = zeros [hd].
Proof.
  intros Hx Hhd (kq & Hkq & Hsq) (kk & Hkk & Hsk) (kv & Hkv & Hsv) Hd Hhd0.
  unfold SelfAttention_init, SelfAttention.setup.
  cbn [bind SelfAttention.query SelfAttention.key SelfAttention.value].
  rewrite Hhd.
  rewrite (Dense_init_ok _ kq hd d [B; S] x Hx Hkq Hsq Hd Hhd0).
  rewrite (Dense_init_ok _ kk hd d [B; S] x Hx Hkk Hsk Hd Hhd0).
  rewrite (Dense_init_ok _ kv hd d [B; S] x Hx Hkv Hsv Hd Hhd0).
  cbn [bind app fst snd].
  set (q := build [B; S; hd] (nn.Dense_elem (nn.mkDense kq (zeros [hd])) x d)).
  set (k := build [B; S; hd] (nn.Dense_elem (nn.mkDense kk (zeros [hd])) x d)).
  set (v := build [B; S; hd] (nn.Dense_elem (nn.mkDense kv (zeros [hd])) x d)).
  rewrite (transpose_ok k [B; S; hd] [0; 2; 1] eq_refl eq_refl).
  cbn [bind map nth].
  set (kT := build [B; hd; S] _).
  rewrite (matmul_ok q kT [B] S hd S eq_refl eq_refl).
  cbn [bind app length].
  set (scores := build [B; S; S] _).
  rewrite (softmax_ok (jnp.divide scores _) [B; S] S eq_refl).
  cbn [bind app].
  set (w := build [B; S; S] _).
  rewrite (matmul_ok w v [B] S S hd eq_refl eq_refl).
  cbn [bind app length].
  eexists. split; [reflexivity|]. split.
  - repeat split; assumption.
  - repeat split.
Qed.

(** Up to the point where the heads are merged. *)
Lemma MultiHeadAttention_init_heads (self : MultiHeadAttention.t) (x : tensor)
  (B S d H D E : nat) :
  shape x = [B; S; d] ->
  MultiHeadAttention.num_heads self = Z.of_nat H ->
  MultiHeadAttention.head_dim self = Z.of_nat D ->
  MultiHeadAttention.embed_dim self = Z.of_nat E ->
  initialises kernel_init Query [d; H * D] ->
  initialises kernel_init Key [d; H * D] ->
  initialises kernel_init Value [d; H * D] ->
  0 < d -> 0 < H -> 0 < D ->
  exists attn_output pq pk pv,
    MultiHeadAttention_init kernel_init self x
    = (merged <- jnp.reshape attn_output [Z.of_nat B; Z.of_nat S; (-1)%Z] ;;
       o <- Dense_init (kernel_init Out) (Z.of_nat E) merged ;;
       Ok (MultiHeadAttention.mkParams pq pk pv (fst o))) /\
    shape attn_output = [B; S; H; D] /\
    nn.initialised pq d (H * D) /\
    nn.initialised pk d (H * D) /\
    nn.initialised pv d (H * D).
Proof.
  intros Hx HH HD HE (kq & Hkq & Hsq) (kk & Hkk & Hsk) (kv & Hkv & Hsv)
         Hd HH0 HD0.
  assert (HHD : 0 < H * D) by nia.
  unfold MultiHeadAttention_init, MultiHeadAttention.setup.
  cbn [bind MultiHeadAttention.query MultiHeadAttention.key
       MultiHeadAttention.value MultiHeadAttention.out].
  rewrite Hx, HE, HH, HD, <- Nat2Z.inj_mul.
  rewrite (Dense_init_ok _ kq (H * D) d [B; S] x Hx Hkq Hsq Hd HHD).
  rewrite (Dense_init_ok _ kk (H * D) d [B; S] x Hx Hkk Hsk Hd HHD).
  rewrite (Dense_init_ok _ kv (H * D) d [B; S] x Hx Hkv Hsv Hd HHD).
  cbn [bind app fst snd].
  set (q0 := build [B; S; H * D] (nn.Dense_elem (nn.mkDense kq _) x d)).
  set (k0 := build [B; S; H * D] (nn.Dense_elem (nn.mkDense kk _) x d)).
  set (v0 := build [B; S; H * D] (nn.Dense_elem (nn.mkDense kv _) x d)).
  rewrite (split_heads_ok self q0 B S H D HH HD eq_refl).
  rewrite (split_heads_ok self k0 B S H D HH HD eq_refl).
  rewrite (split_heads_ok self v0 B S H D HH HD eq_refl).
  cbn [bind].
  set (q := build [B; H; S; D]
              (jnp.transpose_elem (mkTensor [B; S; H; D] (data q0)) [0; 2; 1; 3])).
  set (k := build [B; H; S; D]
              (jnp.transpose_elem (mkTensor [B; S; H; D] (data k0)) [0; 2; 1; 3])).
  set (v := build [B; H; S; D]
              (jnp.transpose_elem (mkTensor [B; S; H; D] (data v0)) [0; 2; 1; 3])).
  rewrite (transpose_ok k [B; H; S; D] [0; 1; 3; 2] eq_refl eq_refl).
  cbn [bind map nth].
  set (kT := build [B; H; D; S] (jnp.transpose_elem k [0; 1; 3; 2])).
  rewrite (matmul_ok q kT [B; H] S D S eq_refl eq_refl).
  cbn [bind app length].
  set (scores := build [B; H; S; S] (jnp.matmul_elem q kT 2 D)).
  rewrite (softmax_ok (jnp.divide scores (jnp.sqrt (Z.of_nat D)))
             [B; H; S] S eq_refl).
  cbn [bind app].
  set (w := build [B; H; S; S] _).
  rewrite (matmul_ok w v [B; H] S S D eq_refl eq_refl).
  cbn [bind app length].
  set (ao := build [B; H; S; D] (jnp.matmul_elem w v 2 S)).
  rewrite (transpose_ok ao [B; H; S; D] [0; 2; 1; 3] eq_refl eq_refl).
  cbn [bind map nth].
  set (aoT := build [B; S; H; D] (jnp.transpose_elem ao [0; 2; 1; 3])).
  exists aoT, (nn.mkDense kq (zeros [H * D])), (nn.mkDense kk (zeros [H * D])),
    (nn.mkDense kv (zeros [H * D])).
  split; [reflexivity|]. split; [reflexivity|].
  repeat split; assumption.
Qed.

Lemma MultiHeadAttention_init_spec (self : MultiHeadAttention.t) (x : tensor)
  (B S d H D E : nat) :
  shape x = [B; S; d] ->
  MultiHeadAttention.num_heads self = Z.of_nat H ->
  MultiHeadAttention.head_dim self = Z.of_nat D ->
  MultiHeadAttention.embed_dim self = Z.of_nat E ->
  initialises kernel_init Query [d; H * D] ->
  initialises kernel_init Key [d; H * D] ->
  initialises kernel_init Value [d; H * D] ->
  initialises kernel_init Out [H * D; E] ->
  all_positive [B; S; d; H; D; E] = true ->
  exists variables,
    MultiHeadAttention_init kernel_init self x = Ok variables /\
    MultiHeadAttention.initialised self variables d H D E.
Proof.
  intros Hx HH HD HE Hq Hk Hv (ko & Hko & Hso) Hpos.
  positive_dims Hpos.
  destruct (MultiHeadAttention_init_heads self x B S d H D E Hx HH HD HE
              Hq Hk Hv)
    as (aoT & pq & pk & pv & Hinit & HsT & [Hq1 Hq2] & [Hk1 Hk2] & [Hv1 Hv2]);
    try assumption.
  rewrite Hinit, (reshape_merge aoT B S H D HsT) by assumption.
  cbn [bind].
  assert (HHD : 0 < H * D) by nia.
  rewrite (Dense_init_ok _ ko E (H * D) [B; S]
             (mkTensor [B; S; H * D] (data aoT)) eq_refl Hko Hso)
    by assumption.
  cbn [bind fst].
  eexists. split; [reflexivity|].
  repeat split; assumption.
Qed.

Lemma MultiHeadAttention_init_empty (self : MultiHeadAttention.t) (x : tensor)
  (B S d H D E : nat) :
  shape x = [B; S; d] ->
  MultiHeadAttention.num_heads self = Z.of_nat H ->
  MultiHeadAttention.head_dim self = Z.of_nat D ->
  MultiHeadAttention.embed_dim self = Z.of_nat E ->
  initialises kernel_init Query [d; H * D] ->
  initialises kernel_init Key [d; H * D] ->
  initialises kernel_init Value [d; H * D] ->
  B = 0 \/ S = 0 ->
  MultiHeadAttention_init kernel_init self x = Raise ZeroDivisionError.
Proof.
  intros Hx HH HD HE Hq Hk Hv H0.
  destruct (Nat.eq_dec d 0) as [Hd|Hd];
    [|destruct (Nat.eq_dec (H * D) 0) as [HHD|HHD]].
  - destruct Hq as (kq & Hkq & _).
    unfold MultiHeadAttention_init, MultiHeadAttention.setup.
    cbn [bind MultiHeadAttention.query]. rewrite Hx, HH, HD, <- Nat2Z.inj_mul.
    rewrite (Dense_init_zero _ kq (H * D) d [B; S] x Hx Hkq (or_introl Hd)).
    reflexivity.
  - destruct Hq as (kq & Hkq & _).
    unfold MultiHeadAttention_init, MultiHeadAttention.setup.
    cbn [bind MultiHeadAttention.query]. rewrite Hx, HH, HD, <- Nat2Z.inj_mul.
    rewrite (Dense_init_zero _ kq (H * D) d [B; S] x Hx Hkq (or_intror HHD)).
    reflexivity.
  - destruct (MultiHeadAttention_init_heads self x B S d H D E Hx HH HD HE
                Hq Hk Hv)
      as (aoT & pq & pk & pv & Hinit & HsT & _); [lia|nia|nia|].
    rewrite Hinit, (reshape_merge_empty aoT B S H D HsT H0). reflexivity.
Qed.

End Initialisation.

(** X13.  The variables that [model.init] creates for the single-head
    module from an example input of embedding dimension [d] serve every
    non-empty input of that embedding dimension, whatever its batch size
    and sequence length, and no input of another embedding dimension: the
    forward call returns results of shapes [(B, S, head_dim)] and
    [(B, S, S)] for the former and raises a parameter-shape error for the
    latter. *)
Theorem SelfAttention_init_then_apply :
  forall (kernel_init : sublayer -> list nat -> result tensor)
         (self : SelfAttention.t) (x0 : tensor) (B0 S0 d hd : nat),
    shape x0 = [B0; S0; d] ->
    SelfAttention.head_dim self = Z.of_nat hd ->
    all_positive [B0; S0; d; hd] = true ->
    (forall l, initialises kernel_init l [d; hd]) ->
    exists variables,
      SelfAttention_init kernel_init self x0 = Ok variables /\
      (forall x B S, shape x = [B; S; d] -> 0 < B -> 0 < S ->
         exists output attn_weights,
           SelfAttention.call self variables x = Ok (output, attn_weights) /\
           shape output = [B; S; hd] /\ shape attn_weights = [B; S; S]) /\
      (forall x lead d', shape x = lead ++ [d'] -> 0 < d' -> d' <> d ->
         SelfAttention.call self variables x = Raise ScopeParamShapeError).
Proof.
  intros kernel_init self x0 B0 S0 d hd Hx0 Hhd Hpos Hki.
  positive_dims Hpos.
  destruct (SelfAttention_init_spec kernel_init self x0 B0 S0 d hd Hx0 Hhd
              (Hki Query) (Hki Key) (Hki Value))
    as (variables & Hinit & Hshaped & _); try assumption.
  exists variables. split; [exact Hinit|]. split.
  - intros x B S Hx _ _.
    destruct (SelfAttention_call_spec self variables x B S d hd Hx Hshaped ltac:(lia) ltac:(lia))
      as (out & w & Hcall & Hso & Hsw & _).
    exists out, w. auto.
  - intros x lead d' Hx Hd' Hne.
    destruct Hshaped as (_ & [Hqk _] & _).
    unfold SelfAttention.call, SelfAttention.setup.
    cbn [bind SelfAttention.query].
    rewrite (Dense_mismatch _ _ x lead d' d hd Hx Hqk Hne Hd');
      [reflexivity|lia].
Qed.

Lemma SelfAttention_init_then_apply_witness :
  exists variables,
    SelfAttention_init Notebook.kernel_init Notebook.sa_model Notebook.x
    = Ok variables /\
    (forall x B S, shape x = [B; S; 64] -> 0 < B -> 0 < S ->
       exists output attn_weights,
         SelfAttention.call Notebook.sa_model variables x
         = Ok (output, attn_weights) /\
         shape output = [B; S; 32] /\ shape attn_weights = [B; S; S]) /\
    (forall x lead d', shape x = lead ++ [d'] -> 0 < d' -> d' <> 64 ->
       SelfAttention.call Notebook.sa_model variables x
       = Raise ScopeParamShapeError).
Proof.
  apply (SelfAttention_init_then_apply Notebook.kernel_init Notebook.sa_model
           Notebook.x 1 5 64 32).
  - reflexivity.
  - reflexivity.
  - reflexivity.
  - intros l. exists (ones [64; 32]). split; reflexivity.
Defined.

(** X14.  The variables that [model.init] creates for the multi-head
    module from a non-empty example input of embedding dimension [d] serve
    every non-empty input of that embedding dimension, whatever its batch
    size and sequence length: the forward call returns results of shapes
    [(B, S, embed_dim)] and [(B, num_heads, S, S)].  An input of another
    embedding dimension is rejected with a parameter-shape error. *)
Theorem MultiHeadAttention_init_then_apply :
  forall (kernel_init : sublayer -> list nat -> result tensor)
         (self : MultiHeadAttention.t) (x0 : tensor) (B0 S0 d H D E : nat),
    shape x0 = [B0; S0; d] ->
    MultiHeadAttention.num_heads self = Z.of_nat H ->
    MultiHeadAttention.head_dim self = Z.of_nat D ->
    MultiHeadAttention.embed_dim self = Z.of_nat E ->
    (forall l, initialises kernel_init l [d; H * D]) ->
    initialises kernel_init Out [H * D; E] ->
    all_positive [B0; S0; d; H; D; E] = true ->
    exists variables,
      MultiHeadAttention_init kernel_init self x0 = Ok variables /\
      (forall x B S, shape x = [B; S; d] -> 0 < B -> 0 < S ->
         exists output attn_weights,
           MultiHeadAttention.call self variables x
           = Ok (output, attn_weights) /\
           shape output = [B; S; E] /\ shape attn_weights = [B; H; S; S]) /\
      (forall x B S d', shape x = [B; S; d'] -> 0 < d' -> d' <> d ->
         MultiHeadAttention.call self variables x = Raise ScopeParamShapeError).
Proof.
  intros kernel_init self x0 B0 S0 d H D E Hx0 HH HD HE Hki Hko Hpos.
  destruct (MultiHeadAttention_init_spec kernel_init self x0 B0 S0 d H D E
              Hx0 HH HD HE (Hki Query) (Hki Key) (Hki Value) Hko Hpos)
    as (variables & Hinit & Hshaped).
  positive_dims Hpos.
  exists variables. split; [exact Hinit|]. split.
  - intros x B S Hx HB HS.
    destruct (MultiHeadAttention_call_spec self variables x B S d H D E
                Hx Hshaped ltac:(lia) ltac:(lia) ltac:(lia) HB HS ltac:(lia))
      as (out & w & Hcall & Hso & Hsw & _).
    exists out, w. auto.
  - intros x B S d' Hx Hd' Hne.
    destruct Hshaped as (HH' & HD' & _ & [Hqk _] & _).
    unfold MultiHeadAttention.call, MultiHeadAttention.setup.
    cbn [bind MultiHeadAttention.query]. rewrite Hx.
    rewrite (Dense_mismatch _ _ x [B; S] d' d (H * D) Hx Hqk Hne Hd');
      [reflexivity|nia].
Qed.

Lemma MultiHeadAttention_init_then_apply_witness :
  exists variables,
    MultiHeadAttention_init Notebook.kernel_init Notebook.mha_model Notebook.x
    = Ok variables /\
    (forall x B S, shape x = [B; S; 64] -> 0 < B -> 0 < S ->
       exists output attn_weights,
         MultiHeadAttention.call Notebook.mha_model variables x
         = Ok (output, attn_weights) /\
         shape output = [B; S; 64] /\ shape attn_weights = [B; 4; S; S]) /\
    (forall x B S d', shape x = [B; S; d'] -> 0 < d' -> d' <> 64 ->
       MultiHeadAttention.call Notebook.mha_model variables x
       = Raise ScopeParamShapeError).
Proof.
  apply (MultiHeadAttention_init_then_apply Notebook.kernel_init
           Notebook.mha_model Notebook.x 1 5 64 4 16 64).
  - reflexivity.
  - reflexivity.
  - reflexivity.
  - reflexivity.
  - intros l. exists (ones [64; 4 * 16]). split; reflexivity.
  - exists (ones [4 * 16; 64]). split; reflexivity.
  - reflexivity.
Defined.

(** X15.  [model.init] is where an unusable configuration or example input
    is first rejected: it raises for a negative [head_dim] (single-head)
    and for a negative [num_heads * head_dim] (multi-head), whatever the
    example input; and the multi-head module cannot be initialised from an
    example input with an empty batch or an empty sequence. *)
Theorem init_rejections :
  (forall (kernel_init : sublayer -> list nat -> result tensor)
          (self : SelfAttention.t) (x0 : tensor),
      (SelfAttention.head_dim self < 0)%Z ->
      exists e, SelfAttention_init kernel_init self x0 = Raise e) /\
  (forall (kernel_init : sublayer -> list nat -> result tensor)
          (self : MultiHeadAttention.t) (x0 : tensor),
      (MultiHeadAttention.num_heads self * MultiHeadAttention.head_dim self < 0)%Z ->
      exists e, MultiHeadAttention_init kernel_init self x0 = Raise e) /\
  (forall (kernel_init : sublayer -> list nat -> result tensor)
          (self : MultiHeadAttention.t) (x0 : tensor) (B0 S0 d H D E : nat),
      shape x0 = [B0; S0; d] ->
      MultiHeadAttention.num_heads self = Z.of_nat H ->
      MultiHeadAttention.head_dim self = Z.of_nat D ->
      MultiHeadAttention.embed_dim self = Z.of_nat E ->
      (forall l, initialises kernel_init l [d; H * D]) ->
      B0 = 0 \/ S0 = 0 ->
      exists e, MultiHeadAttention_init kernel_init self x0 = Raise e).
Proof.
  split; [|split].
  - intros kernel_init self x0 Hneg.
    unfold SelfAttention_init, SelfAttention.setup.
    cbn [bind SelfAttention.query].
    destruct (Dense_init_negative (kernel_init Query) _ x0 Hneg) as [e He].
    rewrite He. exists e. reflexivity.
  - intros kernel_init self x0 Hneg.
    unfold MultiHeadAttention_init, MultiHeadAttention.setup.
    cbn [bind MultiHeadAttention.query].
    destruct (shape x0) as [|B [|S [|d [|? ?]]]];
      try (exists ValueError; reflexivity).
    destruct (Dense_init_negative (kernel_init Query) _ x0 Hneg) as [e He].
    rewrite He. exists e. reflexivity.
  - intros kernel_init self x0 B0 S0 d H D E Hx0 HH HD HE Hki H0.
    exists ZeroDivisionError.
    exact (MultiHeadAttention_init_empty kernel_init self x0 B0 S0 d H D E
             Hx0 HH HD HE (Hki Query) (Hki Key) (Hki Value) H0).
Qed.

Lemma init_rejections_witness :
  (exists e, SelfAttention_init Notebook.kernel_init (SelfAttention.mk 64 (-32))
               Notebook.x = Raise e) /\
  (exists e, MultiHeadAttention_init Notebook.kernel_init
               (MultiHeadAttention.mk 64 (-4) 16) Notebook.x = Raise e) /\
  (exists e, MultiHeadAttention_init Notebook.kernel_init Notebook.mha_model
               Notebook.x_empty = Raise e).
Proof.
  split; [|split].
  - apply (proj1 init_rejections Notebook.kernel_init
             (SelfAttention.mk 64 (-32)) Notebook.x).
    reflexivity.
  - apply (proj1 (proj2 init_rejections) Notebook.kernel_init
             (MultiHeadAttention.mk 64 (-4) 16) Notebook.x).
    reflexivity.
  - apply (proj2 (proj2 init_rejections) Notebook.kernel_init
             Notebook.mha_model Notebook.x_empty 1 0 64 4 16 64);
      try reflexivity.
    + intros l. exists (ones [64; 4 * 16]). split; reflexivity.
    + right. reflexivity.
Defined.

(** ** Splitting into heads and merging back *)

(** X16.  The layout change that merges the heads,
    [.transpose(0, 2, 1, 3).reshape(batch_size, seq_len, -1)], undoes the
    one that splits them,
    [.reshape(batch_size, seq_len, num_heads, head_dim).transpose(0, 2, 1, 3)]:
    applied one after the other to a non-empty array of shape
    [(B, S, num_heads * head_dim)] they return an array of the same shape
    with the same elements. *)
Theorem merging_heads_undoes_splitting :
  forall (self : MultiHeadAttention.t) (a : tensor) (B S H D : nat),
    MultiHeadAttention.num_heads self = Z.of_nat H ->
    MultiHeadAttention.head_dim self = Z.of_nat D ->
    shape a = [B; S; H * D] ->
    0 < B -> 0 < S ->
    exists m,
      (a1 <- MultiHeadAttention.split_heads self B S a ;;
       a2 <- jnp.transpose a1 [0; 2; 1; 3] ;;
       jnp.reshape a2 [Z.of_nat B; Z.of_nat S; (-1)%Z]) = Ok m /\
      shape m = [B; S; H * D] /\
      forall b i f, b < B -> i < S -> f < H * D ->
        get m [b; i; f] = get a [b; i; f].
Proof.
  intros self a B S H D HH HD Ha HB HS.
  rewrite (split_heads_ok self a B S H D HH HD Ha). cbn [bind].
  set (a1 := build [B; H; S; D]
               (jnp.transpose_elem (mkTensor [B; S; H; D] (data a))
                  [0; 2; 1; 3])).
  rewrite (transpose_ok a1 [B; H; S; D] [0; 2; 1; 3] eq_refl eq_refl).
  cbn [bind map nth].
  set (a2 := build [B; S; H; D] (jnp.transpose_elem a1 [0; 2; 1; 3])).
  rewrite (reshape_merge a2 B S H D eq_refl HB HS).
  eexists. split; [reflexivity|]. split; [reflexivity|].
  intros b i f Hb Hi Hf.
  assert (HD0 : 0 < D) by (destruct D; [lia | lia]).
  assert (Hq : f / D < H) by (apply Nat.Div0.div_lt_upper_bound; lia).
  assert (Hr : f mod D < D) by (apply Nat.mod_upper_bound; lia).
  rewrite (get_reshape_merge a2 B S H D b i f eq_refl).
  unfold a2. rewrite get_build by bounds.
  rewrite (transpose_elem_0213 a1 B H S D) by reflexivity.
  unfold a1. rewrite (get_split_heads a B S H D b (f / D) i (f mod D))
    by assumption.
  f_equal. f_equal. f_equal.
  pose proof (Nat.div_mod_eq f D). f_equal. lia.
Qed.

Lemma merging_heads_undoes_splitting_witness :
  exists m,
    (a1 <- MultiHeadAttention.split_heads Pair.mha_model 2 2 Pair.x ;;
     a2 <- jnp.transpose a1 [0; 2; 1; 3] ;;
     jnp.reshape a2 [Z.of_nat 2; Z.of_nat 2; (-1)%Z]) = Ok m /\
    shape m = [2; 2; 2 * 1] /\
    forall b i f, b < 2 -> i < 2 -> f < 2 * 1 ->
      get m [b; i; f] = get Pair.x [b; i; f].
Proof.
  apply (merging_heads_undoes_splitting Pair.mha_model Pair.x 2 2 2 1).
  - reflexivity.
  - reflexivity.
  - reflexivity.
  - lia.
  - lia.
Defined.
